(** * pyexodus: the Exodus writer of [pyexodus/core.py] over a model of its container

    [core.py] defines one class, [exodus], whose methods write an Exodus II
    mesh file through an [h5netcdf.File]: a dictionary of named dimensions, a
    dictionary of named variables and a dictionary of attributes.  This
    development embeds the constructor and the methods that write
    coordinates, allocate element blocks and side sets, write connectivity,
    declare, name and write the three kinds of variables, write the time and
    close the file, and the writers of info records and of side sets, each
    under its own name.

    - The object is explicit state: a method is a function from the object
      to an outcome (a value or a Python exception) and the object as the
      method leaves it, so that what a failing call has already written stays
      visible.
    - The container is modelled by finite maps with string keys.  Declaring
      a dimension or creating a variable under a name that is taken raises,
      as h5netcdf does; a variable created without data is filled with
      zeros; an index is normalised the Python way (negative counts from
      the end) and raises when it is out of range.
    - Integers are mathematical integers: what numpy and HDF5 do with a value
      that does not fit the 32 bits of a stored integer, or the type of the
      array it is computed in, is not modelled.  The statements about
      integers that are stored keep them within these ranges
      ([int32_range], [dtype_range]), where the model is what they do.
      Floating-point numbers are only stored, never computed with; their type
      is a parameter.  Text has code points below 256 and is encoded as
      UTF-8, Python 3's default.
    - The [while] loop of the class, in [put_elem_connectivity], takes fuel;
      running out of fuel is reported as [None], apart from every Python
      outcome.  The [for] loops run over lists and need none. *)

From Stdlib Require Import ZArith Lia Ascii String.
From stdpp Require Import base option list strings pretty gmap.

Local Open Scope Z_scope.

(** ** Python exceptions *)

Inductive exn : Type :=
| AssertionError (msg : string)
| KeyError (key : string)
| ValueError (msg : string)
| TypeError (msg : string)
| ZeroDivisionError
| IndexError
| NotImplementedError
| UnicodeDecodeError.

(** ** The container: dimensions, variables, attributes *)

Inductive dtype : Type := int32 | float32 | float64 | S1.

Inductive attr : Type :=
| AttrString (s : string)          (* np.string_(...) *)
| AttrInt32 (v : list Z)           (* np.array([...], dtype=np.int32) *)
| AttrFloat32 (v : list string).   (* np.float32([...]), the literals as written *)

(** [**self._comp_opts]: the keyword arguments every [create_variable] gets. *)
Record comp_opts : Type := CompOpts {
  chunks : bool;
  compression : string;
  compression_opts : Z
}.

(** The NUL byte, which a cell of an [|S1] array holds for [b""]. *)
Definition NUL : ascii := "000"%char.

Section Exodus.

Context {float : Type}.
(** The value a floating-point variable is filled with when it is created. *)
Variable fzero : float.

(** The cells of a variable, row-major. *)
Inductive array : Type :=
| IntArr (l : list Z)
| FloatArr (l : list float)
| CharArr (l : list ascii).

Definition array_size (a : array) : nat :=
  match a with
  | IntArr l => length l
  | FloatArr l => length l
  | CharArr l => length l
  end.

Record variable : Type := mkVariable {
  v_dimensions : list string;
  v_shape : list Z;
  v_dtype : dtype;
  v_data : array;
  v_attrs : gmap string attr;
  v_kwargs : option comp_opts
}.

Record File : Type := mkFile {
  dimensions : gmap string Z;
  variables : gmap string variable;
  attrs : gmap string attr
}.

(** [h5netcdf.File(file)] on a path that does not exist. *)
Definition new_file : File :=
  {| dimensions := ∅; variables := ∅; attrs := ∅ |}.

(** ** The [exodus] object and its methods' monad *)

Record exodus : Type := mkExodus {
  _f : File;
  _comp_opts : option comp_opts;
  __f_dtype : dtype;
  __f_word_size : Z
}.

Definition M (A : Type) : Type := exodus → (exn + A) * exodus.

#[global] Instance M_ret : MRet M := λ A a s, (inr a, s).
#[global] Instance M_bind : MBind M := λ A B k m s,
  match m s with
  | (inr a, s') => k a s'
  | (inl e, s') => (inl e, s')
  end.

Definition raise {A : Type} (e : exn) : M A := λ s, (inl e, s).

Definition gets {A : Type} (g : exodus → A) : M A := λ s, (inr (g s), s).

Definition modify (g : exodus → exodus) : M unit := λ s, (inr (), g s).

(** The object with its file replaced, and with one entry of one of the
    file's three dictionaries set. *)
Definition set_file (f : File) (s : exodus) : exodus :=
  {| _f := f; _comp_opts := _comp_opts s; __f_dtype := __f_dtype s;
     __f_word_size := __f_word_size s |}.

Definition set_dim (name : string) (size : Z) (s : exodus) : exodus :=
  set_file {| dimensions := <[name := size]> (dimensions (_f s));
              variables := variables (_f s); attrs := attrs (_f s) |} s.

Definition set_var (name : string) (v : variable) (s : exodus) : exodus :=
  set_file {| dimensions := dimensions (_f s);
              variables := <[name := v]> (variables (_f s));
              attrs := attrs (_f s) |} s.

Definition set_attr (key : string) (value : attr) (s : exodus) : exodus :=
  set_file {| dimensions := dimensions (_f s); variables := variables (_f s);
              attrs := <[key := value]> (attrs (_f s)) |} s.

(** [assert c, msg] *)
Definition py_assert (c : bool) (msg : string) : M unit :=
  if c then mret () else raise (AssertionError msg).

(** *** [self._f.dimensions] *)

(** [name in self._f.dimensions] *)
Definition dims_contains (name : string) : M bool :=
  gets (λ s, bool_decide (is_Some (dimensions (_f s) !! name))).

(** [self._f.dimensions[name]] *)
Definition dims_getitem (name : string) : M Z :=
  d ← gets (λ s, dimensions (_f s) !! name);
  match d with
  | Some n => mret n
  | None => raise (KeyError name)
  end.

(** [self._f.dimensions[name] = size] *)
Definition dims_setitem (name : string) (size : Z) : M unit :=
  taken ← dims_contains name;
  if (taken : bool) then raise (ValueError "dimension already exists")
  else modify (set_dim name size).

(** *** [self._f.variables] *)

(** [name in self._f.variables] *)
Definition vars_contains (name : string) : M bool :=
  gets (λ s, bool_decide (is_Some (variables (_f s) !! name))).

(** [self._f.variables[name]] *)
Definition vars_getitem (name : string) : M variable :=
  v ← gets (λ s, variables (_f s) !! name);
  match v with
  | Some v => mret v
  | None => raise (KeyError name)
  end.

(** The variable [name] after a write to its cells or attributes. *)
Definition vars_store (name : string) (v : variable) : M unit :=
  modify (set_var name v).

Definition fill (dt : dtype) (n : nat) : array :=
  match dt with
  | int32 => IntArr (replicate n 0)
  | float32 | float64 => FloatArr (replicate n fzero)
  | S1 => CharArr (replicate n NUL)
  end.

(** A name given with a leading slash is a name in the root group. *)
Definition root_name (name : string) : string :=
  match name with
  | String "/" rest => rest
  | _ => name
  end.

(** [self._f.create_variable(name, dims, dtype=dt, data=data, **self._comp_opts)] *)
Definition create_variable (name : string) (dims : list string) (dt : dtype)
    (data : option array) : M unit :=
  let name := root_name name in
  taken ← vars_contains name;
  if (taken : bool) then raise (ValueError "name already exists") else
  shape ← mapM dims_getitem dims;
  if existsb (λ n, n <? 0) shape then raise (ValueError "negative dimension") else
  let size := Z.to_nat (foldr Z.mul 1 shape) in
  cells ← match data with
          | None => mret (fill dt size)
          | Some a =>
              if bool_decide (array_size a = size) then mret a
              else raise (ValueError "data does not fit the shape")
          end;
  kwargs ← gets _comp_opts;
  vars_store name {| v_dimensions := dims; v_shape := shape; v_dtype := dt;
                     v_data := cells; v_attrs := ∅; v_kwargs := kwargs |}.

(** [self._f.variables[name].attrs[key] = value] *)
Definition var_attrs_setitem (name key : string) (value : attr) : M unit :=
  v ← vars_getitem name;
  vars_store name {| v_dimensions := v_dimensions v; v_shape := v_shape v;
                     v_dtype := v_dtype v; v_data := v_data v;
                     v_attrs := <[key := value]> (v_attrs v);
                     v_kwargs := v_kwargs v |}.

(** [self._f.attrs[key] = value] *)
Definition attrs_setitem (key : string) (value : attr) : M unit :=
  modify (set_attr key value).

(** ** Creating the file *)

(** The arguments of [exodus(...)], with the two facts about the machine the
    constructor asks for. *)
Record init_args : Type := InitArgs {
  file : string;
  mode : string;
  array_type : string;
  title : string;
  numDims : Z;
  numNodes : Z;
  numElems : Z;
  numBlocks : Z;
  numNodeSets : Z;
  numSideSets : Z;
  io_size : Z;
  compression_arg : option (string * Z);
  path_exists : bool;      (* os.path.exists(file) *)
  arch_64bit : bool        (* platform.architecture()[0] == "64bit" *)
}.

(** Write all the attributes. *)
Definition _write_attrs (title : string) : M unit :=
  attrs_setitem "api_version" (AttrFloat32 ["6.30000019"]);;
  attrs_setitem "version" (AttrFloat32 ["6.30000019"]);;
  ws ← gets __f_word_size;
  attrs_setitem "floating_point_word_size" (AttrInt32 [ws]);;
  attrs_setitem "file_size" (AttrInt32 [1]);;
  attrs_setitem "maximum_name_length" (AttrInt32 [32]);;
  attrs_setitem "int64_status" (AttrInt32 [0]);;
  attrs_setitem "title" (AttrString title).

(** The variables every file has.  The loop over ["xyz"] does not look at
    the number of dimensions. *)
Definition _create_variables : M unit :=
  (* Coordinate names. *)
  create_variable "/coor_names" ["num_dim"; "len_name"] S1 None;;
  (* Coordinates. *)
  fdt ← gets __f_dtype;
  mapM (λ i, create_variable ("/coord" +:+ i) ["num_nodes"] fdt None)
       ["x"; "y"; "z"];;
  (* Element block stuff. *)
  create_variable "/eb_names" ["num_el_blk"; "len_name"] S1 None;;
  n ← dims_getitem "num_el_blk";
  create_variable "/eb_prop1" ["num_el_blk"] int32
    (Some (IntArr (replicate (Z.to_nat n) (-1))));;
  var_attrs_setitem "eb_prop1" "name" (AttrString "ID");;
  create_variable "/eb_status" ["num_el_blk"] int32 None;;
  (* Side sets. *)
  has_ss ← dims_contains "num_side_sets";
  (if (has_ss : bool) then
     create_variable "/ss_names" ["num_side_sets"; "len_name"] S1 None;;
     n ← dims_getitem "num_side_sets";
     create_variable "/ss_prop1" ["num_side_sets"] int32
       (Some (IntArr (replicate (Z.to_nat n) (-1))));;
     var_attrs_setitem "ss_prop1" "name" (AttrString "ID");;
     create_variable "/ss_status" ["num_side_sets"] int32 None
   else mret ());;
  (* Time steps. *)
  create_variable "/time_whole" ["time_step"] fdt None.

(** The object before [__init__] has assigned anything. *)
Definition blank : exodus :=
  {| _f := new_file; _comp_opts := None; __f_dtype := float64;
     __f_word_size := 8 |}.

(** [self.__f_dtype = dt; self.__f_word_size = ws] *)
Definition set_precision (dt : dtype) (ws : Z) : M unit :=
  modify (λ s, {| _f := _f s; _comp_opts := _comp_opts s;
                  __f_dtype := dt; __f_word_size := ws |}).

(** The body of [__init__], statement by statement. *)
Definition init_body (a : init_args) : M unit :=
  modify (λ s, {| _f := _f s;
                  _comp_opts :=
                    match compression_arg a with
                    | Some (method, opt) => Some (CompOpts true method opt)
                    | None => None
                    end;
                  __f_dtype := __f_dtype s; __f_word_size := __f_word_size s |});;
  py_assert (bool_decide (mode a = "w")) "Currently only writing is supported.";;
  py_assert (bool_decide (array_type a = "numpy")) "array_type must be 'numpy'.";;
  py_assert (numNodeSets a =? 0) "numNodeSets must be 0 for now.";;
  py_assert (bool_decide (numDims a ∈ [2; 3]))
            "Only 2 or 3 dimensions are supported.";;
  (if io_size a =? 0 then
     if arch_64bit a then set_precision float64 8 else set_precision float32 4
   else if io_size a =? 4 then set_precision float32 4
   else if io_size a =? 8 then set_precision float64 8
   else raise NotImplementedError);;
  py_assert (negb (path_exists a))
            ("File '" +:+ file a +:+ "' already exists.");;
  modify (set_file new_file);;
  _write_attrs (title a);;
  (* Set the dimensions. *)
  dims_setitem "len_string" 33;;
  dims_setitem "len_line" 81;;
  dims_setitem "four" 4;;
  dims_setitem "len_name" 33;;
  dims_setitem "time_step" 1;;
  (* These are dynamic. *)
  dims_setitem "num_dim" (numDims a);;
  dims_setitem "num_nodes" (numNodes a);;
  dims_setitem "num_elem" (numElems a);;
  dims_setitem "num_el_blk" (numBlocks a);;
  (if negb (numSideSets a =? 0) then
     dims_setitem "num_side_sets" (numSideSets a)
   else mret ());;
  _create_variables.

(** [exodus(...)]: the object, or the exception the constructor raised. *)
Definition __init__ (a : init_args) : exn + exodus :=
  match init_body a blank with
  | (inr _, s) => inr s
  | (inl e, _) => inl e
  end.


(** ** Reading and writing the cells of a variable *)

(** [l[i]] for an integer [i]: a negative index counts from the end. *)
Definition py_index (len i : Z) : option nat :=
  let j := if i <? 0 then i + len else i in
  if (0 <=? j) && (j <? len) then Some (Z.to_nat j) else None.

(** A bound of the slice [lo:hi], as [slice.indices] clips it. *)
Definition py_clamp (len i : Z) : Z :=
  if i <? 0 then Z.max 0 (i + len) else Z.min i len.

(** First position and number of positions of the slice [lo:hi]. *)
Definition py_slice (len lo hi : Z) : nat * nat :=
  let a := py_clamp len lo in
  let b := py_clamp len hi in
  (Z.to_nat a, Z.to_nat (b - a)).

(** [l] with the [count] cells from [start] on replaced by [new]. *)
Definition splice {A : Type} (l : list A) (start count : nat) (new : list A)
    : list A :=
  take start l ++ new ++ drop (start + count) l.

(** The value written into [count] cells: as many cells, or one cell that is
    broadcast. *)
Definition bcast {A : Type} (vals : list A) (count : nat) : option (list A) :=
  if bool_decide (length vals = count) then Some vals
  else match vals with
       | [x] => Some (replicate count x)
       | _ => None
       end.

Definition array_assign (a : array) (start count : nat) (vals : array)
    : exn + array :=
  match a, vals with
  | IntArr l, IntArr n =>
      match bcast n count with
      | Some n' => inr (IntArr (splice l start count n'))
      | None => inl (TypeError "Can't broadcast")
      end
  | FloatArr l, FloatArr n =>
      match bcast n count with
      | Some n' => inr (FloatArr (splice l start count n'))
      | None => inl (TypeError "Can't broadcast")
      end
  | CharArr l, CharArr n =>
      match bcast n count with
      | Some n' => inr (CharArr (splice l start count n'))
      | None => inl (TypeError "Can't broadcast")
      end
  | _, _ => inl (TypeError "No conversion path for dtype")
  end.

Definition set_data (v : variable) (d : array) : variable :=
  {| v_dimensions := v_dimensions v; v_shape := v_shape v;
     v_dtype := v_dtype v; v_data := d; v_attrs := v_attrs v;
     v_kwargs := v_kwargs v |}.

(** Length of the first axis, and number of cells of one entry of it. *)
Definition axis0 (v : variable) : Z := hd 1 (v_shape v).
Definition row_width (v : variable) : Z := foldr Z.mul 1 (tail (v_shape v)).

Definition assign (name : string) (v : variable) (start count : nat)
    (vals : array) : M unit :=
  match array_assign (v_data v) start count vals with
  | inr d => vars_store name (set_data v d)
  | inl e => raise e
  end.

(** [self._f.variables[name][i] = vals] *)
Definition var_setitem (name : string) (i : Z) (vals : array) : M unit :=
  v ← vars_getitem name;
  match py_index (axis0 v) i with
  | None => raise (ValueError "Index out of range")
  | Some r =>
      let w := Z.to_nat (row_width v) in
      assign name v (r * w) w vals
  end.

(** [self._f.variables[name][i, :n] = vals] *)
Definition var_setitem_prefix (name : string) (i n : Z) (vals : array)
    : M unit :=
  v ← vars_getitem name;
  match py_index (axis0 v) i with
  | None => raise (ValueError "Index out of range")
  | Some r =>
      let w := row_width v in
      assign name v (r * Z.to_nat w) (Z.to_nat (py_clamp w n)) vals
  end.

(** [self._f.variables[name][i, j] = vals] *)
Definition var_setitem_cell (name : string) (i j : Z) (vals : array)
    : M unit :=
  v ← vars_getitem name;
  let w := row_width v in
  match py_index (axis0 v) i, py_index w j with
  | Some r, Some c => assign name v (r * Z.to_nat w + c) 1 vals
  | _, _ => raise (ValueError "Index out of range")
  end.

(** [self._f.variables[name][lo:hi] = vals] *)
Definition var_setitem_slice (name : string) (lo hi : Z) (vals : array)
    : M unit :=
  v ← vars_getitem name;
  let '(start, count) := py_slice (axis0 v) lo hi in
  let w := Z.to_nat (row_width v) in
  assign name v (start * w) (count * w) vals.

(** [self._f.variables[name][:] = vals] *)
Definition var_setitem_all (name : string) (vals : array) : M unit :=
  v ← vars_getitem name;
  assign name v 0 (array_size (v_data v)) vals.

(** [self._f.variables[name][:]] of an integer variable *)
Definition var_ints (name : string) : M (list Z) :=
  v ← vars_getitem name;
  match v_data v with
  | IntArr l => mret l
  | _ => raise (TypeError "not an integer variable")
  end.

(** [np.argwhere(l == x)], for a one-dimensional [l] *)
Fixpoint argwhere_from (i : Z) (x : Z) (l : list Z) : list Z :=
  match l with
  | [] => []
  | y :: l' =>
      if y =? x then i :: argwhere_from (i + 1) x l'
      else argwhere_from (i + 1) x l'
  end.
Definition argwhere (x : Z) (l : list Z) : list Z := argwhere_from 0 x l.

(** [np.argwhere(l == x)[0][0]] *)
Definition argwhere_first (x : Z) (l : list Z) : M Z :=
  match argwhere x l with
  | i :: _ => mret i
  | [] => raise IndexError
  end.

(** ** Coordinates *)


(** ** Element blocks *)

Definition put_elem_blk_info (id : Z) (elemType : string)
    (numElems numNodesPerElem numAttrsPerElem : Z) : M unit :=
  num_elem ← dims_getitem "num_elem";
  py_assert (numElems <=? num_elem)
            "Canont have more elements in the block then globally set.";;
  py_assert (numAttrsPerElem =? 0) "Must be 0 for now.";;
  status ← var_ints "eb_status";
  py_assert (bool_decide (0 ∈ status)) "All element blocks already set.";;
  first ← argwhere_first 0 status;
  let idx := first + 1 in
  let num_el_name := "num_el_in_blk" +:+ pretty idx in
  let num_node_per_el_name := "num_nod_per_el" +:+ pretty idx in
  let var_name := "connect" +:+ pretty idx in
  dims_setitem num_el_name numElems;;
  dims_setitem num_node_per_el_name numNodesPerElem;;
  create_variable var_name [num_el_name; num_node_per_el_name] int32 None;;
  var_attrs_setitem var_name "elem_type" (AttrString elemType);;
  (* Set the status and thus "claim" the element block id. *)
  var_setitem "eb_status" (idx - 1) (IntArr [1]);;
  (* For some reason this is always eb_prop1. *)
  var_setitem "eb_prop1" (idx - 1) (IntArr [id]).

(** A [numpy.ndarray] of integers: the size of one item in bytes and the
    items in order. *)
Record ndarray : Type := NdArray {
  itemsize : Z;
  items : list Z
}.

(** [_t[lo:hi]] of [_t = connectivity.reshape((ne, nn))], flat *)
Definition rows_slice (ne nn : Z) (flat : list Z) (lo hi : Z) : list Z :=
  let '(start, count) := py_slice ne lo hi in
  take (count * Z.to_nat nn) (drop (start * Z.to_nat nn) flat).

(** The loop [while idx < ne] of [put_elem_connectivity]: [None] when the
    fuel does not reach its end. *)
Fixpoint connectivity_loop (fuel : nat) (var_name : string) (ne nn : Z)
    (_t : list Z) (shift_indices chunk_size idx : Z) (s : exodus)
    : option ((exn + unit) * exodus) :=
  if idx <? ne then
    match fuel with
    | O => None
    | S fuel' =>
        match var_setitem_slice var_name idx (idx + chunk_size)
                (IntArr ((λ x, x + shift_indices) <$>
                           rows_slice ne nn _t idx (idx + chunk_size))) s with
        | (inr _, s') =>
            connectivity_loop fuel' var_name ne nn _t shift_indices
              chunk_size (idx + chunk_size) s'
        | (inl e, s') => Some (inl e, s')
        end
    end
  else Some (inr (), s).

(** The statements of [put_elem_connectivity] before the branch on
    [shift_indices]: the two sizes of the block. *)
Definition connectivity_sizes (id : Z) (connectivity : ndarray) : M (Z * Z) :=
  let num_el_name := "num_el_in_blk" +:+ pretty id in
  let num_node_per_el_name := "num_nod_per_el" +:+ pretty id in
  has_el ← dims_contains num_el_name;
  py_assert has_el ("Block id " +:+ pretty id +:+ " does not exist");;
  has_nn ← dims_contains num_node_per_el_name;
  py_assert has_nn ("Block id " +:+ pretty id +:+ " does not exist");;
  ne ← dims_getitem num_el_name;
  nn ← dims_getitem num_node_per_el_name;
  py_assert (Z.of_nat (length (items connectivity)) =? ne * nn) "";;
  mret (ne, nn).

(** [int(chunk_size_in_mb * 1024 ** 2 / connectivity.dtype.itemsize / nn)] *)
Definition chunk_rows (chunk_size_in_mb isize nn : Z) : Z :=
  (chunk_size_in_mb * 1024 ^ 2) ÷ isize ÷ nn.

Definition put_elem_connectivity (fuel : nat) (id : Z) (connectivity : ndarray)
    (shift_indices chunk_size_in_mb : Z) (s : exodus)
    : option ((exn + unit) * exodus) :=
  let var_name := "connect" +:+ pretty id in
  match connectivity_sizes id connectivity s with
  | (inl e, s') => Some (inl e, s')
  | (inr (ne, nn), s') =>
      if negb (shift_indices =? 0) then
        if (itemsize connectivity =? 0) || (nn =? 0) then
          Some (inl ZeroDivisionError, s')
        else
          let chunk_size :=
            chunk_rows chunk_size_in_mb (itemsize connectivity) nn in
          connectivity_loop fuel var_name ne nn (items connectivity)
            shift_indices chunk_size 0 s'
      else
        Some (var_setitem_all var_name (IntArr (items connectivity)) s')
  end.

(** ** Text in [|S1] arrays *)

(** [c.encode()] for a one-character string [c]: its UTF-8 bytes. *)
Definition encode (c : ascii) : list ascii :=
  let n := N_of_ascii c in
  if (n <? 128)%N then [c]
  else [ascii_of_N (192 + n / 64); ascii_of_N (128 + n mod 64)].

(** What a cell of an [|S1] array keeps of a byte string: its first byte,
    NUL for the empty one. *)
Definition S1_of (b : list ascii) : ascii := hd NUL b.

(** [[_i.encode() if hasattr(_i, "encode") else _i for _i in name]], as the
    cells that receive it hold it. *)
Definition encoded_cells (name : string) : list ascii :=
  (λ c, S1_of (encode c)) <$> list_ascii_of_string name.

(** [b"".join(row)]: a NUL cell reads as [b""]. *)
Definition join_cells (row : list ascii) : list ascii :=
  filter (λ c, c ≠ NUL) row.

(** The bytes [bytes.strip()] removes at both ends: space, tab, newline,
    carriage return, vertical tab, form feed. *)
Definition is_space (c : ascii) : bool :=
  bool_decide (N_of_ascii c ∈ [32; 9; 10; 13; 11; 12]%N).

Fixpoint lstrip (l : list ascii) : list ascii :=
  match l with
  | c :: l' => if is_space c then lstrip l' else l
  | [] => []
  end.

Definition strip (l : list ascii) : list ascii :=
  reverse (lstrip (reverse (lstrip l))).

(** [bytes.decode()]: UTF-8, for text of code points below 256. *)
Fixpoint decode (bs : list ascii) : option string :=
  match bs with
  | [] => Some EmptyString
  | b :: bs' =>
      let n := N_of_ascii b in
      if (n <? 128)%N then String b <$> decode bs'
      else
        match bs' with
        | b2 :: bs'' =>
            let m := N_of_ascii b2 in
            if ((n =? 194) || (n =? 195))%N && (128 <=? m)%N && (m <? 192)%N
            then String (ascii_of_N ((n - 192) * 64 + (m - 128))) <$> decode bs''
            else None
        | [] => None
        end
  end.

(** The rows of a two-dimensional array of [w] columns stored in [l]. *)
Definition rows_of {A : Type} (n w : nat) (l : list A) : list (list A) :=
  (λ r, take w (drop (r * w) l)) <$> seq 0 n.

(** [[b"".join(_i).strip().decode() for _i in self._f.variables[name][:]]] *)
Definition get_names (name : string) : M (list string) :=
  v ← vars_getitem name;
  match v_data v with
  | CharArr l =>
      mapM (λ row, match decode (strip (join_cells row)) with
                   | Some s => mret s
                   | None => raise UnicodeDecodeError
                   end)
           (rows_of (Z.to_nat (axis0 v)) (Z.to_nat (row_width v)) l)
  | _ => raise (TypeError "not a character variable")
  end.

(** [names.index(name)] *)
Fixpoint list_index (name : string) (names : list string) : option Z :=
  match names with
  | [] => None
  | n :: names' =>
      if bool_decide (n = name) then Some 0
      else Z.succ <$> list_index name names'
  end.

Definition index_of (name : string) (names : list string) : M Z :=
  match list_index name names with
  | Some i => mret i
  | None => raise (ValueError (name +:+ " is not in list"))
  end.

Definition len (s : string) : Z := Z.of_nat (String.length s).

(** ** Time *)

Definition put_time (step : Z) (value : float) : M unit :=
  py_assert (0 <? step) "Step must be larger than 0.";;
  time_step ← dims_getitem "time_step";
  py_assert (step <=? time_step) "";;
  var_setitem "time_whole" (step - 1) (FloatArr [value]).

(** ** Global variables *)

Definition set_global_variable_number (number : Z) : M unit :=
  if number =? 0 then mret () else
  dims_setitem "num_glo_var" number;;
  create_variable "name_glo_var" ["num_glo_var"; "len_name"] S1 None;;
  fdt ← gets __f_dtype;
  create_variable "vals_glo_var" ["time_step"; "num_glo_var"] fdt None.

Definition put_global_variable_name (name : string) (index : Z) : M unit :=
  var_setitem "name_glo_var" (index - 1) (CharArr [NUL]);;
  var_setitem_prefix "name_glo_var" (index - 1) (len name)
    (CharArr (encoded_cells name)).

Definition get_global_variable_names : M (list string) :=
  get_names "name_glo_var".

Definition put_global_variable_value (name : string) (step : Z) (value : float)
    : M unit :=
  py_assert (0 <? step) "Step must be larger than 0.";;
  time_step ← dims_getitem "time_step";
  py_assert (step <=? time_step) "";;
  names ← get_global_variable_names;
  idx ← index_of name names;
  var_setitem_cell "vals_glo_var" (step - 1) idx (FloatArr [value]).

(** ** Element variables *)

Definition set_element_variable_number (number : Z) : M unit :=
  if number =? 0 then mret () else
  dims_setitem "num_elem_var" number;;
  create_variable "name_elem_var" ["num_elem_var"; "len_name"] S1 None.

Definition put_element_variable_name (name : string) (index : Z) : M unit :=
  var_setitem "name_elem_var" (index - 1) (CharArr [NUL]);;
  var_setitem_prefix "name_elem_var" (index - 1) (len name)
    (CharArr (encoded_cells name)).

Definition get_element_variable_names : M (list string) :=
  get_names "name_elem_var".

Definition put_element_variable_values (blockId : Z) (name : string) (step : Z)
    (values : list float) : M unit :=
  py_assert (0 <? step) "Step must be larger than 0.";;
  time_step ← dims_getitem "time_step";
  py_assert (step <=? time_step) "";;
  let num_elem_name := "num_el_in_blk" +:+ pretty blockId in
  has_blk ← dims_contains num_elem_name;
  py_assert has_blk ("Block id " +:+ pretty blockId +:+ " not found.");;
  (* 1-based indexing! *)
  names ← get_element_variable_names;
  i ← index_of name names;
  let idx := i + 1 in
  let variable_name :=
    "vals_elem_var" +:+ pretty idx +:+ "eb" +:+ pretty blockId in
  (* If it does not exist, create it. *)
  exists_var ← vars_contains variable_name;
  (if (exists_var : bool) then mret () else
     fdt ← gets __f_dtype;
     create_variable variable_name ["time_step"; num_elem_name] fdt None);;
  var_setitem variable_name (step - 1) (FloatArr values).

(** ** Node variables *)

Definition set_node_variable_number (number : Z) : M unit :=
  if number =? 0 then mret () else
  dims_setitem "num_nod_var" number;;
  create_variable "name_nod_var" ["num_nod_var"; "len_name"] S1 None;;
  fdt ← gets __f_dtype;
  mapM (λ _i, create_variable ("vals_nod_var" +:+ pretty (Z.of_nat _i + 1))
                ["time_step"; "num_nodes"] fdt None)
       (seq 0 (Z.to_nat number));;
  mret ().

Definition put_node_variable_name (name : string) (index : Z) : M unit :=
  (* 1 - based indexing! *)
  num_nod_var ← dims_getitem "num_nod_var";
  py_assert (index <=? num_nod_var) "";;
  var_setitem "name_nod_var" (index - 1) (CharArr [NUL]);;
  var_setitem_prefix "name_nod_var" (index - 1) (len name)
    (CharArr (encoded_cells name)).

Definition get_node_variable_names : M (list string) :=
  get_names "name_nod_var".

Definition put_node_variable_values (name : string) (step : Z)
    (values : list float) : M unit :=
  py_assert (0 <? step) "Step must be larger than 0.";;
  time_step ← dims_getitem "time_step";
  py_assert (step <=? time_step) "";;
  (* 1-based indexing! *)
  names ← get_node_variable_names;
  i ← index_of name names;
  let idx := i + 1 in
  let d_name := "vals_nod_var" +:+ pretty idx in
  var_setitem d_name (step - 1) (FloatArr values).

(** ** Side sets *)

Definition put_side_set_params (id numSetSides numSetDistFacts : Z) : M unit :=
  py_assert (numSetDistFacts =? 0) "Only 0 is currently supported.";;
  prop ← var_ints "ss_prop1";
  py_assert (negb (bool_decide (id ∈ prop)))
            ("Side set id " +:+ pretty id +:+ " already exists.");;
  _t ← var_ints "ss_status";
  let count := Z.of_nat (length (filter (λ x, 0 < x) _t)) in
  num_side_sets ← dims_getitem "num_side_sets";
  py_assert (count <? num_side_sets) "Maximum number of side sets reached.";;
  let idx := count + 1 in
  let dim_name := "num_side_ss" +:+ pretty idx in
  let elem_ss_name := "elem_ss" +:+ pretty idx in
  let side_ss_name := "side_ss" +:+ pretty idx in
  (* Create the dimension and variables. *)
  dims_setitem dim_name numSetSides;;
  create_variable elem_ss_name [dim_name] int32 None;;
  create_variable side_ss_name [dim_name] int32 None;;
  (* Set meta-data. *)
  var_setitem "ss_status" (idx - 1) (IntArr [1]);;
  var_setitem "ss_prop1" (idx - 1) (IntArr [id]).

(** ** Closing *)

(** [self._f.close()] is the container's: it may return or raise, and leaves
    the file as it likes.  The methods below take it as [h5_close]. *)
Definition file_close (h5_close : File → (exn + unit) * File) : M unit := λ s,
  let '(r, f) := h5_close (_f s) in (r, set_file f s).

(** [try: body  except: pass] *)
Definition try_except_pass (body : M unit) : M unit := λ s,
  match body s with
  | (inr _, s') => (inr (), s')
  | (inl _, s') => (inr (), s')
  end.

Definition __del__ (h5_close : File → (exn + unit) * File) : M unit :=
  try_except_pass (file_close h5_close).

Definition close (h5_close : File → (exn + unit) * File) : M unit :=
  try_except_pass (file_close h5_close).

Definition __exit__ (h5_close : File → (exn + unit) * File) : M unit :=
  __del__ h5_close.

(** ** Observations used in the statements *)

(** The per-axis coordinate value arrays of a file: its variables named
    [coord] and an axis letter. *)
Definition coord_arrays (s : exodus) : gmap string variable :=
  filter (λ kv, String.prefix "coord" kv.1 = true) (variables (_f s)).

(** The cells of an integer variable, [None] if there is no such variable. *)
Definition ints_of (s : exodus) (name : string) : option (list Z) :=
  v ← variables (_f s) !! name;
  match v_data v with
  | IntArr l => Some l
  | _ => None
  end.

(** The shape of a variable. *)
Definition shape_of (s : exodus) (name : string) : option (list Z) :=
  v_shape <$> variables (_f s) !! name.



(** ** Info records and the contents of side sets *)

(** [enumerate(info)] *)
Definition enumerate {A : Type} (l : list A) : list (Z * A) :=
  imap (λ i x, (Z.of_nat i, x)) l.

Definition put_info_records (info : list string) : M unit :=
  if bool_decide (info = []) then mret () else
  mapM (λ value,
          len_line ← dims_getitem "len_line";
          py_assert (len value <? len_line)
            ("Records '" +:+ value +:+ "' is longer then "
             +:+ pretty len_line +:+ " letters."))
       info;;
  dims_setitem "num_info" (Z.of_nat (length info));;
  create_variable "info_records" ["num_info"; "len_line"] S1 None;;
  mapM (λ '(idx, value),
          (* Clear just to be safe. *)
          var_setitem "info_records" idx (CharArr [NUL]);;
          if bool_decide (value = EmptyString) then mret () else
          var_setitem_prefix "info_records" idx (len value)
            (CharArr (encoded_cells value)))
       (enumerate info);;
  mret ().

Definition put_side_set (id : Z) (sideSetElements sideSetSides : list Z)
    : M unit :=
  (* Find the side set. *)
  _idx ← var_ints "ss_prop1";
  py_assert (bool_decide (id ∈ _idx))
            ("Could not find side set with id " +:+ pretty id +:+ ".");;
  (* 1-based indexing! *)
  first ← argwhere_first id _idx;
  let idx := first + 1 in
  let elem_ss_name := "elem_ss" +:+ pretty idx in
  let side_ss_name := "side_ss" +:+ pretty idx in
  var_setitem_all elem_ss_name (IntArr sideSetElements);;
  var_setitem_all side_ss_name (IntArr sideSetSides).

Definition put_side_set_name (id : Z) (name : string) : M unit :=
  (* Find the side set. *)
  _idx ← var_ints "ss_prop1";
  py_assert (bool_decide (id ∈ _idx))
            ("Could not find side set with id " +:+ pretty id +:+ ".");;
  (* 1-based indexing! *)
  first ← argwhere_first id _idx;
  let idx := first + 1 in
  var_setitem "ss_names" (idx - 1) (CharArr [NUL]);;
  var_setitem_prefix "ss_names" (idx - 1) (len name)
    (CharArr (encoded_cells name)).

(** ** Definitions used in the statements *)

(** What [create_variable] stores. *)
Definition new_variable (kwargs : option comp_opts) (dims : list string)
    (shape : list Z) (dt : dtype) (cells : array) : variable :=
  {| v_dimensions := dims; v_shape := shape; v_dtype := dt; v_data := cells;
     v_attrs := ∅; v_kwargs := kwargs |}.

(** Arguments [__init__] accepts: they pass its assertions and give sizes
    the container can allocate. *)
Record valid_args (a : init_args) : Prop := ValidArgs {
  va_mode : mode a = "w";
  va_array_type : array_type a = "numpy";
  va_node_sets : numNodeSets a = 0;
  va_dims : numDims a = 2 ∨ numDims a = 3;
  va_io_size : io_size a = 0 ∨ io_size a = 4 ∨ io_size a = 8;
  va_path : path_exists a = false;
  va_nodes : 0 ≤ numNodes a;
  va_elems : 0 ≤ numElems a;
  va_blocks : 0 ≤ numBlocks a;
  va_side_sets : 0 ≤ numSideSets a
}.

(** The precision [__init__] selects from [io_size]. *)
Definition precision_of (a : init_args) : dtype * Z :=
  if io_size a =? 0 then if arch_64bit a then (float64, 8) else (float32, 4)
  else if io_size a =? 4 then (float32, 4) else (float64, 8).

(** The object [__init__] builds from valid arguments. *)
Definition init_opts (a : init_args) : option comp_opts :=
  match compression_arg a with
  | Some (method, opt) => Some (CompOpts true method opt)
  | None => None
  end.

(** A variable of that object, with given cells or filled. *)
Definition init_var (a : init_args) (dims : list string) (shape : list Z)
    (dt : dtype) (cells : array) (ats : gmap string attr) : variable :=
  {| v_dimensions := dims; v_shape := shape; v_dtype := dt; v_data := cells;
     v_attrs := ats; v_kwargs := init_opts a |}.

Definition init_fill (a : init_args) (dims : list string) (shape : list Z)
    (dt : dtype) : variable :=
  init_var a dims shape dt (fill dt (Z.to_nat (foldr Z.mul 1 shape))) ∅.

Definition init_dims (a : init_args) : gmap string Z :=
  let d :=
    <["num_el_blk" := numBlocks a]> (<["num_elem" := numElems a]>
    (<["num_nodes" := numNodes a]> (<["num_dim" := numDims a]>
    (<["time_step" := 1]> (<["len_name" := 33]> (<["four" := 4]>
    (<["len_line" := 81]> (<["len_string" := 33]> ∅)))))))) in
  if numSideSets a =? 0 then d else <["num_side_sets" := numSideSets a]> d.

Definition init_vars (a : init_args) : gmap string variable :=
  let fdt := (precision_of a).1 in
  let ID := <["name" := AttrString "ID"]> ∅ in
  let blocks :=
    <["eb_status" := init_fill a ["num_el_blk"] [numBlocks a] int32]>
    (<["eb_prop1" := init_var a ["num_el_blk"] [numBlocks a] int32
         (IntArr (replicate (Z.to_nat (numBlocks a)) (-1))) ID]>
    (<["eb_names" := init_fill a ["num_el_blk"; "len_name"]
         [numBlocks a; 33] S1]>
    (<["coordz" := init_fill a ["num_nodes"] [numNodes a] fdt]>
    (<["coordy" := init_fill a ["num_nodes"] [numNodes a] fdt]>
    (<["coordx" := init_fill a ["num_nodes"] [numNodes a] fdt]>
    (<["coor_names" := init_fill a ["num_dim"; "len_name"]
         [numDims a; 33] S1]> ∅)))))) in
  let side_sets :=
    if numSideSets a =? 0 then blocks else
    <["ss_status" := init_fill a ["num_side_sets"] [numSideSets a] int32]>
    (<["ss_prop1" := init_var a ["num_side_sets"] [numSideSets a] int32
         (IntArr (replicate (Z.to_nat (numSideSets a)) (-1))) ID]>
    (<["ss_names" := init_fill a ["num_side_sets"; "len_name"]
         [numSideSets a; 33] S1]> blocks)) in
  <["time_whole" := init_fill a ["time_step"] [1] fdt]> side_sets.

Definition init_attrs (a : init_args) : gmap string attr :=
  <["title" := AttrString (title a)]>
  (<["int64_status" := AttrInt32 [0]]>
  (<["maximum_name_length" := AttrInt32 [32]]>
  (<["file_size" := AttrInt32 [1]]>
  (<["floating_point_word_size" := AttrInt32 [(precision_of a).2]]>
  (<["version" := AttrFloat32 ["6.30000019"]]>
  (<["api_version" := AttrFloat32 ["6.30000019"]]> ∅)))))).

Definition init_state (a : init_args) : exodus :=
  {| _f := {| dimensions := init_dims a; variables := init_vars a;
              attrs := init_attrs a |};
     _comp_opts := init_opts a;
     __f_dtype := (precision_of a).1;
     __f_word_size := (precision_of a).2 |}.

(** The arguments of one [put_elem_blk_info] call that passes its first two
    assertions ([numAttrsPerElem] is 0). *)
Record block : Type := Block {
  b_id : Z;
  b_type : string;
  b_elems : Z;
  b_nodes : Z
}.

(** One allocation, and several in a row. *)
Definition put_block (b : block) : M unit :=
  put_elem_blk_info (b_id b) (b_type b) (b_elems b) (b_nodes b) 0.

Fixpoint put_blocks (bs : list block) : M unit :=
  match bs with
  | [] => mret ()
  | b :: bs' => put_block b;; put_blocks bs'
  end.

(** The slot the next [put_elem_blk_info] claims: [idx] of its line
    [idx = np.argwhere(status == 0)[0][0] + 1]. *)
Definition next_slot (s : exodus) : option Z :=
  status ← ints_of s "eb_status";
  match argwhere 0 status with
  | i :: _ => Some (i + 1)
  | [] => None
  end.

(** The file after the blocks [done] have been allocated, in this order, in
    a file of [N] block slots and [NE] elements. *)
Record blocks_inv (N NE : Z) (done : list block) (s : exodus) : Prop := {
  bi_elem : dimensions (_f s) !! "num_elem" = Some NE;
  bi_status : ∃ v, variables (_f s) !! "eb_status" = Some v ∧ v_shape v = [N]
      ∧ v_data v = IntArr (replicate (length done) 1
                           ++ replicate (Z.to_nat N - length done) 0);
  bi_prop : ∃ v, variables (_f s) !! "eb_prop1" = Some v ∧ v_shape v = [N]
      ∧ v_data v = IntArr ((b_id <$> done)
                           ++ replicate (Z.to_nat N - length done) (-1));
  bi_fresh : ∀ j, Z.of_nat (length done) < j →
      dimensions (_f s) !! ("num_el_in_blk" +:+ pretty j) = None
      ∧ dimensions (_f s) !! ("num_nod_per_el" +:+ pretty j) = None
      ∧ variables (_f s) !! ("connect" +:+ pretty j) = None;
  bi_connect : ∀ (i : nat) b, done !! i = Some b →
      dimensions (_f s) !! ("num_el_in_blk" +:+ pretty (Z.of_nat i + 1))
      = Some (b_elems b)
      ∧ dimensions (_f s) !! ("num_nod_per_el" +:+ pretty (Z.of_nat i + 1))
        = Some (b_nodes b)
      ∧ ∃ v, variables (_f s) !! ("connect" +:+ pretty (Z.of_nat i + 1))
             = Some v
             ∧ v_shape v = [b_elems b; b_nodes b]
             ∧ v_data v = IntArr (replicate
                 (Z.to_nat (b_elems b * (b_nodes b * 1))) 0)
}.

(** What a cell of an [int32] variable holds.  Every integer variable of
    the file is created with this type ([eb_prop1], [eb_status], [connect],
    [ss_prop1], [ss_status], [elem_ss], [side_ss]). *)
Definition int32_range (x : Z) : Prop := -2147483648 ≤ x ≤ 2147483647.

(** A block that passes the argument checks, whose array can be created
    and whose id [eb_prop1] can hold. *)
Definition valid_block (NE : Z) (b : block) : Prop :=
  0 ≤ b_elems b ≤ NE ∧ 0 ≤ b_nodes b ∧ int32_range (b_id b).

(** The four calls that take a time step. *)
Inductive step_op : Type :=
| PutTime (value : float)
| PutGlobal (name : string) (value : float)
| PutElement (blockId : Z) (name : string) (values : list float)
| PutNode (name : string) (values : list float).

Definition run_step_op (op : step_op) (step : Z) : M unit :=
  match op with
  | PutTime value => put_time step value
  | PutGlobal name value => put_global_variable_value name step value
  | PutElement blockId name values =>
      put_element_variable_values blockId name step values
  | PutNode name values => put_node_variable_values name step values
  end.

(** What a call needs besides a valid step: the variable it writes is
    there with its shape (or, for an element variable, can be created), the
    name is registered, and the values are one row or one value. *)
Definition ready (op : step_op) (s : exodus) : Prop :=
  match op with
  | PutTime _ =>
      ∃ v l, variables (_f s) !! "time_whole" = Some v ∧ v_shape v = [1]
             ∧ v_data v = FloatArr l
  | PutGlobal name _ =>
      ∃ names idx v n l,
        get_global_variable_names s = (inr names, s)
        ∧ list_index name names = Some idx
        ∧ variables (_f s) !! "vals_glo_var" = Some v ∧ v_shape v = [1; n]
        ∧ v_data v = FloatArr l ∧ 0 ≤ idx < n
  | PutElement blockId name values =>
      ∃ names i ne,
        dimensions (_f s) !! ("num_el_in_blk" +:+ pretty blockId) = Some ne
        ∧ get_element_variable_names s = (inr names, s)
        ∧ list_index name names = Some i
        ∧ (length values = Z.to_nat (ne * 1) ∨ length values = 1%nat)
        ∧ match variables (_f s)
                  !! ("vals_elem_var" +:+ pretty (i + 1) +:+ "eb"
                      +:+ pretty blockId) with
          | Some v => v_shape v = [1; ne] ∧ ∃ l, v_data v = FloatArr l
          | None => 0 ≤ ne ∧ (__f_dtype s = float32 ∨ __f_dtype s = float64)
          end
  | PutNode name values =>
      ∃ names i v nn l,
        get_node_variable_names s = (inr names, s)
        ∧ list_index name names = Some i
        ∧ variables (_f s) !! ("vals_nod_var" +:+ pretty (i + 1)) = Some v
        ∧ v_shape v = [1; nn] ∧ v_data v = FloatArr l
        ∧ (length values = Z.to_nat (nn * 1) ∨ length values = 1%nat)
  end.

(** The arguments of the scenario: three dimensions, four nodes, one
    element, one block slot, no side sets. *)
Definition tet_args : init_args :=
  {| file := "mesh.e"; mode := "w"; array_type := "numpy"; title := "mesh";
     numDims := 3; numNodes := 4; numElems := 1; numBlocks := 1;
     numNodeSets := 0; numSideSets := 0; io_size := 0;
     compression_arg := None; path_exists := false; arch_64bit := true |}.

(** The file after [exodus(...)] with [tet_args] and
    [put_elem_blk_info(100, "TETRA", 1, 4, 0)]. *)
Definition tet_file : exodus :=
  (put_elem_blk_info 100 "TETRA" 1 4 0 (init_state tet_args)).2.

(** A file for one element of 131073 nodes. *)
Definition wide_args : init_args :=
  {| file := "mesh.e"; mode := "w"; array_type := "numpy"; title := "mesh";
     numDims := 3; numNodes := 131073; numElems := 1; numBlocks := 1;
     numNodeSets := 0; numSideSets := 0; io_size := 0;
     compression_arg := None; path_exists := false; arch_64bit := true |}.

(** The connectivity of one element of 131073 nodes, as 64-bit integers. *)
Definition wide_connectivity : ndarray :=
  {| itemsize := 8; items := replicate (Z.to_nat 131073) 0 |}.

(** The three catalogs of variable names. *)
Inductive catalog : Type := Global | Element | Node.

Definition name_var (c : catalog) : string :=
  match c with
  | Global => "name_glo_var"
  | Element => "name_elem_var"
  | Node => "name_nod_var"
  end.

Definition put_variable_name (c : catalog) : string → Z → M unit :=
  match c with
  | Global => put_global_variable_name
  | Element => put_element_variable_name
  | Node => put_node_variable_name
  end.

Definition get_variable_names (c : catalog) : M (list string) :=
  match c with
  | Global => get_global_variable_names
  | Element => get_element_variable_names
  | Node => get_node_variable_names
  end.

(** A name the round trip preserves: 7-bit characters, none of them NUL,
    and no [bytes.strip()] whitespace at either end. *)
Definition clean_name (name : string) : Prop :=
  let l := list_ascii_of_string name in
  Forall (λ c, (N_of_ascii c < 128)%N ∧ c ≠ NUL) l
  ∧ (∀ c, head l = Some c → is_space c = false)
  ∧ (∀ c, last l = Some c → is_space c = false).

(** A file of two dimensions with two block slots and two side-set slots,
    compressed, in double precision. *)
Definition flat_args : init_args :=
  {| file := "flat.e"; mode := "w"; array_type := "numpy"; title := "flat";
     numDims := 2; numNodes := 4; numElems := 2; numBlocks := 2;
     numNodeSets := 0; numSideSets := 2; io_size := 8;
     compression_arg := Some ("gzip", 2); path_exists := false;
     arch_64bit := true |}.

(** That file with two global variables declared and named and the side
    set 7 allocated. *)
Definition flat_file : exodus :=
  ((set_global_variable_number 2;;
    put_global_variable_name "stress" 1;;
    put_global_variable_name "strain" 2;;
    put_side_set_params 7 3 0) (init_state flat_args)).2.

(** What [get_names] makes of one row. *)
Definition decode_row (row : list ascii) : option string :=
  decode (strip (join_cells row)).

(** ** Definitions used in the further statements *)

(** The cells of a floating-point variable, [None] if there is no such
    variable. *)
Definition floats_of (s : exodus) (name : string) : option (list float) :=
  v ← variables (_f s) !! name;
  match v_data v with
  | FloatArr l => Some l
  | _ => None
  end.

(** The rows of a two-dimensional character variable. *)
Definition char_rows_of (s : exodus) (name : string)
    : option (list (list ascii)) :=
  v ← variables (_f s) !! name;
  match v_data v with
  | CharArr l =>
      Some (rows_of (Z.to_nat (axis0 v)) (Z.to_nat (row_width v)) l)
  | _ => None
  end.

(** A name as the [w] cells of its row hold it: its bytes, then NULs. *)
Definition padded (w : nat) (name : string) : list ascii :=
  encoded_cells name ++ replicate (w - String.length name) NUL.

(** The arguments of one [put_side_set_params] call ([numSetDistFacts] is
    0): the id of the side set and its number of sides. *)
Record side_set : Type := SideSet {
  ss_id : Z;
  ss_sides : Z
}.

Fixpoint put_side_sets (sets : list side_set) : M unit :=
  match sets with
  | [] => mret ()
  | x :: sets' =>
      put_side_set_params (ss_id x) (ss_sides x) 0;; put_side_sets sets'
  end.

(** The file after the side sets [done] have been allocated, in this order,
    in a file of [N] side-set slots. *)
Record sides_inv (N : Z) (done : list side_set) (s : exodus) : Prop := {
  si_dim : dimensions (_f s) !! "num_side_sets" = Some N;
  si_status : ∃ v, variables (_f s) !! "ss_status" = Some v ∧ v_shape v = [N]
      ∧ v_data v = IntArr (replicate (length done) 1
                           ++ replicate (Z.to_nat N - length done) 0);
  si_prop : ∃ v, variables (_f s) !! "ss_prop1" = Some v ∧ v_shape v = [N]
      ∧ v_data v = IntArr ((ss_id <$> done)
                           ++ replicate (Z.to_nat N - length done) (-1));
  si_names : ∃ v, variables (_f s) !! "ss_names" = Some v
      ∧ v_shape v = [N; 33]
      ∧ v_data v = CharArr (replicate (Z.to_nat (N * (33 * 1))) NUL);
  si_fresh : ∀ j, Z.of_nat (length done) < j →
      dimensions (_f s) !! ("num_side_ss" +:+ pretty j) = None
      ∧ variables (_f s) !! ("elem_ss" +:+ pretty j) = None
      ∧ variables (_f s) !! ("side_ss" +:+ pretty j) = None;
  si_sets : ∀ (i : nat) x, done !! i = Some x →
      ∀ name, name ∈ ["elem_ss"; "side_ss"] →
      ∃ v, variables (_f s) !! (name +:+ pretty (Z.of_nat i + 1)) = Some v
           ∧ v_shape v = [ss_sides x]
           ∧ v_data v = IntArr (replicate (Z.to_nat (ss_sides x * 1)) 0)
}.

(** A side set [put_side_set_params] can allocate: its id is not the filler
    of [ss_prop1], its array can be created, and [ss_prop1] can hold its
    id. *)
Definition valid_side_set (x : side_set) : Prop :=
  ss_id x ≠ -1 ∧ 0 ≤ ss_sides x ∧ int32_range (ss_id x).

(** What an item of an array of signed integers of [isize] bytes holds; the
    connectivity arrays are taken to be of such a type. *)
Definition dtype_range (isize x : Z) : Prop :=
  - 2 ^ (8 * isize - 1) ≤ x < 2 ^ (8 * isize - 1).

(** An array whose items are items of its type and fit the cells of the
    file. *)
Definition int32_items (conn : ndarray) : Prop :=
  Forall (λ x, dtype_range (itemsize conn) x ∧ int32_range x) (items conn).

(** An array to which [shift] can be added: numpy adds within the type of
    the array, so the shift and every sum are to be values of that type, and
    the sums are to fit the cells of the file. *)
Definition shift_fits (conn : ndarray) (shift : Z) : Prop :=
  dtype_range (itemsize conn) shift
  ∧ Forall (λ x, dtype_range (itemsize conn) x
                 ∧ dtype_range (itemsize conn) (x + shift)
                 ∧ int32_range (x + shift)) (items conn).

(** A file of one block slot and two elements, for elements of 65537
    nodes. *)
Definition rows_args : init_args :=
  {| file := "mesh.e"; mode := "w"; array_type := "numpy"; title := "mesh";
     numDims := 3; numNodes := 65537; numElems := 2; numBlocks := 1;
     numNodeSets := 0; numSideSets := 0; io_size := 0;
     compression_arg := None; path_exists := false; arch_64bit := true |}.

(** The connectivity of two such elements, as 64-bit integers: a row of
    zeros and a row of fives. *)
Definition rows_connectivity : ndarray :=
  {| itemsize := 8;
     items := replicate (Z.to_nat 65537) 0 ++ replicate (Z.to_nat 65537) 5 |}.

(** Declaring the number of variables of a catalog. *)
Definition set_variable_number (c : catalog) : Z → M unit :=
  match c with
  | Global => set_global_variable_number
  | Element => set_element_variable_number
  | Node => set_node_variable_number
  end.

(** Naming the variables of a catalog in order, the first at index 1. *)
Definition put_variable_names (c : catalog) (names : list string) : M unit :=
  mapM (λ '(i, name), put_variable_name c name (i + 1)) (enumerate names);;
  mret ().

(** The dimension that holds the number of variables of a catalog. *)
Definition number_dim (c : catalog) : string :=
  match c with
  | Global => "num_glo_var"
  | Element => "num_elem_var"
  | Node => "num_nod_var"
  end.

(** The file of [flat_args] with its two blocks allocated, a quadrilateral
    and two elements without nodes, and with one node variable and one
    element variable declared and named. *)
Definition mesh_file : exodus :=
  ((put_elem_blk_info 10 "QUAD" 1 4 0;;
    put_elem_blk_info 20 "NULL" 2 0 0;;
    set_node_variable_number 1;;
    put_node_variable_name "temp" 1;;
    set_element_variable_number 1;;
    put_element_variable_name "pressure" 1) (init_state flat_args)).2.

(** * Properties *)

(** ** Running the monad *)

Lemma bind_inr {A B : Type} (m : M A) (k : A → M B) s a s' :
  m s = (inr a, s') → (m ≫= k) s = k a s'.
Proof. intros H. unfold mbind, M_bind. by rewrite H. Qed.

Lemma bind_inl {A B : Type} (m : M A) (k : A → M B) s e s' :
  m s = (inl e, s') → (m ≫= k) s = (inl e, s').
Proof. intros H. unfold mbind, M_bind. by rewrite H. Qed.

Lemma bind_assoc {A B C : Type} (m : M A) (k1 : A → M B) (k2 : B → M C) s :
  ((m ≫= k1) ≫= k2) s = (m ≫= λ x, k1 x ≫= k2) s.
Proof. unfold mbind, M_bind. by destruct (m s) as [[e|a] s']. Qed.

Lemma dims_contains_eq name s :
  dims_contains name s
  = (inr (bool_decide (is_Some (dimensions (_f s) !! name))), s).
Proof. reflexivity. Qed.

Lemma dims_getitem_Some name n s :
  dimensions (_f s) !! name = Some n → dims_getitem name s = (inr n, s).
Proof. intros H. unfold dims_getitem, gets, mbind, M_bind. by rewrite H. Qed.

Lemma dims_setitem_None name n s :
  dimensions (_f s) !! name = None →
  dims_setitem name n s = (inr (), set_dim name n s).
Proof.
  intros H. unfold dims_setitem, dims_contains, gets, mbind, M_bind.
  rewrite H. rewrite bool_decide_eq_false_2; [done | by intros [? ?]].
Qed.

Lemma vars_getitem_Some name v s :
  variables (_f s) !! name = Some v → vars_getitem name s = (inr v, s).
Proof. intros H. unfold vars_getitem, gets, mbind, M_bind. by rewrite H. Qed.

Lemma mapM_dims_getitem dims shape s :
  Forall2 (λ d n, dimensions (_f s) !! d = Some n) dims shape →
  mapM dims_getitem dims s = (inr shape, s).
Proof.
  induction 1 as [|d n dims shape Hd _ IH]; [done|].
  simpl. rewrite (bind_inr _ _ _ _ _ (dims_getitem_Some _ _ _ Hd)).
  by rewrite (bind_inr _ _ _ _ _ IH).
Qed.

Lemma existsb_neg_false (shape : list Z) :
  Forall (λ n, 0 ≤ n) shape → existsb (λ n, n <? 0) shape = false.
Proof.
  induction 1 as [|n shape Hn _ IH]; [done|].
  simpl. rewrite IH. rewrite orb_false_r. lia.
Qed.

Lemma create_variable_fresh name dims shape dt data cells s :
  variables (_f s) !! root_name name = None →
  Forall2 (λ d n, dimensions (_f s) !! d = Some n) dims shape →
  Forall (λ n, 0 ≤ n) shape →
  match data with
  | None => cells = fill dt (Z.to_nat (foldr Z.mul 1 shape))
  | Some a => cells = a ∧ array_size a = Z.to_nat (foldr Z.mul 1 shape)
  end →
  create_variable name dims dt data s
  = (inr (), set_var (root_name name)
               (new_variable (_comp_opts s) dims shape dt cells) s).
Proof.
  intros Hv Hd Hs Hc. unfold create_variable, vars_contains, gets.
  unfold mbind at 1, M_bind at 1. rewrite Hv.
  rewrite bool_decide_eq_false_2 by (by intros [? ?]).
  rewrite (bind_inr _ _ _ _ _ (mapM_dims_getitem _ _ _ Hd)).
  rewrite (existsb_neg_false _ Hs).
  destruct data as [a|].
  - destruct Hc as [-> Ha]. rewrite bool_decide_eq_true_2 by done. reflexivity.
  - subst cells. reflexivity.
Qed.

Lemma var_attrs_setitem_Some name key value v s :
  variables (_f s) !! name = Some v →
  var_attrs_setitem name key value s
  = (inr (), set_var name
       {| v_dimensions := v_dimensions v; v_shape := v_shape v;
          v_dtype := v_dtype v; v_data := v_data v;
          v_attrs := <[key := value]> (v_attrs v); v_kwargs := v_kwargs v |} s).
Proof.
  intros H. unfold var_attrs_setitem.
  by rewrite (bind_inr _ _ _ _ _ (vars_getitem_Some _ _ _ H)).
Qed.

(** Keys of the dictionaries are compared as strings. *)
Ltac str_neq :=
  let H := fresh in intros H; simpl in H; discriminate H.

Ltac norm :=
  cbn [set_var set_dim set_attr set_file set_data _f _comp_opts __f_dtype
       __f_word_size dimensions variables attrs new_variable v_dimensions
       v_shape v_dtype v_data v_attrs v_kwargs fst snd].

Ltac map_lookup :=
  norm; simpl root_name;
  repeat (rewrite lookup_insert_ne by str_neq);
  first [ apply lookup_insert_eq | apply lookup_empty | done ].

Lemma py_assert_true c msg s : c = true → py_assert c msg s = (inr (), s).
Proof. by intros ->. Qed.

Lemma py_assert_false c msg s :
  c = false → py_assert c msg s = (inl (AssertionError msg), s).
Proof. by intros ->. Qed.

Lemma ret_eq {A : Type} (a : A) s : (mret a : M A) s = (inr a, s).
Proof. reflexivity. Qed.

Lemma modify_eq g s : modify g s = (inr (), g s).
Proof. reflexivity. Qed.

Lemma gets_eq {A : Type} (g : exodus → A) s : gets g s = (inr (g s), s).
Proof. reflexivity. Qed.

Lemma set_precision_io a s :
  io_size a = 0 ∨ io_size a = 4 ∨ io_size a = 8 →
  (if io_size a =? 0 then
     if arch_64bit a then set_precision float64 8 else set_precision float32 4
   else if io_size a =? 4 then set_precision float32 4
   else if io_size a =? 8 then set_precision float64 8
   else raise NotImplementedError) s
  = (inr (), {| _f := _f s; _comp_opts := _comp_opts s;
                __f_dtype := (precision_of a).1;
                __f_word_size := (precision_of a).2 |}).
Proof.
  unfold precision_of. intros [-> | [-> | ->]]; simpl; [|done..].
  by destruct (arch_64bit a).
Qed.

Ltac mstep tac :=
  cbv beta; repeat rewrite bind_assoc; erewrite bind_inr; [ | tac ]; norm.

Ltac dims_tac := repeat constructor; map_lookup.

Ltac create_tac :=
  eapply create_variable_fresh;
  [ map_lookup | dims_tac | repeat constructor; lia
  | first [ reflexivity | split; [reflexivity | simpl; rewrite ?length_replicate; f_equal; lia] ] ].

Ltac prim :=
  idtac;
  lazymatch goal with
  | |- @mret _ _ _ _ _ = _ => apply ret_eq
  | |- modify _ _ = _ => apply modify_eq
  | |- gets _ _ = _ => apply gets_eq
  | |- attrs_setitem _ _ _ = _ => apply modify_eq
  | |- dims_contains _ _ = _ => apply dims_contains_eq
  | |- dims_getitem _ _ = _ => apply dims_getitem_Some; map_lookup
  | |- dims_setitem _ _ _ = _ => apply dims_setitem_None; map_lookup
  | |- create_variable _ _ _ _ _ = _ => create_tac
  | |- var_attrs_setitem _ _ _ _ = _ =>
      apply var_attrs_setitem_Some; map_lookup
  end.

Lemma init_body_ok a : valid_args a → init_body a blank = (inr (), init_state a).
Proof.
  intros [Hm Ha Hn Hd Hio Hp Hnn Hne Hnb Hns].
  unfold init_body.
  mstep prim.
  mstep ltac:(apply py_assert_true, bool_decide_eq_true_2, Hm).
  mstep ltac:(apply py_assert_true, bool_decide_eq_true_2, Ha).
  mstep ltac:(apply py_assert_true; lia).
  mstep ltac:(apply py_assert_true, bool_decide_eq_true_2;
              rewrite !elem_of_cons; tauto).
  mstep ltac:(apply (set_precision_io a); done).
  mstep ltac:(apply py_assert_true; by rewrite Hp).
  mstep prim.
  unfold _write_attrs. repeat (mstep prim).
  unfold init_state, init_vars, init_dims, _create_variables.
  destruct (numSideSets a =? 0) eqn:Hss; simpl negb; cbv iota.
  - simpl mapM. repeat (mstep prim).
    rewrite bool_decide_eq_false_2.
    2:{ intros [x Hx]. revert Hx. by map_lookup. }
    mstep prim.
    etrans; [create_tac|]. vm_compute. reflexivity.
  - simpl mapM. repeat (mstep prim).
    rewrite bool_decide_eq_true_2.
    2:{ eexists. by map_lookup. }
    repeat (mstep prim).
    etrans; [create_tac|]. vm_compute. reflexivity.
Qed.

Lemma init_ok a : valid_args a → __init__ a = inr (init_state a).
Proof. intros Ha. unfold __init__. by rewrite (init_body_ok a Ha). Qed.

Lemma init_coord_arrays a :
  dom (coord_arrays (init_state a))
  = ({["coordx"; "coordy"; "coordz"]} : gset string).
Proof.
  unfold coord_arrays, init_state, init_vars; cbn [_f variables].
  destruct (numSideSets a =? 0); vm_compute; reflexivity.
Qed.

Lemma init_coord_shape a name :
  name ∈ ["coordx"; "coordy"; "coordz"] →
  shape_of (init_state a) name = Some [numNodes a].
Proof.
  rewrite !elem_of_cons, elem_of_nil. unfold shape_of, init_state, init_vars.
  cbn [_f variables].
  intros [-> | [-> | [-> | []]]]; destruct (numSideSets a =? 0);
    vm_compute; reflexivity.
Qed.

(** C1, as the code has it.  For every valid dimensionality d in {2,3} (and
    otherwise valid arguments) constructing the file succeeds and creates
    exactly three per-axis coordinate value arrays, [coordx], [coordy] and
    [coordz], each of one cell per node, whatever d is. *)
Theorem init_creates_three_coord_arrays a :
  valid_args a →
  ∃ s, __init__ a = inr s
       ∧ dom (coord_arrays s) = ({["coordx"; "coordy"; "coordz"]} : gset string)
       ∧ size (coord_arrays s) = 3%nat
       ∧ ∀ name, name ∈ ["coordx"; "coordy"; "coordz"] →
                 shape_of s name = Some [numNodes a].
Proof.
  intros Ha. exists (init_state a). split; [by apply init_ok|].
  split; [apply init_coord_arrays|]. split; [|apply init_coord_shape].
  rewrite <- size_dom, init_coord_arrays. reflexivity.
Qed.

(** ** Lists, indices and names *)

Lemma argwhere_from_skip i x l1 l2 :
  Forall (λ y, y ≠ x) l1 →
  argwhere_from i x (l1 ++ l2) = argwhere_from (i + Z.of_nat (length l1)) x l2.
Proof.
  intros H. revert i. induction H as [|y l1 Hy _ IH]; intros i; simpl.
  - f_equal. lia.
  - destruct (Z.eqb_spec y x); [done|]. rewrite IH. f_equal. lia.
Qed.

Lemma argwhere_first_status (k m : nat) s :
  argwhere_first 0 (replicate k 1 ++ replicate (S m) 0) s
  = (inr (Z.of_nat k), s).
Proof.
  unfold argwhere_first, argwhere. rewrite argwhere_from_skip.
  - rewrite length_replicate. reflexivity.
  - apply Forall_replicate. done.
Qed.

Lemma py_index_in_range n i :
  0 ≤ i < n → py_index n i = Some (Z.to_nat i).
Proof.
  intros H. unfold py_index.
  destruct (Z.ltb_spec i 0); [lia|].
  destruct (Z.leb_spec 0 i); [|lia]. destruct (Z.ltb_spec i n); [done|lia].
Qed.

Lemma splice_one {A : Type} (l : list A) (r : nat) (x : A) :
  (r < length l)%nat → splice l r 1 [x] = <[r := x]> l.
Proof.
  intros H. unfold splice. rewrite Nat.add_1_r. simpl.
  symmetry. by apply insert_take_drop.
Qed.

Lemma bcast_same {A : Type} (vals : list A) (count : nat) :
  length vals = count → bcast vals count = Some vals.
Proof. intros H. unfold bcast. by rewrite bool_decide_eq_true_2. Qed.

Lemma insert_status {A : Type} (k m : nat) (a b x : A) :
  <[k := x]> (replicate k a ++ replicate (S m) b)
  = replicate k a ++ x :: replicate m b.
Proof.
  rewrite insert_app_r_alt by (rewrite length_replicate; lia).
  rewrite length_replicate, Nat.sub_diag. reflexivity.
Qed.

Lemma name_inj (prefix : string) (i j : Z) :
  prefix +:+ pretty i = prefix +:+ pretty j → i = j.
Proof.
  intros H. apply (inj pretty). revert H.
  induction prefix as [|c p IH]; simpl; [done|]. intros H. apply IH.
  by injection H.
Qed.

(** Two keys differ: in their fixed parts, or in the number they end in. *)
Ltac key_neq :=
  first [ str_neq
        | let H := fresh in intros H; apply name_inj in H; lia ].


(** ** Integer variables of one dimension *)

Lemma var_ints_Some name v l s :
  variables (_f s) !! name = Some v → v_data v = IntArr l →
  var_ints name s = (inr l, s).
Proof.
  intros Hv Hl. unfold var_ints.
  rewrite (bind_inr _ _ _ _ _ (vars_getitem_Some _ _ _ Hv)). by rewrite Hl.
Qed.

Lemma var_setitem_int name v n l i z s :
  variables (_f s) !! name = Some v → v_shape v = [n] → v_data v = IntArr l →
  0 ≤ i < n → (Z.to_nat i < length l)%nat →
  var_setitem name i (IntArr [z]) s
  = (inr (), set_var name (set_data v (IntArr (<[Z.to_nat i := z]> l))) s).
Proof.
  intros Hv Hs Hl Hi Hlen. unfold var_setitem.
  rewrite (bind_inr _ _ _ _ _ (vars_getitem_Some _ _ _ Hv)).
  unfold axis0, row_width. rewrite Hs. cbn [hd tail foldr].
  rewrite (py_index_in_range _ _ Hi).
  unfold assign, array_assign. rewrite Hl.
  change (Z.to_nat 1) with 1%nat. rewrite Nat.mul_1_r.
  rewrite bcast_same by done. by rewrite splice_one.
Qed.

(** ** Allocating element blocks *)

Lemma blocks_inv_shape N NE done s (i : nat) b :
  blocks_inv N NE done s → done !! i = Some b →
  shape_of s ("connect" +:+ pretty (Z.of_nat i + 1))
  = Some [b_elems b; b_nodes b].
Proof.
  intros Hinv Hi.
  destruct (bi_connect _ _ _ _ Hinv i b Hi) as (_ & _ & v & Hv & Hs & _).
  unfold shape_of. by rewrite Hv, <- Hs.
Qed.

Lemma put_block_step N NE done b s :
  blocks_inv N NE done s → (length done < Z.to_nat N)%nat →
  0 ≤ b_elems b ≤ NE → 0 ≤ b_nodes b →
  ∃ s', put_block b s = (inr (), s')
        ∧ blocks_inv N NE (done ++ [b]) s'
        ∧ next_slot s = Some (Z.of_nat (length done) + 1).
Proof.
  intros [He (vs & Hvs & Hss & Hds) (vp & Hvp & Hsp & Hdp) Hfresh Hconn]
         Hk Hne Hnn.
  set (k := length done) in *.
  destruct (Hfresh (Z.of_nat k + 1) ltac:(lia)) as (Hf1 & Hf2 & Hf3).
  destruct (Z.to_nat N - k)%nat as [|m] eqn:Hm; [lia|].
  eexists. split; [|split].
  - unfold put_block, put_elem_blk_info.
    mstep ltac:(apply dims_getitem_Some; exact He).
    mstep ltac:(apply py_assert_true; lia).
    mstep ltac:(apply py_assert_true; reflexivity).
    mstep ltac:(eapply var_ints_Some; [exact Hvs | exact Hds]).
    mstep ltac:(apply py_assert_true, bool_decide_eq_true_2;
                rewrite elem_of_app; right; left).
    mstep ltac:(apply argwhere_first_status).
    cbv zeta.
    mstep ltac:(apply dims_setitem_None; exact Hf1).
    mstep ltac:(apply dims_setitem_None; norm;
                rewrite lookup_insert_ne by str_neq; exact Hf2).
    mstep ltac:(eapply (create_variable_fresh _ _ [b_elems b; b_nodes b]);
                [ norm; exact Hf3
                | repeat constructor; norm;
                  [ rewrite lookup_insert_ne by str_neq; apply lookup_insert_eq
                  | apply lookup_insert_eq ]
                | repeat constructor; lia
                | reflexivity ]).
    change (root_name ("connect" +:+ ?x)) with ("connect" +:+ x).
    mstep ltac:(apply var_attrs_setitem_Some; norm; apply lookup_insert_eq).
    mstep ltac:(eapply (var_setitem_int _ _ N);
                [ norm; rewrite !lookup_insert_ne by str_neq; exact Hvs
                | exact Hss | exact Hds | lia
                | rewrite length_app, !length_replicate; lia ]).
    eapply (var_setitem_int _ _ N);
      [ norm; rewrite !lookup_insert_ne by str_neq; exact Hvp
      | exact Hsp | exact Hdp | lia
      | rewrite length_app, length_fmap, length_replicate; fold k; lia ].
  - replace (Z.to_nat (Z.of_nat k + 1 - 1)) with k by lia.
    rewrite insert_status.
    rewrite insert_app_r_alt by (rewrite length_fmap; fold k; lia).
    rewrite length_fmap. fold k. rewrite Nat.sub_diag. cbn [insert list_insert].
    assert (Hlen : length (done ++ [b]) = S k)
      by (rewrite length_app; simpl; fold k; lia).
    constructor; norm; rewrite ?Hlen.
    + rewrite !lookup_insert_ne by str_neq. exact He.
    + eexists. split.
      { rewrite lookup_insert_ne by str_neq. apply lookup_insert_eq. }
      split; [exact Hss|].
      cbn [set_data v_data]. f_equal.
      replace (Z.to_nat N - S k)%nat with m by lia.
      rewrite replicate_S_end, <- app_assoc. reflexivity.
    + eexists. split; [apply lookup_insert_eq|]. split; [exact Hsp|].
      cbn [set_data v_data]. f_equal.
      replace (Z.to_nat N - S k)%nat with m by lia.
      rewrite fmap_app, <- app_assoc. reflexivity.
    + intros j Hj. destruct (Hfresh j ltac:(lia)) as (H1 & H2 & H3).
      assert (Hjk : Z.of_nat k + 1 ≠ j) by lia.
      repeat split.
      * rewrite lookup_insert_ne by str_neq.
        rewrite lookup_insert_ne by (intros H; apply name_inj in H; lia).
        exact H1.
      * rewrite lookup_insert_ne by (intros H; apply name_inj in H; lia).
        rewrite lookup_insert_ne by str_neq. exact H2.
      * rewrite !lookup_insert_ne by str_neq.
        rewrite !lookup_insert_ne by (intros H; apply name_inj in H; lia).
        exact H3.
    + intros i b' Hi.
      rewrite !(lookup_insert_ne _ "eb_prop1") by str_neq.
      rewrite !(lookup_insert_ne _ "eb_status") by str_neq.
      destruct (decide (i < k)%nat) as [Hik|Hik].
      * rewrite lookup_app_l in Hi by done.
        rewrite !lookup_insert_ne by key_neq.
        apply (Hconn i b' Hi).
      * rewrite lookup_app_r in Hi by (fold k; lia). fold k in Hi.
        destruct (i - k)%nat as [|d] eqn:Hd; [|by destruct d].
        simplify_eq/=. replace i with k by lia.
        rewrite (lookup_insert_ne _ ("num_nod_per_el" +:+ _)
                   ("num_el_in_blk" +:+ _)) by str_neq.
        rewrite !lookup_insert_eq. split; [done|]. split; [done|].
        eexists. split; [reflexivity|]. split; reflexivity.
  - unfold next_slot, ints_of. rewrite Hvs. simpl. rewrite Hds. simpl.
    unfold argwhere. rewrite argwhere_from_skip by (apply Forall_replicate; done).
    rewrite length_replicate. reflexivity.
Qed.

Lemma put_blocks_spec N NE bs : ∀ done s,
  blocks_inv N NE done s → (length done + length bs ≤ Z.to_nat N)%nat →
  Forall (valid_block NE) bs →
  ∃ s', put_blocks bs s = (inr (), s') ∧ blocks_inv N NE (done ++ bs) s'.
Proof.
  induction bs as [|b bs IH]; intros done s Hinv Hlen Hbs.
  - exists s. rewrite app_nil_r. done.
  - apply Forall_cons in Hbs as [(Hne & Hnn & _) Hbs]. simpl in Hlen.
    destruct (put_block_step N NE done b s Hinv ltac:(lia) Hne Hnn)
      as (s1 & Hrun & Hinv1 & _).
    destruct (IH (done ++ [b]) s1 Hinv1) as (s' & Hrun' & Hinv'); [|done|].
    { rewrite length_app. simpl. lia. }
    exists s'. rewrite <- app_assoc in Hinv'. split; [|done].
    simpl. by rewrite (bind_inr _ _ _ _ _ Hrun).
Qed.

Lemma put_elem_blk_info_full N NE done s id ty ne nn :
  blocks_inv N NE done s → length done = Z.to_nat N → ne ≤ NE →
  put_elem_blk_info id ty ne nn 0 s
  = (inl (AssertionError "All element blocks already set."), s).
Proof.
  intros [He (vs & Hvs & Hss & Hds) _ _ _] Hk Hne.
  unfold put_elem_blk_info.
  mstep ltac:(apply dims_getitem_Some; exact He).
  mstep ltac:(apply py_assert_true; lia).
  mstep ltac:(apply py_assert_true; reflexivity).
  mstep ltac:(eapply var_ints_Some; [exact Hvs | exact Hds]).
  apply bind_inl, py_assert_false, bool_decide_eq_false_2.
  rewrite Hk, Nat.sub_diag, app_nil_r. intros [H _]%elem_of_replicate. done.
Qed.

Lemma init_blocks_inv a :
  0 ≤ numBlocks a →
  blocks_inv (numBlocks a) (numElems a) [] (init_state a).
Proof.
  intros HN. unfold init_state, init_vars, init_dims.
  constructor; cbn [_f dimensions variables length].
  - destruct (numSideSets a =? 0); map_lookup.
  - eexists. split; [|split].
    + destruct (numSideSets a =? 0); map_lookup.
    + reflexivity.
    + simpl. rewrite Z.mul_1_r, Nat.sub_0_r. reflexivity.
  - eexists. split; [|split].
    + destruct (numSideSets a =? 0); map_lookup.
    + reflexivity.
    + simpl. rewrite Nat.sub_0_r. reflexivity.
  - intros j _. destruct (numSideSets a =? 0); repeat split; map_lookup.
  - intros i b Hi. done.
Qed.

Lemma blocks_inv_ints N NE done s :
  blocks_inv N NE done s → length done = Z.to_nat N →
  ints_of s "eb_status" = Some (replicate (Z.to_nat N) 1)
  ∧ ints_of s "eb_prop1" = Some (b_id <$> done).
Proof.
  intros [_ (vs & Hvs & _ & Hds) (vp & Hvp & _ & Hdp) _ _] Hk.
  unfold ints_of. rewrite Hvs, Hvp. simpl. rewrite Hds, Hdp.
  rewrite Hk, Nat.sub_diag, !app_nil_r. done.
Qed.

(** C5.  In a file created with block capacity N, N allocations that pass
    the argument checks of [put_elem_blk_info], under ids that
    [eb_prop1] can hold ([valid_block]), all succeed; the one made
    after i earlier ones claims slot i + 1 (the first zero of [eb_status],
    plus one) and creates [connect(i+1)] with its shape; afterwards every
    slot is claimed, and one more allocation fails with the assertion
    "All element blocks already set." (the spec's CapacityExhausted),
    leaving the file as it was. *)
Theorem blocks_fill_slots_in_call_order a bs :
  valid_args a → length bs = Z.to_nat (numBlocks a) →
  Forall (valid_block (numElems a)) bs →
  ∃ s0 s,
    __init__ a = inr s0
    ∧ put_blocks bs s0 = (inr (), s)
    ∧ (∀ (i : nat) b, bs !! i = Some b →
         ∃ si, put_blocks (take i bs) s0 = (inr (), si)
               ∧ next_slot si = Some (Z.of_nat i + 1)
               ∧ shape_of s ("connect" +:+ pretty (Z.of_nat i + 1))
                 = Some [b_elems b; b_nodes b])
    ∧ ints_of s "eb_status" = Some (replicate (Z.to_nat (numBlocks a)) 1)
    ∧ ints_of s "eb_prop1" = Some (b_id <$> bs)
    ∧ ∀ id ty ne nn, ne ≤ numElems a →
        put_elem_blk_info id ty ne nn 0 s
        = (inl (AssertionError "All element blocks already set."), s).
Proof.
  intros Ha Hlen Hbs. pose proof (init_blocks_inv a (va_blocks a Ha)) as Hinv0.
  destruct (put_blocks_spec _ _ bs [] _ Hinv0) as (s & Hrun & Hinv);
    [simpl; lia | done |]. simpl in Hinv.
  exists (init_state a), s. split; [by apply init_ok|]. split; [done|].
  split; [|split; [|split]].
  - intros i b Hi. pose proof (lookup_lt_Some _ _ _ Hi) as Hlt.
    destruct (put_blocks_spec _ _ (take i bs) [] _ Hinv0) as (si & Hruni & Hinvi).
    { simpl. rewrite length_take. lia. }
    { by apply Forall_take. }
    simpl in Hinvi. exists si. split; [done|].
    assert (Hb : valid_block (numElems a) b).
    { eapply Forall_forall in Hbs; [done|]. by eapply list_elem_of_lookup_2. }
    destruct Hb as (Hne & Hnn & _).
    destruct (put_block_step _ _ _ b si Hinvi) as (_ & _ & _ & Hslot);
      [rewrite length_take; lia | done | done |].
    rewrite length_take, Nat.min_l in Hslot by lia. split; [done|].
    by apply (blocks_inv_shape _ _ _ _ _ _ Hinv).
  - by apply (blocks_inv_ints _ _ _ _ Hinv).
  - by apply (blocks_inv_ints _ _ _ _ Hinv).
  - intros id ty ne nn Hne. by eapply put_elem_blk_info_full.
Qed.

(** ** Side sets *)

Lemma ints_of_Some s name l :
  ints_of s name = Some l →
  ∃ v, variables (_f s) !! name = Some v ∧ v_data v = IntArr l.
Proof.
  unfold ints_of. destruct (variables (_f s) !! name) as [v|]; [|done].
  simpl. destruct (v_data v) as [l'| |] eqn:Hd; [|done..].
  intros [= ->]. exists v. done.
Qed.

Lemma put_side_set_params_duplicate s id numSetSides l :
  ints_of s "ss_prop1" = Some l → id ∈ l →
  put_side_set_params id numSetSides 0 s
  = (inl (AssertionError ("Side set id " +:+ pretty id +:+ " already exists.")),
     s).
Proof.
  intros (v & Hv & Hl)%ints_of_Some Hin. unfold put_side_set_params.
  mstep ltac:(apply py_assert_true; reflexivity).
  mstep ltac:(eapply var_ints_Some; [exact Hv | exact Hl]).
  apply bind_inl, py_assert_false. by rewrite bool_decide_eq_true_2.
Qed.

Lemma put_side_set_params_dist_facts s id numSetSides numSetDistFacts :
  numSetDistFacts ≠ 0 →
  put_side_set_params id numSetSides numSetDistFacts s
  = (inl (AssertionError "Only 0 is currently supported."), s).
Proof.
  intros H. unfold put_side_set_params.
  apply bind_inl, py_assert_false. lia.
Qed.

(** C8.  [put_elem_blk_info] does not compare the id it is given with
    [eb_prop1]: in a file with at least two block slots, two allocations
    under one external id (an id that [eb_prop1] can hold, [valid_block])
    both succeed and the id is stored at slots 1 and 2.
    [put_side_set_params] does compare: an id that [ss_prop1] holds is
    rejected. *)
Theorem duplicate_block_id_claims_new_slot a b1 b2 :
  valid_args a → 2 ≤ numBlocks a →
  valid_block (numElems a) b1 → valid_block (numElems a) b2 →
  b_id b1 = b_id b2 →
  (∃ s0 s,
     __init__ a = inr s0
     ∧ put_blocks [b1; b2] s0 = (inr (), s)
     ∧ ints_of s "eb_prop1"
       = Some (b_id b1 :: b_id b1
               :: replicate (Z.to_nat (numBlocks a) - 2) (-1))
     ∧ shape_of s "connect1" = Some [b_elems b1; b_nodes b1]
     ∧ shape_of s "connect2" = Some [b_elems b2; b_nodes b2])
  ∧ (∀ s id numSetSides l,
       ints_of s "ss_prop1" = Some l → id ∈ l →
       put_side_set_params id numSetSides 0 s
       = (inl (AssertionError
                 ("Side set id " +:+ pretty id +:+ " already exists.")), s)).
Proof.
  intros Ha HN Hb1 Hb2 Hid. split; [|apply put_side_set_params_duplicate].
  pose proof (init_blocks_inv a (va_blocks a Ha)) as Hinv0.
  destruct (put_blocks_spec _ _ [b1; b2] [] _ Hinv0) as (s & Hrun & Hinv).
  { simpl. lia. }
  { constructor; [done|]. constructor; [done|]. constructor. }
  exists (init_state a), s. split; [by apply init_ok|]. split; [done|].
  split; [|split].
  - destruct Hinv as [_ _ (vp & Hvp & _ & Hdp) _ _].
    unfold ints_of. rewrite Hvp. simpl. rewrite Hdp. simpl. by rewrite Hid.
  - apply (blocks_inv_shape _ _ _ _ 0%nat b1 Hinv). reflexivity.
  - apply (blocks_inv_shape _ _ _ _ 1%nat b2 Hinv). reflexivity.
Qed.

(** C6.  [put_side_set_params] with an id that [ss_prop1] already holds
    fails with an assertion error (the spec's ValidationError) and leaves
    the object as it was; nothing is assumed about [ss_status], so this is so
    whether or not a slot is free.  With [numSetDistFacts] 0 the assertion
    that fails is the one on the id. *)
Theorem side_set_duplicate_id_rejected s id numSetSides numSetDistFacts l :
  ints_of s "ss_prop1" = Some l → id ∈ l →
  ∃ msg,
    put_side_set_params id numSetSides numSetDistFacts s
    = (inl (AssertionError msg), s)
    ∧ (numSetDistFacts = 0 →
       msg = "Side set id " +:+ pretty id +:+ " already exists.").
Proof.
  intros Hl Hin. destruct (decide (numSetDistFacts = 0)) as [->|Hne].
  - eexists. split; [by eapply put_side_set_params_duplicate|done].
  - eexists. split; [by apply put_side_set_params_dist_facts|done].
Qed.

Lemma init_side_sets a :
  numSideSets a ≠ 0 →
  ints_of (init_state a) "ss_prop1"
  = Some (replicate (Z.to_nat (numSideSets a)) (-1))
  ∧ ints_of (init_state a) "ss_status"
    = Some (replicate (Z.to_nat (numSideSets a)) 0).
Proof.
  intros Hn. unfold ints_of, init_state, init_vars. cbn [_f variables].
  destruct (Z.eqb_spec (numSideSets a) 0) as [|_]; [done|]. split.
  - reflexivity.
  - replace (replicate (Z.to_nat (numSideSets a)) 0)
      with (replicate (Z.to_nat (numSideSets a * 1)) 0)
      by (by rewrite Z.mul_1_r).
    reflexivity.
Qed.

(** C10.  In a freshly created file with side-set capacity n >= 1 every
    cell of [ss_prop1] is -1 and no slot of [ss_status] is claimed, and
    [put_side_set_params] with id -1 fails whatever its other arguments are,
    leaving the file as it was: with [numSetDistFacts] 0 on the assertion
    "Side set id -1 already exists.". *)
Theorem fresh_file_rejects_side_set_minus_one a :
  valid_args a → 1 ≤ numSideSets a →
  ∃ s0,
    __init__ a = inr s0
    ∧ ints_of s0 "ss_prop1" = Some (replicate (Z.to_nat (numSideSets a)) (-1))
    ∧ ints_of s0 "ss_status" = Some (replicate (Z.to_nat (numSideSets a)) 0)
    ∧ ∀ numSetSides numSetDistFacts,
        ∃ msg,
          put_side_set_params (-1) numSetSides numSetDistFacts s0
          = (inl (AssertionError msg), s0)
          ∧ (numSetDistFacts = 0 → msg = "Side set id -1 already exists.").
Proof.
  intros Ha Hn. exists (init_state a). split; [by apply init_ok|].
  destruct (init_side_sets a ltac:(lia)) as [Hp Hs]. split; [done|].
  split; [done|]. intros nss ndf.
  destruct (decide (ndf = 0)) as [->|Hne].
  - eexists. split; [|done].
    eapply put_side_set_params_duplicate; [exact Hp|].
    apply elem_of_replicate. split; [done|lia].
  - eexists. split; [by apply put_side_set_params_dist_facts|done].
Qed.

(** ** Time steps *)

Lemma bcast_is_Some {A : Type} (vals : list A) (count : nat) :
  length vals = count ∨ length vals = 1%nat → is_Some (bcast vals count).
Proof.
  intros [H|H]; [rewrite bcast_same by done; eauto|].
  unfold bcast. case_bool_decide; [eauto|].
  destruct vals as [|x [|y vals]]; simplify_eq/=. eauto.
Qed.

Lemma var_setitem_floats name v n m l i vals s :
  variables (_f s) !! name = Some v → v_shape v = n :: m →
  v_data v = FloatArr l → 0 ≤ i < n →
  length vals = Z.to_nat (foldr Z.mul 1 m) ∨ length vals = 1%nat →
  ∃ s', var_setitem name i (FloatArr vals) s = (inr (), s').
Proof.
  intros Hv Hs Hl Hi Hvals. unfold var_setitem.
  rewrite (bind_inr _ _ _ _ _ (vars_getitem_Some _ _ _ Hv)).
  unfold axis0, row_width. rewrite Hs. cbn [hd tail].
  rewrite (py_index_in_range _ _ Hi).
  unfold assign, array_assign. rewrite Hl.
  destruct (bcast_is_Some vals _ Hvals) as [vals' ->]. eauto.
Qed.

Lemma step_not_positive op step s :
  step ≤ 0 →
  run_step_op op step s
  = (inl (AssertionError "Step must be larger than 0."), s).
Proof.
  intros H. destruct op; simpl;
    [unfold put_time | unfold put_global_variable_value
    | unfold put_element_variable_values | unfold put_node_variable_values];
    apply bind_inl, py_assert_false; lia.
Qed.

Lemma step_beyond_capacity op step time_step s :
  dimensions (_f s) !! "time_step" = Some time_step →
  0 < step → time_step < step →
  run_step_op op step s = (inl (AssertionError ""), s).
Proof.
  intros Hd H0 H. destruct op; simpl;
    [unfold put_time | unfold put_global_variable_value
    | unfold put_element_variable_values | unfold put_node_variable_values];
    (mstep ltac:(apply py_assert_true; lia));
    (mstep ltac:(apply dims_getitem_Some; exact Hd));
    apply bind_inl, py_assert_false; lia.
Qed.

Lemma step_one_succeeds op s :
  dimensions (_f s) !! "time_step" = Some 1 → ready op s →
  ∃ s', run_step_op op 1 s = (inr (), s').
Proof.
  intros Hd Hr. destruct op as [value|name value|blockId name values|name values];
    simpl in *.
  - destruct Hr as (v & l & Hv & Hs & Hl). unfold put_time.
    mstep ltac:(apply py_assert_true; lia).
    mstep ltac:(apply dims_getitem_Some; exact Hd).
    mstep ltac:(apply py_assert_true; lia).
    eapply (var_setitem_floats _ v 1 [] l);
      [exact Hv | exact Hs | exact Hl | lia | by right].
  - destruct Hr as (names & idx & v & n & l & Hn & Hi & Hv & Hs & Hl & Hidx).
    unfold put_global_variable_value.
    mstep ltac:(apply py_assert_true; lia).
    mstep ltac:(apply dims_getitem_Some; exact Hd).
    mstep ltac:(apply py_assert_true; lia).
    mstep ltac:(exact Hn).
    unfold index_of at 1. rewrite Hi.
    mstep ltac:(apply ret_eq).
    unfold var_setitem_cell.
    rewrite (bind_inr _ _ _ _ _ (vars_getitem_Some _ _ _ Hv)).
    unfold axis0, row_width. rewrite Hs. cbn [hd tail foldr].
    rewrite (py_index_in_range 1 (1 - 1)) by lia.
    rewrite (py_index_in_range (n * 1) idx) by lia.
    unfold assign, array_assign. rewrite Hl. rewrite bcast_same by done.
    eauto.
  - destruct Hr as (names & i & ne & Hblk & Hn & Hi & Hvals & Hvar).
    unfold put_element_variable_values.
    mstep ltac:(apply py_assert_true; lia).
    mstep ltac:(apply dims_getitem_Some; exact Hd).
    mstep ltac:(apply py_assert_true; lia).
    cbv zeta.
    mstep ltac:(apply dims_contains_eq).
    mstep ltac:(apply py_assert_true, bool_decide_eq_true_2; rewrite Hblk; eauto).
    mstep ltac:(exact Hn).
    unfold index_of at 1. rewrite Hi.
    mstep ltac:(apply ret_eq).
    mstep ltac:(apply gets_eq).
    destruct (variables (_f s) !! _) as [v|] eqn:Hv.
    + destruct Hvar as [Hs [l Hl]].
      rewrite bool_decide_eq_true_2 by eauto.
      mstep ltac:(apply ret_eq).
      eapply (var_setitem_floats _ v 1 [ne] l);
        [exact Hv | exact Hs | exact Hl | lia | exact Hvals].
    + destruct Hvar as [Hne Hdt].
      rewrite bool_decide_eq_false_2 by (by intros [? ?]).
      mstep ltac:(apply gets_eq).
      mstep ltac:(eapply (create_variable_fresh _ _ [1; ne]);
                  [ exact Hv
                  | repeat constructor; [exact Hd | exact Hblk]
                  | repeat constructor; lia
                  | reflexivity ]).
      eapply (var_setitem_floats _ _ 1 [ne]);
        [ norm; apply lookup_insert_eq | reflexivity | | lia | exact Hvals ].
      cbn [new_variable v_data]. destruct Hdt as [-> | ->]; reflexivity.
  - destruct Hr as (names & i & v & nn & l & Hn & Hi & Hv & Hs & Hl & Hvals).
    unfold put_node_variable_values.
    mstep ltac:(apply py_assert_true; lia).
    mstep ltac:(apply dims_getitem_Some; exact Hd).
    mstep ltac:(apply py_assert_true; lia).
    mstep ltac:(exact Hn).
    unfold index_of at 1. rewrite Hi.
    mstep ltac:(apply ret_eq).
    cbv zeta.
    eapply (var_setitem_floats _ v 1 [nn] l);
      [exact Hv | exact Hs | exact Hl | lia | exact Hvals].
Qed.

Lemma init_time_step a :
  dimensions (_f (init_state a)) !! "time_step" = Some 1.
Proof.
  unfold init_state, init_dims. cbn [_f dimensions].
  destruct (numSideSets a =? 0); map_lookup.
Qed.

(** C7.  In a file whose time-step capacity is one (what [__init__]
    declares), each of [put_time], [put_global_variable_value],
    [put_element_variable_values] and [put_node_variable_values] fails with an
    assertion error (the spec's ValidationError), leaving the file as it was,
    when the step is 0 (or less) and when it is greater than the capacity;
    with step 1 the call succeeds, the rest of what it needs being in place
    ([ready]). *)
Theorem step_bounds op s :
  dimensions (_f s) !! "time_step" = Some 1 →
  (∀ step, step ≤ 0 →
     run_step_op op step s
     = (inl (AssertionError "Step must be larger than 0."), s))
  ∧ (∀ step, 1 < step →
       run_step_op op step s = (inl (AssertionError ""), s))
  ∧ (ready op s → ∃ s', run_step_op op 1 s = (inr (), s')).
Proof.
  intros Hd. split; [|split].
  - intros step Hstep. by apply step_not_positive.
  - intros step Hstep. apply (step_beyond_capacity _ _ 1); [done|lia|lia].
  - by apply step_one_succeeds.
Qed.

(** ** Writing the connectivity of a block *)

Lemma connectivity_sizes_ok id conn ne nn s :
  dimensions (_f s) !! ("num_el_in_blk" +:+ pretty id) = Some ne →
  dimensions (_f s) !! ("num_nod_per_el" +:+ pretty id) = Some nn →
  Z.of_nat (length (items conn)) = ne * nn →
  connectivity_sizes id conn s = (inr (ne, nn), s).
Proof.
  intros He Hn Hlen. unfold connectivity_sizes. cbv zeta.
  mstep ltac:(apply dims_contains_eq).
  mstep ltac:(apply py_assert_true, bool_decide_eq_true_2; rewrite He; eauto).
  mstep ltac:(apply dims_contains_eq).
  mstep ltac:(apply py_assert_true, bool_decide_eq_true_2; rewrite Hn; eauto).
  mstep ltac:(apply dims_getitem_Some; exact He).
  mstep ltac:(apply dims_getitem_Some; exact Hn).
  mstep ltac:(apply py_assert_true; lia).
  reflexivity.
Qed.

Lemma connectivity_sizes_missing id conn s :
  dimensions (_f s) !! ("num_el_in_blk" +:+ pretty id) = None →
  connectivity_sizes id conn s
  = (inl (AssertionError ("Block id " +:+ pretty id +:+ " does not exist")),
     s).
Proof.
  intros He. unfold connectivity_sizes. cbv zeta.
  mstep ltac:(apply dims_contains_eq).
  apply bind_inl, py_assert_false, bool_decide_eq_false_2.
  rewrite He. by intros [? ?].
Qed.

Lemma var_setitem_slice_ints name v ne nn l lo hi start count vals s :
  variables (_f s) !! name = Some v → v_shape v = [ne; nn] →
  v_data v = IntArr l → py_slice ne lo hi = (start, count) →
  length vals = (count * Z.to_nat nn)%nat →
  var_setitem_slice name lo hi (IntArr vals) s
  = (inr (), set_var name
       (set_data v (IntArr (splice l (start * Z.to_nat nn)
                              (count * Z.to_nat nn) vals))) s).
Proof.
  intros Hv Hs Hl Hsl Hlen. unfold var_setitem_slice.
  rewrite (bind_inr _ _ _ _ _ (vars_getitem_Some _ _ _ Hv)).
  unfold axis0, row_width. rewrite Hs. cbn [hd tail foldr].
  rewrite Hsl, Z.mul_1_r. unfold assign, array_assign. rewrite Hl.
  by rewrite bcast_same.
Qed.

(** ***** A chunk of zero rows: the loop does not advance *)

Lemma py_slice_empty ne idx : ∃ start, py_slice ne idx idx = (start, 0%nat).
Proof. unfold py_slice. eexists. f_equal. lia. Qed.

Lemma connectivity_loop_zero_chunk var_name ne nn _t shift idx fuel : ∀ s,
  (∃ v l, variables (_f s) !! var_name = Some v ∧ v_shape v = [ne; nn]
          ∧ v_data v = IntArr l) →
  idx < ne →
  connectivity_loop fuel var_name ne nn _t shift 0 idx s = None.
Proof.
  induction fuel as [|fuel IH]; intros s (v & l & Hv & Hs & Hl) Hidx; simpl.
  - by destruct (Z.ltb_spec idx ne); [|lia].
  - destruct (Z.ltb_spec idx ne); [|lia].
    replace (idx + 0) with idx by lia.
    destruct (py_slice_empty ne idx) as [start Hsl].
    unfold rows_slice. rewrite Hsl, Nat.mul_0_l, take_0, fmap_nil.
    rewrite (var_setitem_slice_ints _ _ _ _ _ _ _ _ _ _ _ Hv Hs Hl Hsl)
      by done.
    apply IH; [|done]. eexists _, _. norm.
    rewrite lookup_insert_eq. done.
Qed.

(** ***** A chunk of at least one row *)

Lemma py_slice_rows ne idx chunk :
  0 ≤ idx < ne → 1 ≤ chunk →
  py_slice ne idx (idx + chunk)
  = (Z.to_nat idx, Z.to_nat (Z.min (idx + chunk) ne - idx)).
Proof.
  intros Hi Hc. unfold py_slice, py_clamp.
  destruct (Z.ltb_spec idx 0); [lia|].
  destruct (Z.ltb_spec (idx + chunk) 0); [lia|].
  by rewrite (Z.min_l idx ne) by lia.
Qed.

Lemma splice_progress {A : Type} (f : A → A) (t l0 : list A) (a c : nat) :
  (a + c ≤ length t)%nat → length l0 = length t →
  splice ((f <$> take a t) ++ drop a l0) a c (f <$> take c (drop a t))
  = (f <$> take (a + c) t) ++ drop (a + c) l0.
Proof.
  intros Hac Hlen. unfold splice.
  assert (Ha : length (f <$> take a t) = a)
    by (rewrite length_fmap, length_take; lia).
  rewrite take_app_length' by done.
  rewrite drop_app_add' by done. rewrite drop_drop.
  rewrite app_assoc, <- fmap_app, take_take_drop. reflexivity.
Qed.

Lemma connectivity_loop_spec var_name ne nn _t shift chunk l0 :
  0 ≤ ne → 0 ≤ nn → 1 ≤ chunk →
  length _t = Z.to_nat (ne * nn) → length l0 = length _t →
  ∀ fuel idx s v,
    0 ≤ idx → (Z.to_nat (ne - idx) ≤ fuel)%nat →
    variables (_f s) !! var_name = Some v → v_shape v = [ne; nn] →
    v_data v = IntArr
      (((λ x, x + shift) <$> take (Z.to_nat (Z.min idx ne * nn)) _t)
       ++ drop (Z.to_nat (Z.min idx ne * nn)) l0) →
    ∃ s' v',
      connectivity_loop fuel var_name ne nn _t shift chunk idx s
      = Some (inr (), s')
      ∧ variables (_f s') !! var_name = Some v' ∧ v_shape v' = [ne; nn]
      ∧ v_data v' = IntArr ((λ x, x + shift) <$> _t)
      ∧ dimensions (_f s') = dimensions (_f s).
Proof.
  intros Hne Hnn Hchunk Hlt Hl0.
  induction fuel as [|fuel IH]; intros idx s v Hidx Hfuel Hv Hs Hd.
  - simpl. destruct (Z.ltb_spec idx ne); [lia|].
    exists s, v. split; [done|]. split; [done|]. split; [done|]. split; [|done].
    rewrite Hd, Z.min_r by lia.
    rewrite take_ge, drop_ge by lia. by rewrite app_nil_r.
  - simpl. destruct (Z.ltb_spec idx ne) as [Hlt'|Hge].
    + pose proof (py_slice_rows ne idx chunk ltac:(lia) Hchunk) as Hsl.
      set (hi := Z.min (idx + chunk) ne) in *.
      unfold rows_slice. rewrite Hsl.
      erewrite (var_setitem_slice_ints _ _ _ _ _ _ _ _ _ _ _ Hv Hs Hd Hsl).
      2:{ rewrite length_fmap, length_take, length_drop. nia. }
      rewrite Z.min_l by lia.
      replace (Z.to_nat (idx * nn)) with (Z.to_nat idx * Z.to_nat nn)%nat
        by nia.
      rewrite splice_progress by nia.
      match goal with
      | |- context [connectivity_loop _ _ _ _ _ _ _ _ ?s1] =>
          edestruct (IH (idx + chunk) s1)
            as (s' & v' & Hrun & Hv' & Hs' & Hd' & Hdim);
            [lia | lia | norm; apply lookup_insert_eq | exact Hs | |]
      end.
      * cbn [set_data v_data]. fold hi.
        assert (Hhi : idx ≤ hi ≤ ne) by (unfold hi; lia).
        replace (Z.to_nat idx * Z.to_nat nn
                 + Z.to_nat (hi - idx) * Z.to_nat nn)%nat
          with (Z.to_nat (hi * nn)); [reflexivity|].
        rewrite Z2Nat.inj_mul, <- Nat.mul_add_distr_r by lia. f_equal. lia.
      * exists s', v'. done.
    + exists s, v. split; [done|]. split; [done|]. split; [done|]. split; [|done].
      rewrite Hd, Z.min_r by lia.
      rewrite take_ge, drop_ge by lia. by rewrite app_nil_r.
Qed.

Lemma chunk_rows_quot mb isize nn :
  0 < isize → 0 < nn → chunk_rows mb isize nn = (mb * 1024 ^ 2) ÷ (isize * nn).
Proof. intros Hi Hn. unfold chunk_rows. apply Z.quot_quot; lia. Qed.

Lemma chunk_rows_ge_1 mb isize nn :
  0 < isize → 0 < nn → isize * nn ≤ mb * 1024 ^ 2 →
  1 ≤ chunk_rows mb isize nn.
Proof.
  intros Hi Hn H. rewrite chunk_rows_quot by done.
  apply Z.quot_le_lower_bound; lia.
Qed.

Lemma chunk_rows_0 mb isize nn :
  0 < isize → 0 < nn → 0 ≤ mb → mb * 1024 ^ 2 < isize * nn →
  chunk_rows mb isize nn = 0.
Proof.
  intros Hi Hn Hm H. rewrite chunk_rows_quot by done.
  apply Z.quot_small. lia.
Qed.

(** With a shift and a chunk of at least one row, [put_elem_connectivity]
    returns (fuel for one iteration per row is enough) and the block's
    [connect] array holds every input entry plus the shift: the stored values
    do not depend on the budget. *)
Theorem put_elem_connectivity_shifted id conn shift mb s v l0 ne nn :
  dimensions (_f s) !! ("num_el_in_blk" +:+ pretty id) = Some ne →
  dimensions (_f s) !! ("num_nod_per_el" +:+ pretty id) = Some nn →
  variables (_f s) !! ("connect" +:+ pretty id) = Some v →
  v_shape v = [ne; nn] → v_data v = IntArr l0 →
  length l0 = length (items conn) →
  0 ≤ ne → 0 < nn → 0 < itemsize conn →
  Z.of_nat (length (items conn)) = ne * nn →
  shift ≠ 0 → 1 ≤ chunk_rows mb (itemsize conn) nn →
  ∀ fuel, (Z.to_nat ne ≤ fuel)%nat →
    ∃ s', put_elem_connectivity fuel id conn shift mb s = Some (inr (), s')
          ∧ ints_of s' ("connect" +:+ pretty id)
            = Some ((λ x, x + shift) <$> items conn)
          ∧ shape_of s' ("connect" +:+ pretty id) = Some [ne; nn].
Proof.
  intros He Hn Hv Hs Hd Hl0 Hne Hnn Hi Hlen Hshift Hchunk fuel Hfuel.
  unfold put_elem_connectivity.
  rewrite (connectivity_sizes_ok _ _ _ _ _ He Hn Hlen).
  destruct (Z.eqb_spec shift 0) as [|_]; [done|]. cbn [negb].
  destruct (Z.eqb_spec (itemsize conn) 0) as [|_]; [lia|].
  destruct (Z.eqb_spec nn 0) as [|_]; [lia|]. cbn [orb].
  destruct (connectivity_loop_spec ("connect" +:+ pretty id) ne nn
              (items conn) shift _ l0 Hne ltac:(lia) Hchunk ltac:(lia) Hl0
              fuel 0 s v)
    as (s' & v' & Hrun & Hv' & Hs' & Hd' & _); [lia | lia | done | done | |].
  { rewrite Z.min_l by lia. simpl. by rewrite drop_0. }
  exists s'. split; [done|]. unfold ints_of, shape_of.
  rewrite Hv'. simpl. by rewrite Hd', Hs'.
Qed.

(** X8.
    Two budgets that both give a chunk of at least one row store the same
    values: with a shift that can be added to the array ([shift_fits]), what
    [put_elem_connectivity] stores does not depend on [chunk_size_in_mb],
    whether a budget makes it write the rows in one piece or in several. *)
Corollary put_elem_connectivity_budget_independent
    id conn shift mb1 mb2 s v l0 ne nn :
  dimensions (_f s) !! ("num_el_in_blk" +:+ pretty id) = Some ne →
  dimensions (_f s) !! ("num_nod_per_el" +:+ pretty id) = Some nn →
  variables (_f s) !! ("connect" +:+ pretty id) = Some v →
  v_shape v = [ne; nn] → v_data v = IntArr l0 →
  length l0 = length (items conn) →
  0 ≤ ne → 0 < nn → 0 < itemsize conn →
  Z.of_nat (length (items conn)) = ne * nn →
  shift ≠ 0 → shift_fits conn shift →
  1 ≤ chunk_rows mb1 (itemsize conn) nn →
  1 ≤ chunk_rows mb2 (itemsize conn) nn →
  ∀ fuel, (Z.to_nat ne ≤ fuel)%nat →
    ∃ s1 s2,
      put_elem_connectivity fuel id conn shift mb1 s = Some (inr (), s1)
      ∧ put_elem_connectivity fuel id conn shift mb2 s = Some (inr (), s2)
      ∧ ints_of s1 ("connect" +:+ pretty id)
        = ints_of s2 ("connect" +:+ pretty id)
      ∧ ints_of s1 ("connect" +:+ pretty id)
        = Some ((λ x, x + shift) <$> items conn).
Proof.
  intros He Hn Hv Hs Hd Hl0 Hne Hnn Hi Hlen Hshift _ H1 H2 fuel Hfuel.
  destruct (put_elem_connectivity_shifted id conn shift mb1 s v l0 ne nn
              He Hn Hv Hs Hd Hl0 Hne Hnn Hi Hlen Hshift H1 fuel Hfuel)
    as (s1 & Hr1 & Hi1 & _).
  destruct (put_elem_connectivity_shifted id conn shift mb2 s v l0 ne nn
              He Hn Hv Hs Hd Hl0 Hne Hnn Hi Hlen Hshift H2 fuel Hfuel)
    as (s2 & Hr2 & Hi2 & _).
  exists s1, s2. split; [done|]. split; [done|].
  split; [by rewrite Hi1, Hi2 | done].
Qed.

(** With a shift and a chunk of zero rows, the loop of
    [put_elem_connectivity] never ends when the block has an element. *)
Theorem put_elem_connectivity_zero_chunk id conn shift mb s v l0 ne nn :
  dimensions (_f s) !! ("num_el_in_blk" +:+ pretty id) = Some ne →
  dimensions (_f s) !! ("num_nod_per_el" +:+ pretty id) = Some nn →
  variables (_f s) !! ("connect" +:+ pretty id) = Some v →
  v_shape v = [ne; nn] → v_data v = IntArr l0 →
  0 < ne → 0 < nn → 0 < itemsize conn →
  Z.of_nat (length (items conn)) = ne * nn →
  shift ≠ 0 → chunk_rows mb (itemsize conn) nn = 0 →
  ∀ fuel, put_elem_connectivity fuel id conn shift mb s = None.
Proof.
  intros He Hn Hv Hs Hd Hne Hnn Hi Hlen Hshift Hchunk fuel.
  unfold put_elem_connectivity.
  rewrite (connectivity_sizes_ok _ _ _ _ _ He Hn Hlen).
  destruct (Z.eqb_spec shift 0) as [|_]; [done|]. cbn [negb].
  destruct (Z.eqb_spec (itemsize conn) 0) as [|_]; [lia|].
  destruct (Z.eqb_spec nn 0) as [|_]; [lia|]. cbn [orb].
  rewrite Hchunk. apply connectivity_loop_zero_chunk; [|done]. eauto.
Qed.

(** ** The scenario of one tetrahedral block *)

Lemma tet_args_valid : valid_args tet_args.
Proof. constructor; simpl; (done || lia || tauto). Qed.

(** C2, evaluated.  The file is created and the block with id 100 allocated:
    [eb_prop1[0] == 100], [eb_status[0] == 1] and [connect1] has shape (1,4).
    Writing the connectivity under the block's id, 100, then fails on the
    assertion "Block id 100 does not exist", whatever the other arguments,
    and [connect1] keeps its zeros: the method looks for the dimensions named
    after its argument, and the block's are named after its slot, 1.  Called
    with 1 it stores [[1,2,3,4]]. *)
Theorem connectivity_by_block_id_fails :
  __init__ tet_args = inr (init_state tet_args)
  ∧ put_elem_blk_info 100 "TETRA" 1 4 0 (init_state tet_args)
    = (inr (), tet_file)
  ∧ ints_of tet_file "eb_prop1" = Some [100]
  ∧ ints_of tet_file "eb_status" = Some [1]
  ∧ shape_of tet_file "connect1" = Some [1; 4]
  ∧ ints_of tet_file "connect1" = Some [0; 0; 0; 0]
  ∧ (∀ fuel isize shift_indices chunk_size_in_mb,
       put_elem_connectivity fuel 100 (NdArray isize [1; 2; 3; 4])
         shift_indices chunk_size_in_mb tet_file
       = Some (inl (AssertionError "Block id 100 does not exist"), tet_file))
  ∧ (∀ fuel isize chunk_size_in_mb,
       ∃ s, put_elem_connectivity fuel 1 (NdArray isize [1; 2; 3; 4])
              0 chunk_size_in_mb tet_file = Some (inr (), s)
            ∧ ints_of s "connect1" = Some [1; 2; 3; 4]
            ∧ shape_of s "connect1" = Some [1; 4]).
Proof.
  split; [apply init_ok, tet_args_valid|].
  split; [vm_compute; reflexivity|].
  split; [vm_compute; reflexivity|].
  split; [vm_compute; reflexivity|].
  split; [vm_compute; reflexivity|].
  split; [vm_compute; reflexivity|].
  split.
  - intros fuel isize shift mb. unfold put_elem_connectivity.
    rewrite connectivity_sizes_missing; [reflexivity|].
    vm_compute; reflexivity.
  - intros fuel isize mb. eexists. split; [|split].
    + unfold put_elem_connectivity.
      rewrite (connectivity_sizes_ok _ _ 1 4);
        [ | vm_compute; reflexivity | vm_compute; reflexivity | reflexivity ].
      cbn [Z.eqb negb items]. reflexivity.
    + vm_compute; reflexivity.
    + vm_compute; reflexivity.
Qed.

(** ** A block whose rows are wider than the chunk budget *)

Lemma wide_args_valid : valid_args wide_args.
Proof. constructor; simpl; (done || lia || tauto). Qed.

(** C3, evaluated.  A block of one element with 131073 nodes is allocated
    in slot 1; its connectivity, 131073 integers of 8 bytes, is 1048584 bytes.
    Written with shift 1 and a budget of 2 MB the call returns and stores
    every entry plus 1.  Written with the smaller positive budget of 1 MB
    (1048576 bytes) the chunk is [int(1 * 1024 ** 2 / 8 / 131073)] = 0 rows,
    [idx] never advances and the call does not return, whatever the fuel. *)
Theorem connectivity_chunk_of_zero_rows_never_returns :
  ∃ s0 s1,
    __init__ wide_args = inr s0
    ∧ put_elem_blk_info 1 "WIDE" 1 131073 0 s0 = (inr (), s1)
    ∧ shape_of s1 "connect1" = Some [1; 131073]
    ∧ chunk_rows 2 (itemsize wide_connectivity) 131073 = 1
    ∧ (∀ fuel, (1 ≤ fuel)%nat →
         ∃ s2, put_elem_connectivity fuel 1 wide_connectivity 1 2 s1
               = Some (inr (), s2)
               ∧ ints_of s2 "connect1"
                 = Some (replicate (Z.to_nat 131073) 1))
    ∧ chunk_rows 1 (itemsize wide_connectivity) 131073 = 0
    ∧ (∀ fuel, put_elem_connectivity fuel 1 wide_connectivity 1 1 s1 = None).
Proof.
  pose proof (init_blocks_inv wide_args ltac:(simpl; lia)) as Hinv0.
  destruct (put_block_step _ _ [] (Block 1 "WIDE" 1 131073) _ Hinv0)
    as (s1 & Hrun & Hinv1 & _); [simpl; lia | simpl; lia | simpl; lia |].
  exists (init_state wide_args), s1.
  split; [apply init_ok, wide_args_valid|]. split; [exact Hrun|].
  destruct (bi_connect _ _ _ _ Hinv1 0%nat _ eq_refl)
    as (He & Hn & v & Hv & Hs & Hd).
  cbn [b_elems b_nodes] in He, Hn, Hs, Hd.
  change (dimensions (_f s1) !! ("num_el_in_blk" +:+ pretty 1) = Some 1) in He.
  change (dimensions (_f s1) !! ("num_nod_per_el" +:+ pretty 1) = Some 131073)
    in Hn.
  change (variables (_f s1) !! "connect1" = Some v) in Hv.
  split; [unfold shape_of; by rewrite Hv, <- Hs|].
  split; [reflexivity|]. split; [|split; [reflexivity|]].
  - intros fuel Hfuel.
    destruct (put_elem_connectivity_shifted 1 wide_connectivity 1 2 s1 v _
                1 131073 He Hn Hv Hs Hd) with (fuel := fuel)
      as (s2 & Hrun2 & Hints & _);
      try (cbn [items itemsize wide_connectivity];
           rewrite ?length_replicate; lia).
    { reflexivity. }
    exists s2. split; [exact Hrun2|].
    change (ints_of s2 "connect1" = Some ((λ x, x + 1) <$> items wide_connectivity))
      in Hints.
    rewrite Hints. cbn [items wide_connectivity]. rewrite fmap_replicate.
    reflexivity.
  - intros fuel.
    apply (put_elem_connectivity_zero_chunk 1 wide_connectivity 1 1 s1 v _
             1 131073 He Hn Hv Hs Hd);
      try (cbn [items itemsize wide_connectivity];
           rewrite ?length_replicate; lia).
    reflexivity.
Qed.

(** ** Closing *)

Lemma try_except_pass_ok body s : ∃ s', try_except_pass body s = (inr (), s').
Proof.
  unfold try_except_pass. destruct (body s) as [[e|[]] s']; eauto.
Qed.

(** C9.  Whatever the container's [close] does (return or raise, on an
    open file or on a closed one) [close], [__del__] and [__exit__] return
    normally from every state; so after a first close, a second one, explicit
    or through the cleanup path, does not raise. *)
Theorem close_never_raises (h5_close : File → (exn + unit) * File) s :
  ∃ s1,
    close h5_close s = (inr (), s1)
    ∧ (∃ s2, close h5_close s1 = (inr (), s2))
    ∧ (∃ s2, __del__ h5_close s1 = (inr (), s2))
    ∧ (∃ s2, __exit__ h5_close s1 = (inr (), s2))
    ∧ ∃ s1', __del__ h5_close s = (inr (), s1')
             ∧ ∃ s2, close h5_close s1' = (inr (), s2).
Proof.
  destruct (try_except_pass_ok (file_close h5_close) s) as [s1 H1].
  exists s1. split; [exact H1|].
  repeat split; try apply try_except_pass_ok.
  exists s1. split; [exact H1|]. apply try_except_pass_ok.
Qed.

(** ** Names *)

Lemma splice_lookup {A : Type} (l new : list A) (start count j : nat) :
  length new = count → (start ≤ length l)%nat →
  splice l start count new !! j
  = if decide (j < start)%nat then l !! j
    else if decide (j < start + count)%nat then new !! (j - start)%nat
    else l !! j.
Proof.
  intros Hn Hs. unfold splice.
  assert (Ht : length (take start l) = start) by (rewrite length_take; lia).
  destruct (decide (j < start)%nat).
  - rewrite lookup_app_l by lia. by rewrite lookup_take_lt.
  - rewrite lookup_app_r by lia. rewrite Ht.
    destruct (decide (j < start + count)%nat).
    + by rewrite lookup_app_l by lia.
    + rewrite lookup_app_r by lia. rewrite lookup_drop. f_equal. lia.
Qed.

Lemma length_splice {A : Type} (l new : list A) (start count : nat) :
  length new = count → (start + count ≤ length l)%nat →
  length (splice l start count new) = length l.
Proof.
  intros Hn Hs. unfold splice.
  rewrite !length_app, length_take, length_drop. lia.
Qed.

Lemma length_rows_of {A : Type} (n w : nat) (l : list A) :
  length (rows_of n w l) = n.
Proof. unfold rows_of. by rewrite length_fmap, length_seq. Qed.

Lemma rows_of_lookup {A : Type} (n w : nat) (l : list A) (i : nat) :
  (i < n)%nat → rows_of n w l !! i = Some (take w (drop (i * w) l)).
Proof.
  intros Hi. unfold rows_of. rewrite list_lookup_fmap, lookup_seq_lt by done.
  reflexivity.
Qed.

Lemma rows_of_splice {A : Type} (n w r : nat) (l row : list A) :
  length row = w → (r < n)%nat → length l = (n * w)%nat →
  rows_of n w (splice l (r * w) w row) = <[r := row]> (rows_of n w l).
Proof.
  intros Hrow Hr Hl. apply list_eq. intros i.
  destruct (decide (i < n)%nat) as [Hi|Hi].
  2:{ rewrite !lookup_ge_None_2;
        rewrite ?length_insert, ?length_rows_of; [done|lia..]. }
  rewrite rows_of_lookup by done.
  destruct (decide (r = i)) as [->|Hne].
  - rewrite list_lookup_insert_eq by (rewrite length_rows_of; lia).
    f_equal. unfold splice.
    rewrite drop_app_length' by (rewrite length_take; nia).
    by rewrite take_app_length'.
  - rewrite list_lookup_insert_ne, rows_of_lookup by done. f_equal.
    apply list_eq. intros j. destruct (decide (j < w)%nat) as [Hj|Hj].
    2:{ by rewrite !lookup_take_ge by lia. }
    rewrite !lookup_take_lt, !lookup_drop by done.
    rewrite splice_lookup by (done || nia).
    repeat case_decide; (done || nia).
Qed.

Lemma splice_splice {A : Type} (l cells : list A) (a w k : nat) (x : A) :
  length cells = k → (k ≤ w)%nat → (a + w ≤ length l)%nat →
  splice (splice l a w (replicate w x)) a k cells
  = splice l a w (cells ++ replicate (w - k) x).
Proof.
  intros Hc Hk Hl. apply list_eq. intros j.
  rewrite !splice_lookup;
    rewrite ?length_splice, ?length_app, ?length_replicate; try lia.
  repeat case_decide; try (done || lia).
  - by rewrite lookup_app_l by lia.
  - rewrite lookup_app_r by lia.
    rewrite !lookup_replicate_2 by lia. done.
  - apply length_replicate.
Qed.

Lemma mapM_pure {A B : Type} (f : A → option B) (e : exn) (l : list A) s :
  mapM (λ x, match f x with
             | Some y => mret y
             | None => (raise e : M B)
             end) l s
  = (match mapM f l with Some k => inr k | None => inl e end, s).
Proof.
  induction l as [|x l IH]; [done|]. simpl.
  unfold mbind at 1, M_bind at 1. destruct (f x) as [y|]; [|done].
  simpl. unfold mbind at 1, M_bind at 1. rewrite IH.
  by destruct (mapM f l).
Qed.

Lemma get_names_eq name v l s :
  variables (_f s) !! name = Some v → v_data v = CharArr l →
  get_names name s
  = (match mapM decode_row
             (rows_of (Z.to_nat (axis0 v)) (Z.to_nat (row_width v)) l) with
     | Some names => inr names
     | None => inl UnicodeDecodeError
     end, s).
Proof.
  intros Hv Hl. unfold get_names.
  rewrite (bind_inr _ _ _ _ _ (vars_getitem_Some _ _ _ Hv)). rewrite Hl.
  apply (mapM_pure decode_row).
Qed.

Lemma encoded_cells_ascii name :
  Forall (λ c, (N_of_ascii c < 128)%N ∧ c ≠ NUL) (list_ascii_of_string name) →
  encoded_cells name = list_ascii_of_string name.
Proof.
  unfold encoded_cells. induction 1 as [|c l [Hc _] _ IH]; [done|].
  rewrite fmap_cons, IH. f_equal. unfold encode.
  by destruct (N.ltb_spec (N_of_ascii c) 128); [|lia].
Qed.

Lemma join_cells_padded (cells : list ascii) (k : nat) :
  Forall (λ c, c ≠ NUL) cells →
  join_cells (cells ++ replicate k NUL) = cells.
Proof.
  intros H. unfold join_cells. rewrite filter_app.
  replace (filter (λ c, c ≠ NUL) (replicate k NUL)) with (@nil ascii).
  - rewrite app_nil_r. induction H as [|c l Hc _ IH]; [done|].
    by rewrite filter_cons_True, IH.
  - induction k as [|k IH]; [done|]. simpl.
    by rewrite filter_cons_False by (by intros ?).
Qed.

Lemma lstrip_id (l : list ascii) :
  (∀ c, head l = Some c → is_space c = false) → lstrip l = l.
Proof. destruct l as [|c l]; [done|]. intros H. simpl. by rewrite H. Qed.

Lemma strip_id (l : list ascii) :
  (∀ c, head l = Some c → is_space c = false) →
  (∀ c, last l = Some c → is_space c = false) → strip l = l.
Proof.
  intros Hh Hl. unfold strip. rewrite (lstrip_id l Hh).
  rewrite lstrip_id by (by rewrite head_reverse). apply reverse_involutive.
Qed.

Lemma decode_ascii (l : list ascii) :
  Forall (λ c, (N_of_ascii c < 128)%N) l →
  decode l = Some (string_of_list_ascii l).
Proof.
  induction 1 as [|c l Hc _ IH]; [done|]. simpl.
  destruct (N.ltb_spec (N_of_ascii c) 128); [|lia]. by rewrite IH.
Qed.

Lemma decode_row_clean name (k : nat) :
  clean_name name →
  decode_row (encoded_cells name ++ replicate k NUL) = Some name.
Proof.
  intros (Hall & Hh & Hl). unfold decode_row.
  rewrite encoded_cells_ascii by done.
  rewrite join_cells_padded by (eapply Forall_impl; [done|]; by intros ? [_ ?]).
  rewrite strip_id by done.
  rewrite decode_ascii by (eapply Forall_impl; [done|]; by intros ? [? _]).
  by rewrite string_of_list_ascii_of_string.
Qed.

Lemma bcast_one {A : Type} (x : A) (count : nat) :
  bcast [x] count = Some (replicate count x).
Proof.
  unfold bcast. case_bool_decide as H; [|done]. by rewrite <- H.
Qed.

Lemma length_list_ascii_of_string (s : string) :
  length (list_ascii_of_string s) = String.length s.
Proof. induction s as [|c s IH]; simpl; by f_equal. Qed.

Lemma length_encoded_cells name :
  length (encoded_cells name) = String.length name.
Proof.
  unfold encoded_cells. by rewrite length_fmap, length_list_ascii_of_string.
Qed.

(** The two assignments every [put_*_variable_name] ends with. *)
Lemma put_name_cells var v n l name index s :
  variables (_f s) !! var = Some v → v_shape v = [n; 33] →
  v_data v = CharArr l → length l = (Z.to_nat n * 33)%nat →
  1 ≤ index ≤ n → len name ≤ 33 →
  ∃ s' v',
    (var_setitem var (index - 1) (CharArr [NUL]);;
     var_setitem_prefix var (index - 1) (len name)
       (CharArr (encoded_cells name))) s = (inr (), s')
    ∧ variables (_f s') !! var = Some v' ∧ v_shape v' = [n; 33]
    ∧ v_data v'
      = CharArr (splice l (Z.to_nat (index - 1) * 33) 33
                   (encoded_cells name
                    ++ replicate (33 - String.length name) NUL)).
Proof.
  intros Hv Hs Hl Hlen Hi Hname. unfold len in Hname.
  eexists _, _. split; [|split; [|split]].
  - erewrite bind_inr.
    2:{ unfold var_setitem.
        rewrite (bind_inr _ _ _ _ _ (vars_getitem_Some _ _ _ Hv)).
        unfold axis0, row_width. rewrite Hs. cbn [hd tail foldr].
        rewrite (py_index_in_range n (index - 1)) by lia.
        unfold assign, array_assign. rewrite Hl, bcast_one. reflexivity. }
    unfold var_setitem_prefix.
    erewrite bind_inr; [|apply vars_getitem_Some; norm; apply lookup_insert_eq].
    unfold axis0, row_width. cbn [set_data v_shape v_data]. rewrite Hs.
    cbn [hd tail foldr].
    rewrite (py_index_in_range n (index - 1)) by lia.
    unfold assign, array_assign.
    replace (Z.to_nat (py_clamp (33 * 1) (len name)))
      with (String.length name).
    2:{ unfold py_clamp, len. destruct (Z.ltb_spec (Z.of_nat (String.length name)) 0); lia. }
    rewrite bcast_same by apply length_encoded_cells.
    change (Z.to_nat (33 * 1)) with 33%nat. reflexivity.
  - norm. apply lookup_insert_eq.
  - exact Hs.
  - cbn [set_data v_data]. f_equal.
    apply splice_splice; [apply length_encoded_cells | lia | nia].
Qed.

(** C4, as the code has it.  In each of the three catalogs, declared with
    [n] slots of 33 bytes ([len_name]) and readable, for every 1-based index
    up to [n] and every clean name of at most 33 characters (so also one of
    exactly the maximum length): [put_*_variable_name] succeeds, and
    [get_*_variable_names] then returns the names it returned before with the
    name written, in full, at position [index - 1]. *)
Theorem put_name_then_get_names c s v n l old name index :
  variables (_f s) !! name_var c = Some v → v_shape v = [n; 33] →
  v_data v = CharArr l → length l = (Z.to_nat n * 33)%nat →
  (c = Node → dimensions (_f s) !! "num_nod_var" = Some n) →
  get_variable_names c s = (inr old, s) →
  1 ≤ index ≤ n → len name ≤ 33 → clean_name name →
  ∃ s',
    put_variable_name c name index s = (inr (), s')
    ∧ get_variable_names c s' = (inr (<[Z.to_nat (index - 1) := name]> old), s')
    ∧ <[Z.to_nat (index - 1) := name]> old !! Z.to_nat (index - 1) = Some name.
Proof.
  intros Hv Hs Hl Hlen Hnode Hold Hi Hname Hclean.
  destruct (put_name_cells _ _ _ _ name index _ Hv Hs Hl Hlen Hi Hname)
    as (s' & v' & Hput & Hv' & Hs' & Hl').
  assert (Hget : get_names (name_var c) s = (inr old, s)) by (by destruct c).
  rewrite (get_names_eq _ _ _ _ Hv Hl) in Hget.
  unfold axis0, row_width in Hget. rewrite Hs in Hget.
  cbn [hd tail foldr] in Hget. change (Z.to_nat (33 * 1)) with 33%nat in Hget.
  destruct (mapM decode_row (rows_of (Z.to_nat n) 33 l)) as [old'|] eqn:Hrows;
    [|done].
  assert (old' = old) as -> by congruence.
  apply mapM_Some in Hrows.
  assert (Hget' : get_names (name_var c) s'
                  = (inr (<[Z.to_nat (index - 1) := name]> old), s')).
  { rewrite (get_names_eq _ _ _ _ Hv' Hl').
    unfold axis0, row_width. rewrite Hs'. cbn [hd tail foldr].
    change (Z.to_nat (33 * 1)) with 33%nat.
    rewrite rows_of_splice;
      [ | rewrite length_app, length_encoded_cells, length_replicate;
          unfold len in Hname; lia | lia | done ].
    erewrite (mapM_Some_2 decode_row); [reflexivity|].
    apply Forall2_insert; [done|]. by apply decode_row_clean. }
  exists s'. split; [|split].
  - destruct c; simpl;
      [ unfold put_global_variable_name | unfold put_element_variable_name
      | unfold put_node_variable_name ]; [exact Hput | exact Hput |].
    mstep ltac:(apply dims_getitem_Some, Hnode; reflexivity).
    mstep ltac:(apply py_assert_true; lia).
    exact Hput.
  - by destruct c.
  - apply list_lookup_insert_eq.
    rewrite <- (Forall2_length _ _ _ Hrows), length_rows_of. lia.
Qed.

(** * Further properties *)

(** ** What the constructor rejects *)

(** X1.
    The checks of [__init__] are made in the order of the source, each on
    arguments that passed the ones before it: the mode, the array type, the
    number of node sets, the number of dimensions, [io_size] (a value other
    than 0, 4 and 8 raises [NotImplementedError]) and at last the path, which
    must not exist. *)
Theorem init_rejects a :
  (mode a ≠ "w" →
     __init__ a = inl (AssertionError "Currently only writing is supported."))
  ∧ (mode a = "w" → array_type a ≠ "numpy" →
     __init__ a = inl (AssertionError "array_type must be 'numpy'."))
  ∧ (mode a = "w" → array_type a = "numpy" → numNodeSets a ≠ 0 →
     __init__ a = inl (AssertionError "numNodeSets must be 0 for now."))
  ∧ (mode a = "w" → array_type a = "numpy" → numNodeSets a = 0 →
     numDims a ≠ 2 → numDims a ≠ 3 →
     __init__ a = inl (AssertionError "Only 2 or 3 dimensions are supported."))
  ∧ (mode a = "w" → array_type a = "numpy" → numNodeSets a = 0 →
     numDims a = 2 ∨ numDims a = 3 →
     io_size a ≠ 0 → io_size a ≠ 4 → io_size a ≠ 8 →
     __init__ a = inl NotImplementedError)
  ∧ (mode a = "w" → array_type a = "numpy" → numNodeSets a = 0 →
     numDims a = 2 ∨ numDims a = 3 →
     io_size a = 0 ∨ io_size a = 4 ∨ io_size a = 8 →
     path_exists a = true →
     __init__ a
     = inl (AssertionError ("File '" +:+ file a +:+ "' already exists."))).
Proof.
  unfold __init__, init_body. repeat split.
  - intros Hm. mstep prim.
    erewrite bind_inl; [reflexivity|].
    by apply py_assert_false, bool_decide_eq_false_2.
  - intros Hm Ha. mstep prim.
    mstep ltac:(apply py_assert_true, bool_decide_eq_true_2, Hm).
    erewrite bind_inl; [reflexivity|].
    by apply py_assert_false, bool_decide_eq_false_2.
  - intros Hm Ha Hn. mstep prim.
    mstep ltac:(apply py_assert_true, bool_decide_eq_true_2, Hm).
    mstep ltac:(apply py_assert_true, bool_decide_eq_true_2, Ha).
    erewrite bind_inl; [reflexivity|]. apply py_assert_false. lia.
  - intros Hm Ha Hn Hd2 Hd3. mstep prim.
    mstep ltac:(apply py_assert_true, bool_decide_eq_true_2, Hm).
    mstep ltac:(apply py_assert_true, bool_decide_eq_true_2, Ha).
    mstep ltac:(apply py_assert_true; lia).
    erewrite bind_inl; [reflexivity|].
    apply py_assert_false, bool_decide_eq_false_2.
    rewrite !elem_of_cons, elem_of_nil. tauto.
  - intros Hm Ha Hn Hd H0 H4 H8. mstep prim.
    mstep ltac:(apply py_assert_true, bool_decide_eq_true_2, Hm).
    mstep ltac:(apply py_assert_true, bool_decide_eq_true_2, Ha).
    mstep ltac:(apply py_assert_true; lia).
    mstep ltac:(apply py_assert_true, bool_decide_eq_true_2;
                rewrite !elem_of_cons; tauto).
    erewrite bind_inl; [reflexivity|].
    destruct (Z.eqb_spec (io_size a) 0); [done|].
    destruct (Z.eqb_spec (io_size a) 4); [done|].
    destruct (Z.eqb_spec (io_size a) 8); [done|]. reflexivity.
  - intros Hm Ha Hn Hd Hio Hp. mstep prim.
    mstep ltac:(apply py_assert_true, bool_decide_eq_true_2, Hm).
    mstep ltac:(apply py_assert_true, bool_decide_eq_true_2, Ha).
    mstep ltac:(apply py_assert_true; lia).
    mstep ltac:(apply py_assert_true, bool_decide_eq_true_2;
                rewrite !elem_of_cons; tauto).
    mstep ltac:(apply (set_precision_io a); done).
    erewrite bind_inl; [reflexivity|].
    apply py_assert_false. by rewrite Hp.
Qed.


Lemma vars_getitem_None name s :
  variables (_f s) !! name = None →
  vars_getitem name s = (inl (KeyError name), s).
Proof. intros H. unfold vars_getitem, gets, mbind, M_bind. by rewrite H. Qed.

Lemma var_ints_None name s :
  variables (_f s) !! name = None →
  var_ints name s = (inl (KeyError name), s).
Proof.
  intros H. unfold var_ints. apply bind_inl. by apply vars_getitem_None.
Qed.

Lemma dims_getitem_None name s :
  dimensions (_f s) !! name = None →
  dims_getitem name s = (inl (KeyError name), s).
Proof. intros H. unfold dims_getitem, gets, mbind, M_bind. by rewrite H. Qed.

(** ** The precision of the file *)

(** X2.
    [io_size] selects the floating-point type once, in [__init__]: 4 gives
    single precision, 8 double precision, 0 the machine's; the object, the
    attribute [floating_point_word_size], the three coordinate arrays and
    [time_whole] all carry that one choice. *)
Theorem init_precision a :
  valid_args a →
  ∃ s, __init__ a = inr s
       ∧ (io_size a = 4 → __f_dtype s = float32 ∧ __f_word_size s = 4)
       ∧ (io_size a = 8 → __f_dtype s = float64 ∧ __f_word_size s = 8)
       ∧ (io_size a = 0 →
          if arch_64bit a
          then __f_dtype s = float64 ∧ __f_word_size s = 8
          else __f_dtype s = float32 ∧ __f_word_size s = 4)
       ∧ attrs (_f s) !! "floating_point_word_size"
         = Some (AttrInt32 [__f_word_size s])
       ∧ ∀ name, name ∈ ["coordx"; "coordy"; "coordz"; "time_whole"] →
           v_dtype <$> variables (_f s) !! name = Some (__f_dtype s).
Proof.
  intros Ha. exists (init_state a). split; [by apply init_ok|].
  unfold init_state, init_vars, init_attrs, precision_of.
  cbn [_f attrs variables __f_dtype __f_word_size].
  split; [by intros ->|]. split; [by intros ->|].
  split; [intros ->; by destruct (arch_64bit a)|].
  split; [reflexivity|].
  intros name. rewrite !elem_of_cons, elem_of_nil.
  intros [-> | [-> | [-> | [-> | []]]]];
    destruct (numSideSets a =? 0); reflexivity.
Qed.

(** ** A file without side sets *)

(** X3.
    Created with [numSideSets] 0, a file has neither the dimension
    [num_side_sets] nor the variables [ss_names], [ss_prop1] and [ss_status];
    the side-set methods then end in the [KeyError] of their first look at
    [ss_prop1], not in one of their assertions. *)
Theorem init_without_side_sets a :
  valid_args a → numSideSets a = 0 →
  ∃ s, __init__ a = inr s
       ∧ dimensions (_f s) !! "num_side_sets" = None
       ∧ (∀ name, name ∈ ["ss_names"; "ss_prop1"; "ss_status"] →
            variables (_f s) !! name = None)
       ∧ (∀ id numSetSides,
            put_side_set_params id numSetSides 0 s
            = (inl (KeyError "ss_prop1"), s))
       ∧ (∀ id elems sides,
            put_side_set id elems sides s = (inl (KeyError "ss_prop1"), s))
       ∧ (∀ id name,
            put_side_set_name id name s = (inl (KeyError "ss_prop1"), s)).
Proof.
  intros Ha Hn. exists (init_state a). split; [by apply init_ok|].
  assert (Hp : variables (_f (init_state a)) !! "ss_prop1" = None).
  { unfold init_state, init_vars. cbn [_f variables]. rewrite Hn. reflexivity. }
  split; [|split; [|split; [|split]]].
  - unfold init_state, init_dims. cbn [_f dimensions]. rewrite Hn. reflexivity.
  - intros name. rewrite !elem_of_cons, elem_of_nil.
    unfold init_state, init_vars. cbn [_f variables]. rewrite Hn.
    intros [-> | [-> | [-> | []]]]; reflexivity.
  - intros id n. unfold put_side_set_params.
    mstep ltac:(apply py_assert_true; reflexivity).
    apply bind_inl. by apply var_ints_None.
  - intros id elems sides. unfold put_side_set.
    apply bind_inl. by apply var_ints_None.
  - intros id name. unfold put_side_set_name.
    apply bind_inl. by apply var_ints_None.
Qed.


(** ** What [put_elem_blk_info] checks before it touches the file *)

(** X4.
    [put_elem_blk_info] compares the block's element count with the file's
    first, then looks at [numAttrsPerElem]; either assertion fails before any
    slot is claimed, whatever the other arguments are, and the file is as it
    was. *)
Theorem put_elem_blk_info_rejects s NE id elemType ne nn na :
  dimensions (_f s) !! "num_elem" = Some NE →
  (NE < ne →
   put_elem_blk_info id elemType ne nn na s
   = (inl (AssertionError
             "Canont have more elements in the block then globally set."), s))
  ∧ (ne ≤ NE → na ≠ 0 →
     put_elem_blk_info id elemType ne nn na s
     = (inl (AssertionError "Must be 0 for now."), s)).
Proof.
  intros He. split.
  - intros Hne. unfold put_elem_blk_info.
    mstep ltac:(apply dims_getitem_Some; exact He).
    apply bind_inl, py_assert_false. lia.
  - intros Hne Hna. unfold put_elem_blk_info.
    mstep ltac:(apply dims_getitem_Some; exact He).
    mstep ltac:(apply py_assert_true; lia).
    apply bind_inl, py_assert_false. lia.
Qed.

(** ** Connectivity without a shift, and the sizes it is checked against *)

Lemma var_setitem_all_ints name v l vals s :
  variables (_f s) !! name = Some v → v_data v = IntArr l →
  length vals = length l →
  var_setitem_all name (IntArr vals) s
  = (inr (), set_var name (set_data v (IntArr vals)) s).
Proof.
  intros Hv Hl Hlen. unfold var_setitem_all.
  rewrite (bind_inr _ _ _ _ _ (vars_getitem_Some _ _ _ Hv)).
  unfold assign, array_assign. rewrite Hl. cbn [array_size].
  rewrite bcast_same by done. unfold splice. cbn [take app Nat.add].
  by rewrite drop_all, app_nil_r.
Qed.

Lemma connectivity_sizes_mismatch id conn ne nn s :
  dimensions (_f s) !! ("num_el_in_blk" +:+ pretty id) = Some ne →
  dimensions (_f s) !! ("num_nod_per_el" +:+ pretty id) = Some nn →
  Z.of_nat (length (items conn)) ≠ ne * nn →
  connectivity_sizes id conn s = (inl (AssertionError ""), s).
Proof.
  intros He Hn Hlen. unfold connectivity_sizes.
  mstep ltac:(apply dims_contains_eq). rewrite He.
  mstep ltac:(apply py_assert_true, bool_decide_eq_true_2; eauto).
  mstep ltac:(apply dims_contains_eq). rewrite Hn.
  mstep ltac:(apply py_assert_true, bool_decide_eq_true_2; eauto).
  mstep ltac:(apply dims_getitem_Some; exact He).
  mstep ltac:(apply dims_getitem_Some; exact Hn).
  apply bind_inl, py_assert_false. lia.
Qed.

Lemma put_elem_connectivity_direct id conn s v l0 ne nn fuel mb :
  dimensions (_f s) !! ("num_el_in_blk" +:+ pretty id) = Some ne →
  dimensions (_f s) !! ("num_nod_per_el" +:+ pretty id) = Some nn →
  variables (_f s) !! ("connect" +:+ pretty id) = Some v →
  v_data v = IntArr l0 → Z.of_nat (length l0) = ne * nn →
  Z.of_nat (length (items conn)) = ne * nn →
  put_elem_connectivity fuel id conn 0 mb s
  = Some (inr (), set_var ("connect" +:+ pretty id)
                    (set_data v (IntArr (items conn))) s).
Proof.
  intros He Hn Hv Hd Hl0 Hlen. unfold put_elem_connectivity.
  rewrite (connectivity_sizes_ok _ _ _ _ _ He Hn Hlen). cbn [Z.eqb negb].
  by rewrite (var_setitem_all_ints _ _ _ _ _ Hv Hd) by lia.
Qed.

(** X5.
    Without a shift [put_elem_connectivity] writes the whole array at once:
    it returns whatever the fuel and the chunk budget are, and the block's
    [connect] array then holds the input as given, for an input whose items
    fit the 32-bit cells of [connect] ([int32_items]).  An input of another
    size than the block's is refused with an assertion that has no message,
    before anything is written, with or without a shift. *)
Theorem put_elem_connectivity_unshifted id conn s v l0 ne nn :
  dimensions (_f s) !! ("num_el_in_blk" +:+ pretty id) = Some ne →
  dimensions (_f s) !! ("num_nod_per_el" +:+ pretty id) = Some nn →
  variables (_f s) !! ("connect" +:+ pretty id) = Some v →
  v_data v = IntArr l0 → Z.of_nat (length l0) = ne * nn →
  (Z.of_nat (length (items conn)) = ne * nn → int32_items conn →
   ∀ fuel mb, ∃ s',
     put_elem_connectivity fuel id conn 0 mb s = Some (inr (), s')
     ∧ ints_of s' ("connect" +:+ pretty id) = Some (items conn)
     ∧ shape_of s' ("connect" +:+ pretty id) = Some (v_shape v)
     ∧ dimensions (_f s') = dimensions (_f s))
  ∧ (Z.of_nat (length (items conn)) ≠ ne * nn →
     ∀ fuel shift mb,
       put_elem_connectivity fuel id conn shift mb s
       = Some (inl (AssertionError ""), s)).
Proof.
  intros He Hn Hv Hd Hl0. split.
  - intros Hlen _ fuel mb.
    rewrite (put_elem_connectivity_direct _ _ _ _ _ _ _ fuel mb
               He Hn Hv Hd Hl0 Hlen).
    eexists. split; [reflexivity|]. unfold ints_of, shape_of. norm.
    rewrite lookup_insert_eq. done.
  - intros Hlen fuel shift mb. unfold put_elem_connectivity.
    by rewrite (connectivity_sizes_mismatch _ _ _ _ _ He Hn Hlen).
Qed.

(** X6.
    A block of elements without nodes takes its (empty) connectivity when no
    shift is asked for, at any fuel; with a shift the chunk size is a
    division by the number of nodes per element, and the call ends in
    [ZeroDivisionError], the file untouched. *)
Theorem put_elem_connectivity_no_nodes id conn s v ne :
  dimensions (_f s) !! ("num_el_in_blk" +:+ pretty id) = Some ne →
  dimensions (_f s) !! ("num_nod_per_el" +:+ pretty id) = Some 0 →
  variables (_f s) !! ("connect" +:+ pretty id) = Some v →
  v_data v = IntArr [] → items conn = [] →
  (∀ fuel mb, ∃ s',
     put_elem_connectivity fuel id conn 0 mb s = Some (inr (), s')
     ∧ ints_of s' ("connect" +:+ pretty id) = Some [])
  ∧ (∀ fuel shift mb, shift ≠ 0 →
       put_elem_connectivity fuel id conn shift mb s
       = Some (inl ZeroDivisionError, s)).
Proof.
  intros He Hn Hv Hd Hitems.
  assert (Hlen : Z.of_nat (length (items conn)) = ne * 0)
    by (rewrite Hitems; simpl; lia).
  split.
  - intros fuel mb. unfold put_elem_connectivity.
    rewrite (connectivity_sizes_ok _ _ _ _ _ He Hn Hlen). cbn [Z.eqb negb].
    rewrite (var_setitem_all_ints _ _ _ _ _ Hv Hd) by (by rewrite Hitems).
    eexists. split; [reflexivity|]. unfold ints_of. norm.
    rewrite lookup_insert_eq. simpl. by rewrite Hitems.
  - intros fuel shift mb Hshift. unfold put_elem_connectivity.
    rewrite (connectivity_sizes_ok _ _ _ _ _ He Hn Hlen).
    destruct (Z.eqb_spec shift 0) as [|_]; [done|]. cbn [negb].
    cbn [Z.eqb]. by rewrite orb_true_r.
Qed.


(** ** Connectivity of the blocks of a fresh file *)

(** X7.
    After the blocks [bs] have been allocated in a fresh file, the block
    allocated by the call number i + 1 takes its connectivity under the
    number i + 1, whatever its id: with the array's size right, a chunk of
    at least one row, and fuel for one iteration per element, the call
    returns and [connect(i+1)] holds every entry plus the shift (the entries
    themselves when the shift is 0).  The shift and the sums are values of
    the array's type, and the sums fit the 32-bit cells of [connect]
    ([shift_fits]). *)
Theorem connectivity_by_slot_after_blocks a bs (i : nat) b conn shift mb :
  valid_args a → (length bs ≤ Z.to_nat (numBlocks a))%nat →
  Forall (valid_block (numElems a)) bs →
  bs !! i = Some b →
  Z.of_nat (length (items conn)) = b_elems b * b_nodes b →
  0 < b_nodes b → 0 < itemsize conn →
  1 ≤ chunk_rows mb (itemsize conn) (b_nodes b) →
  shift_fits conn shift →
  ∃ s0 s, __init__ a = inr s0
    ∧ put_blocks bs s0 = (inr (), s)
    ∧ ∀ fuel, (Z.to_nat (b_elems b) ≤ fuel)%nat →
        ∃ s', put_elem_connectivity fuel (Z.of_nat i + 1) conn shift mb s
              = Some (inr (), s')
            ∧ ints_of s' ("connect" +:+ pretty (Z.of_nat i + 1))
              = Some ((λ x, x + shift) <$> items conn)
            ∧ shape_of s' ("connect" +:+ pretty (Z.of_nat i + 1))
              = Some [b_elems b; b_nodes b].
Proof.
  intros Ha Hlen Hbs Hi Hsize Hnn Hisz Hchunk _.
  pose proof (init_blocks_inv a (va_blocks a Ha)) as Hinv0.
  destruct (put_blocks_spec _ _ bs [] _ Hinv0) as (s & Hrun & Hinv);
    [simpl; lia | done |]. simpl in Hinv.
  exists (init_state a), s. split; [by apply init_ok|]. split; [done|].
  intros fuel Hfuel.
  destruct (bi_connect _ _ _ _ Hinv i b Hi) as (He & Hn & v & Hv & Hs & Hd).
  assert (Hb : valid_block (numElems a) b).
  { eapply Forall_forall in Hbs; [done|]. by eapply list_elem_of_lookup_2. }
  destruct Hb as (Hne & _).
  destruct (decide (shift = 0)) as [->|Hshift].
  - rewrite (put_elem_connectivity_direct _ conn _ _ _ _ _ fuel mb
               He Hn Hv Hd).
    + eexists. split; [reflexivity|]. unfold ints_of, shape_of. norm.
      rewrite lookup_insert_eq. cbn [mbind option_bind fmap option_fmap
        option_map set_data v_data v_shape]. rewrite Hs. split; [|done].
      f_equal. rewrite <- (list_fmap_id (items conn)) at 1.
      apply list_fmap_ext. intros _ x _. simpl. lia.
    + rewrite length_replicate. lia.
    + done.
  - eapply (put_elem_connectivity_shifted _ conn shift mb s v _ _ _
              He Hn Hv Hs Hd); try done; try lia.
    rewrite length_replicate. lia.
Qed.


(** ** Allocating side sets *)

Lemma filter_positive (k m : nat) :
  filter (λ x, 0 < x) (replicate k 1 ++ replicate m 0) = replicate k 1.
Proof.
  rewrite filter_app.
  replace (filter (λ x, 0 < x) (replicate m 0)) with (@nil Z).
  - rewrite app_nil_r. induction k as [|k IH]; [done|]. simpl.
    rewrite filter_cons_True by lia. by rewrite IH.
  - induction m as [|m IH]; [done|]. simpl.
    by rewrite filter_cons_False by lia.
Qed.

Lemma put_side_set_params_step N done x s :
  sides_inv N done s → (length done < Z.to_nat N)%nat →
  ss_id x ∉ ss_id <$> done → valid_side_set x →
  ∃ s', put_side_set_params (ss_id x) (ss_sides x) 0 s = (inr (), s')
        ∧ sides_inv N (done ++ [x]) s'.
Proof.
  intros [Hdim (vs & Hvs & Hss & Hds) (vp & Hvp & Hsp & Hdp)
          (vn & Hvn & Hsn & Hdn) Hfresh Hsets] Hk Hnew (Hid & Hn & _).
  set (k := length done) in *.
  destruct (Hfresh (Z.of_nat k + 1) ltac:(lia)) as (Hf1 & Hf2 & Hf3).
  destruct (Z.to_nat N - k)%nat as [|m] eqn:Hm; [lia|].
  eexists. split.
  - unfold put_side_set_params.
    mstep ltac:(apply py_assert_true; reflexivity).
    mstep ltac:(eapply var_ints_Some; [exact Hvp | exact Hdp]).
    mstep ltac:(apply py_assert_true; rewrite bool_decide_eq_false_2; [done|];
                rewrite elem_of_app, elem_of_replicate; intros [?|[? _]];
                [done|lia]).
    mstep ltac:(eapply var_ints_Some; [exact Hvs | exact Hds]).
    rewrite filter_positive, length_replicate.
    mstep ltac:(apply dims_getitem_Some; exact Hdim).
    mstep ltac:(apply py_assert_true; lia).
    cbv zeta.
    mstep ltac:(apply dims_setitem_None; exact Hf1).
    mstep ltac:(eapply (create_variable_fresh _ _ [ss_sides x]);
                [ norm; exact Hf2
                | repeat constructor; norm; apply lookup_insert_eq
                | repeat constructor; lia
                | reflexivity ]).
    change (root_name ("elem_ss" +:+ ?y)) with ("elem_ss" +:+ y).
    mstep ltac:(eapply (create_variable_fresh _ _ [ss_sides x]);
                [ norm; rewrite lookup_insert_ne by str_neq; exact Hf3
                | repeat constructor; norm; apply lookup_insert_eq
                | repeat constructor; lia
                | reflexivity ]).
    change (root_name ("side_ss" +:+ ?y)) with ("side_ss" +:+ y).
    mstep ltac:(eapply (var_setitem_int _ _ N);
                [ norm; rewrite !lookup_insert_ne by str_neq; exact Hvs
                | exact Hss | exact Hds | lia
                | rewrite length_app, !length_replicate; lia ]).
    eapply (var_setitem_int _ _ N);
      [ norm; rewrite !lookup_insert_ne by str_neq; exact Hvp
      | exact Hsp | exact Hdp | lia
      | rewrite length_app, length_fmap, length_replicate; fold k; lia ].
  - replace (Z.to_nat (Z.of_nat k + 1 - 1)) with k by lia.
    rewrite insert_status.
    rewrite insert_app_r_alt by (rewrite length_fmap; fold k; lia).
    rewrite length_fmap. fold k. rewrite Nat.sub_diag. cbn [insert list_insert].
    assert (Hlen : length (done ++ [x]) = S k)
      by (rewrite length_app; simpl; fold k; lia).
    constructor; norm; rewrite ?Hlen.
    + rewrite !lookup_insert_ne by str_neq. exact Hdim.
    + eexists. split.
      { rewrite lookup_insert_ne by str_neq. apply lookup_insert_eq. }
      split; [exact Hss|].
      cbn [set_data v_data]. f_equal.
      replace (Z.to_nat N - S k)%nat with m by lia.
      rewrite replicate_S_end, <- app_assoc. reflexivity.
    + eexists. split; [apply lookup_insert_eq|]. split; [exact Hsp|].
      cbn [set_data v_data]. f_equal.
      replace (Z.to_nat N - S k)%nat with m by lia.
      rewrite fmap_app, <- app_assoc. reflexivity.
    + exists vn. rewrite !lookup_insert_ne by str_neq. done.
    + intros j Hj. destruct (Hfresh j ltac:(lia)) as (H1 & H2 & H3).
      assert (Hjk : Z.of_nat k + 1 ≠ j) by lia.
      repeat split.
      * rewrite lookup_insert_ne by key_neq. exact H1.
      * rewrite !lookup_insert_ne by key_neq. exact H2.
      * rewrite !lookup_insert_ne by key_neq. exact H3.
    + intros i x' Hi name Hname.
      rewrite !(lookup_insert_ne _ "ss_prop1") by
        (rewrite !elem_of_cons, elem_of_nil in Hname;
         destruct Hname as [-> | [-> | []]]; str_neq).
      rewrite !(lookup_insert_ne _ "ss_status") by
        (rewrite !elem_of_cons, elem_of_nil in Hname;
         destruct Hname as [-> | [-> | []]]; str_neq).
      destruct (decide (i < k)%nat) as [Hik|Hik].
      * rewrite lookup_app_l in Hi by done.
        rewrite !lookup_insert_ne
          by (rewrite !elem_of_cons, elem_of_nil in Hname;
              destruct Hname as [-> | [-> | []]]; key_neq).
        apply (Hsets i x' Hi name Hname).
      * rewrite lookup_app_r in Hi by (fold k; lia). fold k in Hi.
        destruct (i - k)%nat as [|d] eqn:Hd; [|by destruct d].
        simplify_eq/=. replace i with k by lia.
        rewrite !elem_of_cons, elem_of_nil in Hname.
        destruct Hname as [-> | [-> | []]].
        -- rewrite lookup_insert_ne by str_neq. rewrite lookup_insert_eq.
           eexists. split; [reflexivity|]. split; reflexivity.
        -- rewrite lookup_insert_eq.
           eexists. split; [reflexivity|]. split; reflexivity.
Qed.

Lemma put_side_sets_spec N sets : ∀ done s,
  sides_inv N done s → (length done + length sets ≤ Z.to_nat N)%nat →
  NoDup (ss_id <$> (done ++ sets)) → Forall valid_side_set sets →
  ∃ s', put_side_sets sets s = (inr (), s') ∧ sides_inv N (done ++ sets) s'.
Proof.
  induction sets as [|x sets IH]; intros done s Hinv Hlen Hnd Hsets.
  - exists s. rewrite app_nil_r. done.
  - apply Forall_cons in Hsets as [Hx Hsets]. simpl in Hlen.
    destruct (put_side_set_params_step N done x s Hinv ltac:(lia))
      as (s1 & Hrun & Hinv1); [|done|].
    { rewrite fmap_app, fmap_cons in Hnd.
      apply NoDup_app in Hnd as (_ & Hnd & _). intros Hin.
      apply (Hnd _ Hin). left. }
    destruct (IH (done ++ [x]) s1 Hinv1) as (s' & Hrun' & Hinv');
      [| |done|].
    { rewrite length_app. simpl. lia. }
    { by rewrite <- app_assoc. }
    exists s'. rewrite <- app_assoc in Hinv'. split; [|done].
    simpl. by rewrite (bind_inr _ _ _ _ _ Hrun).
Qed.

Lemma init_sides_inv a :
  1 ≤ numSideSets a → sides_inv (numSideSets a) [] (init_state a).
Proof.
  intros HN. unfold init_state, init_vars, init_dims.
  destruct (Z.eqb_spec (numSideSets a) 0) as [|_]; [lia|].
  constructor; cbn [_f dimensions variables length].
  - map_lookup.
  - eexists. split; [|split].
    + map_lookup.
    + reflexivity.
    + simpl. rewrite Z.mul_1_r, Nat.sub_0_r. reflexivity.
  - eexists. split; [|split].
    + map_lookup.
    + reflexivity.
    + simpl. rewrite Nat.sub_0_r. reflexivity.
  - eexists. split; [map_lookup|]. split; reflexivity.
  - intros j _. repeat split; map_lookup.
  - intros i x Hi. done.
Qed.

Lemma sides_inv_ints N done s :
  sides_inv N done s →
  ints_of s "ss_status"
  = Some (replicate (length done) 1 ++ replicate (Z.to_nat N - length done) 0)
  ∧ ints_of s "ss_prop1"
    = Some ((ss_id <$> done) ++ replicate (Z.to_nat N - length done) (-1)).
Proof.
  intros [_ (vs & Hvs & _ & Hds) (vp & Hvp & _ & Hdp) _ _ _].
  unfold ints_of. rewrite Hvs, Hvp. simpl. by rewrite Hds, Hdp.
Qed.

Lemma put_side_set_params_full N done s id numSetSides :
  sides_inv N done s → length done = Z.to_nat N → id ∉ ss_id <$> done →
  put_side_set_params id numSetSides 0 s
  = (inl (AssertionError "Maximum number of side sets reached."), s).
Proof.
  intros [Hdim (vs & Hvs & Hss & Hds) (vp & Hvp & Hsp & Hdp) _ _ _] Hk Hnew.
  rewrite Hk, Nat.sub_diag, app_nil_r in Hds, Hdp.
  unfold put_side_set_params.
  mstep ltac:(apply py_assert_true; reflexivity).
  mstep ltac:(eapply var_ints_Some; [exact Hvp | exact Hdp]).
  mstep ltac:(apply py_assert_true; by rewrite bool_decide_eq_false_2).
  mstep ltac:(eapply var_ints_Some; [exact Hvs | exact Hds]).
  rewrite <- (app_nil_r (replicate _ 1)).
  change (@nil Z) with (replicate 0 0). rewrite filter_positive.
  rewrite length_replicate.
  mstep ltac:(apply dims_getitem_Some; exact Hdim).
  apply bind_inl, py_assert_false, Z.ltb_ge. lia.
Qed.

(** X9.
    In a fresh file with N side-set slots, up to N calls of
    [put_side_set_params] with distinct ids other than -1, ids that the
    32-bit cells of [ss_prop1] can hold ([valid_side_set]), all succeed and
    claim the slots in call order: [ss_prop1] holds the ids in that order,
    [ss_status] as many ones, and the call number i + 1 has created
    [elem_ss(i+1)] and [side_ss(i+1)] with one cell per side.  Once N slots
    are claimed, a call with a further id fails on "Maximum number of side
    sets reached." and leaves the file as it was. *)
Theorem side_sets_fill_slots_in_call_order a sets :
  valid_args a → (length sets ≤ Z.to_nat (numSideSets a))%nat →
  1 ≤ numSideSets a →
  NoDup (ss_id <$> sets) → Forall valid_side_set sets →
  ∃ s0 s,
    __init__ a = inr s0
    ∧ put_side_sets sets s0 = (inr (), s)
    ∧ ints_of s "ss_prop1"
      = Some ((ss_id <$> sets)
              ++ replicate (Z.to_nat (numSideSets a) - length sets) (-1))
    ∧ ints_of s "ss_status"
      = Some (replicate (length sets) 1
              ++ replicate (Z.to_nat (numSideSets a) - length sets) 0)
    ∧ (∀ (i : nat) x, sets !! i = Some x →
         shape_of s ("elem_ss" +:+ pretty (Z.of_nat i + 1))
         = Some [ss_sides x]
         ∧ shape_of s ("side_ss" +:+ pretty (Z.of_nat i + 1))
           = Some [ss_sides x])
    ∧ (length sets = Z.to_nat (numSideSets a) →
       ∀ id numSetSides, id ∉ ss_id <$> sets →
         put_side_set_params id numSetSides 0 s
         = (inl (AssertionError "Maximum number of side sets reached."), s)).
Proof.
  intros Ha Hlen HN Hnd Hsets.
  pose proof (init_sides_inv a HN) as Hinv0.
  destruct (put_side_sets_spec _ sets [] _ Hinv0) as (s & Hrun & Hinv);
    [simpl; lia | done | done |]. simpl in Hinv.
  exists (init_state a), s. split; [by apply init_ok|]. split; [done|].
  destruct (sides_inv_ints _ _ _ Hinv) as [Hst Hpr].
  split; [done|]. split; [done|]. split.
  - intros i x Hi. unfold shape_of. split.
    + destruct (si_sets _ _ _ Hinv i x Hi "elem_ss") as (v & -> & <- & _);
        [rewrite !elem_of_cons; tauto | done].
    + destruct (si_sets _ _ _ Hinv i x Hi "side_ss") as (v & -> & <- & _);
        [rewrite !elem_of_cons; tauto | done].
  - intros Hfull id n Hid. by eapply put_side_set_params_full.
Qed.


(** ** Finding a side set by its id *)

Lemma argwhere_first_lookup x (l : list Z) (i : nat) s :
  l !! i = Some x → (∀ j, (j < i)%nat → l !! j ≠ Some x) →
  argwhere_first x l s = (inr (Z.of_nat i), s).
Proof.
  intros Hi Hfirst. unfold argwhere_first, argwhere.
  rewrite <- (take_drop i l).
  rewrite argwhere_from_skip.
  - rewrite length_take_le by (apply Nat.lt_le_incl; by eapply lookup_lt_Some).
    rewrite (drop_S _ _ _ Hi). simpl. by rewrite Z.eqb_refl.
  - apply Forall_forall. intros y Hy.
    apply list_elem_of_lookup in Hy as [j Hj].
    pose proof (lookup_lt_Some _ _ _ Hj) as Hlt. rewrite length_take in Hlt.
    rewrite lookup_take_lt in Hj by lia.
    intros ->. apply (Hfirst j); [lia | done].
Qed.

Lemma sides_inv_find N done s (i : nat) x :
  sides_inv N done s → NoDup (ss_id <$> done) → done !! i = Some x →
  ∃ l, var_ints "ss_prop1" s = (inr l, s) ∧ ss_id x ∈ l
       ∧ argwhere_first (ss_id x) l s = (inr (Z.of_nat i), s).
Proof.
  intros Hinv Hnd Hi. destruct (si_prop _ _ _ Hinv) as (vp & Hvp & _ & Hdp).
  eexists. split; [by eapply var_ints_Some|].
  assert (Hl : ((ss_id <$> done) ++ replicate (Z.to_nat N - length done) (-1))
               !! i = Some (ss_id x)).
  { rewrite lookup_app_l by (rewrite length_fmap; by eapply lookup_lt_Some).
    by rewrite list_lookup_fmap, Hi. }
  split; [by eapply list_elem_of_lookup_2|].
  apply argwhere_first_lookup; [done|].
  intros j Hj Hjx. pose proof (lookup_lt_Some _ _ _ Hi) as Hlt.
  rewrite lookup_app_l in Hjx by (rewrite length_fmap; lia).
  assert (j = i); [|lia].
  eapply NoDup_lookup; [done | done |]. by rewrite list_lookup_fmap, Hi.
Qed.

Lemma sides_inv_unknown N done s id :
  sides_inv N done s → id ∉ ss_id <$> done →
  id ≠ -1 ∨ length done = Z.to_nat N →
  ∃ l, var_ints "ss_prop1" s = (inr l, s) ∧ id ∉ l.
Proof.
  intros Hinv Hid Hor. destruct (si_prop _ _ _ Hinv) as (vp & Hvp & _ & Hdp).
  eexists. split; [by eapply var_ints_Some|].
  rewrite elem_of_app, elem_of_replicate. intros [?|[-> Hne]]; [done|].
  destruct Hor as [?|Hfull]; [done|]. lia.
Qed.

Lemma sides_inv_free N done s :
  sides_inv N done s → Forall valid_side_set done →
  (length done < Z.to_nat N)%nat →
  ∃ l, var_ints "ss_prop1" s = (inr l, s) ∧ -1 ∈ l
       ∧ argwhere_first (-1) l s = (inr (Z.of_nat (length done)), s).
Proof.
  intros Hinv Hvalid Hk.
  destruct (si_prop _ _ _ Hinv) as (vp & Hvp & _ & Hdp).
  eexists. split; [by eapply var_ints_Some|].
  destruct (Z.to_nat N - length done)%nat as [|m] eqn:Hm; [lia|].
  assert (Hl : ((ss_id <$> done) ++ replicate (S m) (-1)) !! length done
               = Some (-1)).
  { rewrite lookup_app_r by (rewrite length_fmap; lia).
    by rewrite length_fmap, Nat.sub_diag. }
  split; [by eapply list_elem_of_lookup_2|].
  apply argwhere_first_lookup; [done|].
  intros j Hj. rewrite lookup_app_l by (rewrite length_fmap; lia).
  rewrite list_lookup_fmap.
  destruct (done !! j) as [y|] eqn:Hy; [|done]. simpl. intros [= Hneg].
  eapply Forall_lookup_1 in Hvalid as [Hne _]; [|done]. done.
Qed.

(** X10.
    [put_side_set] finds a side set by the id it was allocated under: after
    distinct side sets have been allocated in a fresh file (under ids that
    [ss_prop1] can hold, [valid_side_set]), the elements and sides given for
    the id of the call number i + 1 are stored, as given, in [elem_ss(i+1)]
    and [side_ss(i+1)] when there is one of each per side and they fit the
    32-bit cells of these arrays. *)
Theorem put_side_set_by_id a sets (i : nat) x elems sides :
  valid_args a → (length sets ≤ Z.to_nat (numSideSets a))%nat →
  1 ≤ numSideSets a →
  NoDup (ss_id <$> sets) → Forall valid_side_set sets →
  sets !! i = Some x →
  length elems = Z.to_nat (ss_sides x) →
  length sides = Z.to_nat (ss_sides x) →
  Forall int32_range elems → Forall int32_range sides →
  ∃ s0 s s',
    __init__ a = inr s0
    ∧ put_side_sets sets s0 = (inr (), s)
    ∧ put_side_set (ss_id x) elems sides s = (inr (), s')
    ∧ ints_of s' ("elem_ss" +:+ pretty (Z.of_nat i + 1)) = Some elems
    ∧ ints_of s' ("side_ss" +:+ pretty (Z.of_nat i + 1)) = Some sides
    ∧ ints_of s' "ss_prop1" = ints_of s "ss_prop1".
Proof.
  intros Ha Hlen HN Hnd Hsets Hi Hle Hls _ _.
  pose proof (init_sides_inv a HN) as Hinv0.
  destruct (put_side_sets_spec _ sets [] _ Hinv0) as (s & Hrun & Hinv);
    [simpl; lia | done | done |]. simpl in Hinv.
  destruct (sides_inv_find _ _ _ _ _ Hinv Hnd Hi) as (l & Hl & Hin & Hfirst).
  destruct (si_sets _ _ _ Hinv i x Hi "elem_ss") as (ve & Hve & _ & Hde);
    [rewrite !elem_of_cons; tauto|].
  destruct (si_sets _ _ _ Hinv i x Hi "side_ss") as (vs & Hvs & _ & Hds);
    [rewrite !elem_of_cons; tauto|].
  eexists (init_state a), s, _. split; [by apply init_ok|]. split; [done|].
  split; [|split; [|split]].
  - unfold put_side_set.
    mstep ltac:(exact Hl).
    mstep ltac:(apply py_assert_true; by rewrite bool_decide_eq_true_2).
    mstep ltac:(exact Hfirst).
    cbv zeta.
    mstep ltac:(eapply var_setitem_all_ints;
                [exact Hve | exact Hde | rewrite length_replicate; lia]).
    eapply var_setitem_all_ints;
      [ norm; rewrite lookup_insert_ne by str_neq; exact Hvs
      | exact Hds | rewrite length_replicate; lia ].
  - unfold ints_of. norm. rewrite lookup_insert_ne by str_neq.
    by rewrite lookup_insert_eq.
  - unfold ints_of. norm. by rewrite lookup_insert_eq.
  - unfold ints_of. norm. by rewrite !lookup_insert_ne by str_neq.
Qed.

(** X11.
    After distinct side sets have been allocated in a fresh file under ids
    that [ss_prop1] can hold ([valid_side_set]), an id that no side set was
    allocated under is refused by [put_side_set] and [put_side_set_name]
    with "Could not find side set with id N.", the file as it was; except
    the id -1 while a slot is free: -1 is what fills the free cells of
    [ss_prop1], so the id is found at the first free slot, and
    [put_side_set] ends in the [KeyError] of that slot's missing array. *)
Theorem put_side_set_unknown_id a sets id :
  valid_args a → (length sets ≤ Z.to_nat (numSideSets a))%nat →
  1 ≤ numSideSets a →
  NoDup (ss_id <$> sets) → Forall valid_side_set sets →
  id ∉ ss_id <$> sets →
  ∃ s0 s,
    __init__ a = inr s0
    ∧ put_side_sets sets s0 = (inr (), s)
    ∧ (id ≠ -1 ∨ length sets = Z.to_nat (numSideSets a) →
       (∀ elems sides,
          put_side_set id elems sides s
          = (inl (AssertionError
                    ("Could not find side set with id " +:+ pretty id +:+ ".")),
             s))
       ∧ (∀ name,
            put_side_set_name id name s
            = (inl (AssertionError
                      ("Could not find side set with id " +:+ pretty id
                       +:+ ".")), s)))
    ∧ ((length sets < Z.to_nat (numSideSets a))%nat →
       ∀ elems sides,
         put_side_set (-1) elems sides s
         = (inl (KeyError ("elem_ss"
                           +:+ pretty (Z.of_nat (length sets) + 1))), s)).
Proof.
  intros Ha Hlen HN Hnd Hsets Hid.
  pose proof (init_sides_inv a HN) as Hinv0.
  destruct (put_side_sets_spec _ sets [] _ Hinv0) as (s & Hrun & Hinv);
    [simpl; lia | done | done |]. simpl in Hinv.
  exists (init_state a), s. split; [by apply init_ok|]. split; [done|].
  split.
  - intros Hor.
    destruct (sides_inv_unknown _ _ _ _ Hinv Hid Hor) as (l & Hl & Hnin).
    split.
    + intros elems sides. unfold put_side_set.
      mstep ltac:(exact Hl).
      apply bind_inl, py_assert_false. by rewrite bool_decide_eq_false_2.
    + intros name. unfold put_side_set_name.
      mstep ltac:(exact Hl).
      apply bind_inl, py_assert_false. by rewrite bool_decide_eq_false_2.
  - intros Hfree elems sides.
    destruct (sides_inv_free _ _ _ Hinv Hsets Hfree) as (l & Hl & Hin & Hfirst).
    destruct (si_fresh _ _ _ Hinv (Z.of_nat (length sets) + 1) ltac:(lia))
      as (_ & Hnone & _).
    unfold put_side_set.
    mstep ltac:(exact Hl).
    mstep ltac:(apply py_assert_true; by rewrite bool_decide_eq_true_2).
    mstep ltac:(exact Hfirst).
    cbv zeta. apply bind_inl. unfold var_setitem_all.
    apply bind_inl. by apply vars_getitem_None.
Qed.


(** ** Rows of text *)

Lemma rows_of_replicate {A : Type} (n w : nat) (x : A) :
  rows_of n w (replicate (n * w) x) = replicate n (replicate w x).
Proof.
  apply list_eq. intros i. destruct (decide (i < n)%nat) as [Hi|Hi].
  - rewrite rows_of_lookup by done. rewrite lookup_replicate_2 by done.
    f_equal. rewrite drop_replicate, take_replicate. f_equal. nia.
  - rewrite !lookup_ge_None_2; [done | |];
      rewrite ?length_replicate, ?length_rows_of; lia.
Qed.

Lemma length_padded (w : nat) text :
  (String.length text ≤ w)%nat → length (padded w text) = w.
Proof.
  intros H. unfold padded.
  rewrite length_app, length_encoded_cells, length_replicate. lia.
Qed.

Lemma set_var_twice name v1 v2 s :
  set_var name v2 (set_var name v1 s) = set_var name v2 s.
Proof. unfold set_var, set_file. norm. by rewrite insert_insert_eq. Qed.

(** Clearing a row: [var[i] = b""]. *)
Lemma clear_row_at var v n w l i (r : nat) s :
  variables (_f s) !! var = Some v → v_shape v = [n; w] →
  v_data v = CharArr l → py_index n i = Some r →
  var_setitem var i (CharArr [NUL]) s
  = (inr (), set_var var
       (set_data v (CharArr (splice l (r * Z.to_nat w) (Z.to_nat w)
                               (replicate (Z.to_nat w) NUL)))) s).
Proof.
  intros Hv Hs Hl Hi. unfold var_setitem.
  rewrite (bind_inr _ _ _ _ _ (vars_getitem_Some _ _ _ Hv)).
  unfold axis0, row_width. rewrite Hs. cbn [hd tail foldr].
  rewrite Z.mul_1_r. rewrite Hi.
  unfold assign, array_assign. rewrite Hl, bcast_one. reflexivity.
Qed.

Lemma clear_row var v n w l i s :
  variables (_f s) !! var = Some v → v_shape v = [n; w] →
  v_data v = CharArr l → 0 ≤ i < n →
  var_setitem var i (CharArr [NUL]) s
  = (inr (), set_var var
       (set_data v (CharArr (splice l (Z.to_nat i * Z.to_nat w) (Z.to_nat w)
                               (replicate (Z.to_nat w) NUL)))) s).
Proof.
  intros Hv Hs Hl Hi.
  by apply (clear_row_at var v n w l i); [| | |apply py_index_in_range].
Qed.

(** Clearing a row and writing a text at its start: the two assignments
    that store a name or a record. *)
Lemma put_row_cells_at var v n w l text i (r : nat) s :
  variables (_f s) !! var = Some v → v_shape v = [n; w] →
  v_data v = CharArr l → length l = (Z.to_nat n * Z.to_nat w)%nat →
  py_index n i = Some r → (r < Z.to_nat n)%nat → len text ≤ w →
  (var_setitem var i (CharArr [NUL]);;
   var_setitem_prefix var i (len text) (CharArr (encoded_cells text))) s
  = (inr (), set_var var
       (set_data v (CharArr (splice l (r * Z.to_nat w) (Z.to_nat w)
                               (padded (Z.to_nat w) text)))) s).
Proof.
  intros Hv Hs Hl Hlen Hi Hr Htext. unfold len in Htext.
  rewrite (bind_inr _ _ _ _ _ (clear_row_at _ _ _ _ _ _ _ _ Hv Hs Hl Hi)).
  unfold var_setitem_prefix.
  erewrite bind_inr; [|apply vars_getitem_Some; norm; apply lookup_insert_eq].
  unfold axis0, row_width. cbn [set_data v_shape v_data]. rewrite Hs.
  cbn [hd tail foldr]. rewrite Z.mul_1_r. rewrite Hi.
  unfold assign, array_assign.
  replace (Z.to_nat (py_clamp w (len text))) with (String.length text).
  2:{ unfold py_clamp, len.
      destruct (Z.ltb_spec (Z.of_nat (String.length text)) 0); lia. }
  rewrite bcast_same by apply length_encoded_cells.
  cbn [set_data v_data]. unfold vars_store. rewrite modify_eq.
  rewrite set_var_twice. unfold set_data at 1.
  cbn [set_data v_data v_shape v_dimensions v_dtype v_attrs v_kwargs].
  unfold set_data, padded.
  rewrite (splice_splice l (encoded_cells text) _ (Z.to_nat w)
             (String.length text) NUL);
    [reflexivity | apply length_encoded_cells | lia | nia].
Qed.

Lemma put_row_cells var v n w l text i s :
  variables (_f s) !! var = Some v → v_shape v = [n; w] →
  v_data v = CharArr l → length l = (Z.to_nat n * Z.to_nat w)%nat →
  0 ≤ i < n → len text ≤ w →
  (var_setitem var i (CharArr [NUL]);;
   var_setitem_prefix var i (len text) (CharArr (encoded_cells text))) s
  = (inr (), set_var var
       (set_data v (CharArr (splice l (Z.to_nat i * Z.to_nat w) (Z.to_nat w)
                               (padded (Z.to_nat w) text)))) s).
Proof.
  intros Hv Hs Hl Hlen Hi Htext.
  apply (put_row_cells_at var v n w l text i); try done; [|lia].
  by apply py_index_in_range.
Qed.

Lemma char_rows_of_set_var s var v n w l :
  v_shape v = [n; w] →
  char_rows_of (set_var var (set_data v (CharArr l)) s) var
  = Some (rows_of (Z.to_nat n) (Z.to_nat w) l).
Proof.
  intros Hs. unfold char_rows_of. norm. rewrite lookup_insert_eq.
  cbn [mbind option_bind set_data v_data]. unfold axis0, row_width.
  cbn [set_data v_shape]. rewrite Hs. cbn [hd tail foldr].
  by rewrite Z.mul_1_r.
Qed.

(** ** Naming a side set *)

(** X12.
    [put_side_set_name] finds the side set by its id as [put_side_set]
    does: after distinct side sets have been allocated in a fresh file under
    ids that [ss_prop1] can hold ([valid_side_set]), a name of at most 33
    characters given for the id of the call number i + 1 is stored in row i
    of [ss_names], padded with NULs, the other rows left blank.  The id -1
    names the first free slot while there is one. *)
Theorem put_side_set_name_row a sets name :
  valid_args a → (length sets ≤ Z.to_nat (numSideSets a))%nat →
  1 ≤ numSideSets a →
  NoDup (ss_id <$> sets) → Forall valid_side_set sets →
  len name ≤ 33 →
  ∃ s0 s,
    __init__ a = inr s0
    ∧ put_side_sets sets s0 = (inr (), s)
    ∧ char_rows_of s "ss_names"
      = Some (replicate (Z.to_nat (numSideSets a)) (replicate 33 NUL))
    ∧ (∀ (i : nat) x, sets !! i = Some x →
         ∃ s', put_side_set_name (ss_id x) name s = (inr (), s')
               ∧ char_rows_of s' "ss_names"
                 = Some (<[i := padded 33 name]>
                           (replicate (Z.to_nat (numSideSets a))
                              (replicate 33 NUL))))
    ∧ ((length sets < Z.to_nat (numSideSets a))%nat →
       ∃ s', put_side_set_name (-1) name s = (inr (), s')
             ∧ char_rows_of s' "ss_names"
               = Some (<[length sets := padded 33 name]>
                         (replicate (Z.to_nat (numSideSets a))
                            (replicate 33 NUL)))).
Proof.
  intros Ha Hlen HN Hnd Hsets Hname.
  pose proof (init_sides_inv a HN) as Hinv0.
  destruct (put_side_sets_spec _ sets [] _ Hinv0) as (s & Hrun & Hinv);
    [simpl; lia | done | done |]. simpl in Hinv.
  exists (init_state a), s. split; [by apply init_ok|]. split; [done|].
  destruct (si_names _ _ _ Hinv) as (vn & Hvn & Hsn & Hdn).
  set (N := numSideSets a) in *.
  assert (Hcells : Z.to_nat (N * (33 * 1)) = (Z.to_nat N * 33)%nat) by lia.
  rewrite Hcells in Hdn.
  assert (Hrow : ∀ (i : nat) l first,
            var_ints "ss_prop1" s = (inr l, s) → first ∈ l →
            argwhere_first first l s = (inr (Z.of_nat i), s) →
            (i < Z.to_nat N)%nat →
            ∃ s', put_side_set_name first name s = (inr (), s')
                  ∧ char_rows_of s' "ss_names"
                    = Some (<[i := padded 33 name]>
                              (replicate (Z.to_nat N) (replicate 33 NUL)))).
  { intros i l first Hl Hin Hfirst Hi. eexists. split.
    - unfold put_side_set_name.
      mstep ltac:(exact Hl).
      mstep ltac:(apply py_assert_true; by rewrite bool_decide_eq_true_2).
      mstep ltac:(exact Hfirst).
      cbv zeta.
      apply (put_row_cells _ _ N 33 _ _ _ _ Hvn Hsn Hdn);
        [rewrite length_replicate; lia | lia | done].
    - rewrite (char_rows_of_set_var _ _ _ N 33) by done.
      change (Z.to_nat 33) with 33%nat.
      replace (Z.to_nat (Z.of_nat i + 1 - 1)) with i by lia.
      rewrite rows_of_splice;
        [ | apply length_padded; unfold len in Hname; lia | done
          | by rewrite length_replicate ].
      by rewrite rows_of_replicate. }
  split; [|split].
  - unfold char_rows_of. rewrite Hvn. cbn [mbind option_bind]. rewrite Hdn.
    unfold axis0, row_width. rewrite Hsn. cbn [hd tail foldr].
    change (Z.to_nat (33 * 1)) with 33%nat. by rewrite rows_of_replicate.
  - intros i x Hi.
    destruct (sides_inv_find _ _ _ _ _ Hinv Hnd Hi) as (l & Hl & Hin & Hfirst).
    apply (Hrow i l _ Hl Hin Hfirst).
    pose proof (lookup_lt_Some _ _ _ Hi). lia.
  - intros Hfree.
    destruct (sides_inv_free _ _ _ Hinv Hsets Hfree) as (l & Hl & Hin & Hfirst).
    by apply (Hrow (length sets) l _ Hl Hin Hfirst).
Qed.


(** ** Info records *)

Lemma splice_insert_next {A : Type} (rows new : list A) (k : nat) (p : A) :
  (k < length rows)%nat →
  splice (<[k := p]> rows) (S k) (length new) new
  = splice rows k (S (length new)) (p :: new).
Proof.
  intros Hk. unfold splice.
  rewrite (take_S_r _ _ p) by (by apply list_lookup_insert_eq).
  rewrite take_insert_ge by done. rewrite drop_insert_lt by lia.
  replace (S k + length new)%nat with (k + S (length new))%nat by lia.
  by rewrite <- app_assoc.
Qed.

Lemma info_check_ok L info s :
  dimensions (_f s) !! "len_line" = Some L →
  Forall (λ x, len x < L) info →
  ∃ us, mapM (λ value,
                len_line ← dims_getitem "len_line";
                py_assert (len value <? len_line)
                  ("Records '" +:+ value +:+ "' is longer then "
                   +:+ pretty len_line +:+ " letters.")) info s
        = (inr us, s).
Proof.
  intros HL. induction 1 as [|x info Hx _ [us IH]]; [by eexists|].
  eexists. cbn [mapM].
  mstep ltac:(apply dims_getitem_Some; exact HL).
  mstep ltac:(apply py_assert_true; lia).
  mstep ltac:(exact IH). reflexivity.
Qed.

Lemma info_check_fails L pre r post s :
  dimensions (_f s) !! "len_line" = Some L →
  Forall (λ x, len x < L) pre → L ≤ len r →
  mapM (λ value,
          len_line ← dims_getitem "len_line";
          py_assert (len value <? len_line)
            ("Records '" +:+ value +:+ "' is longer then "
             +:+ pretty len_line +:+ " letters.")) (pre ++ r :: post) s
  = (inl (AssertionError ("Records '" +:+ r +:+ "' is longer then "
                          +:+ pretty L +:+ " letters.")), s).
Proof.
  intros HL Hpre Hr. induction Hpre as [|x pre Hx _ IH]; cbn [app mapM].
  - mstep ltac:(apply dims_getitem_Some; exact HL).
    apply bind_inl, py_assert_false. lia.
  - mstep ltac:(apply dims_getitem_Some; exact HL).
    mstep ltac:(apply py_assert_true; lia).
    by apply bind_inl.
Qed.

(** A loop over [enumerate] whose body stores the text number [i] in row
    [i] of a character variable, from row [k] on. *)
Lemma rows_loop var (body : Z * string → M unit) v0 n w D rest :
  (∀ (k : nat) x l s,
     dimensions (_f s) = D →
     variables (_f s) !! var = Some (set_data v0 (CharArr l)) →
     length l = (n * w)%nat → (k < n)%nat → (String.length x ≤ w)%nat →
     body (Z.of_nat k, x) s
     = (inr (), set_var var
          (set_data v0 (CharArr (splice l (k * w) w (padded w x)))) s)) →
  ∀ (k : nat) l s,
  dimensions (_f s) = D →
  variables (_f s) !! var = Some (set_data v0 (CharArr l)) →
  length l = (n * w)%nat →
  (k + length rest ≤ n)%nat →
  Forall (λ x, (String.length x ≤ w)%nat) rest →
  ∃ us s' l',
    mapM body (imap (λ i x, (Z.of_nat (k + i), x)) rest) s = (inr us, s')
    ∧ variables (_f s') !! var = Some (set_data v0 (CharArr l'))
    ∧ dimensions (_f s') = D
    ∧ length l' = (n * w)%nat
    ∧ rows_of n w l'
      = splice (rows_of n w l) k (length rest) (padded w <$> rest).
Proof.
  intros Hbody.
  induction rest as [|x rest IH]; intros k l s HD Hv Hlen Hk Hrest.
  - exists [], s, l. split; [done|]. split; [done|]. split; [done|].
    split; [done|]. unfold splice. simpl. rewrite Nat.add_0_r.
    by rewrite take_drop.
  - apply Forall_cons in Hrest as [Hx Hrest]. cbn [length] in Hk.
    rewrite imap_cons. cbn [mapM].
    set (l1 := splice l (k * w) w (padded w x)).
    assert (Hlen1 : length l1 = (n * w)%nat).
    { subst l1. rewrite length_splice; [done | by apply length_padded | nia]. }
    destruct (IH (S k) l1 (set_var var (set_data v0 (CharArr l1)) s))
      as (us & s' & l' & Hrun & Hv' & Hd' & Hlen' & Hrows');
      [done | norm; apply lookup_insert_eq | done | lia | done |].
    exists (() :: us), s', l'. split; [|split; [|split; [|split]]]; try done.
    + erewrite bind_inr;
        [|rewrite Nat.add_0_r; apply (Hbody k x l s); [done|done|done|lia|done]].
      erewrite (imap_ext _ (λ i y, (Z.of_nat (S k + i), y))).
      2:{ intros i y _. simpl. do 2 f_equal. lia. }
      erewrite bind_inr; [|exact Hrun]. reflexivity.
    + rewrite Hrows'. subst l1.
      rewrite rows_of_splice; [|by apply length_padded | lia | done].
      rewrite fmap_cons. cbn [length].
      rewrite <- (length_fmap (padded w) rest).
      apply splice_insert_next. rewrite length_rows_of. lia.
Qed.

Lemma info_rows_body v0 n w (k : nat) x l s :
  v_shape v0 = [n; w] →
  variables (_f s) !! "info_records" = Some (set_data v0 (CharArr l)) →
  length l = (Z.to_nat n * Z.to_nat w)%nat →
  (k < Z.to_nat n)%nat → (String.length x ≤ Z.to_nat w)%nat →
  (var_setitem "info_records" (Z.of_nat k) (CharArr [NUL]);;
   if bool_decide (x = EmptyString) then mret () else
   var_setitem_prefix "info_records" (Z.of_nat k) (len x)
     (CharArr (encoded_cells x))) s
  = (inr (), set_var "info_records"
       (set_data v0 (CharArr (splice l (k * Z.to_nat w) (Z.to_nat w)
                                (padded (Z.to_nat w) x)))) s).
Proof.
  intros Hs Hv Hlen Hk Hx. case_bool_decide as Hempty.
  - subst x.
    erewrite bind_inr;
      [|apply (clear_row "info_records" (set_data v0 (CharArr l)) n w l);
        [exact Hv | exact Hs | done | lia]].
    rewrite ret_eq, Nat2Z.id. unfold padded. simpl.
    by rewrite Nat.sub_0_r.
  - assert (len x ≤ w) by (unfold len; destruct x; [done | simpl in *; lia]).
    etrans;
      [apply (put_row_cells "info_records" (set_data v0 (CharArr l))
                n w l); [done | done | done | done | lia | done]|].
    by rewrite Nat2Z.id.
Qed.

(** X13.
    [put_info_records] does nothing for an empty list.  It checks every
    record against [len_line] before it creates anything: the first record
    that does not leave room for a NUL is named in the assertion error, and
    the file is as it was.  Otherwise it declares [num_info], one per
    record, and [info_records] holds the records in order, each in its row,
    padded with NULs. *)
Theorem put_info_records_rows s L info :
  dimensions (_f s) !! "len_line" = Some L →
  put_info_records [] s = (inr (), s)
  ∧ (∀ pre r post, info = pre ++ r :: post →
       Forall (λ x, len x < L) pre → L ≤ len r →
       put_info_records info s
       = (inl (AssertionError ("Records '" +:+ r +:+ "' is longer then "
                               +:+ pretty L +:+ " letters.")), s))
  ∧ (info ≠ [] → Forall (λ x, len x < L) info →
     dimensions (_f s) !! "num_info" = None →
     variables (_f s) !! "info_records" = None →
     ∃ s', put_info_records info s = (inr (), s')
           ∧ dimensions (_f s') !! "num_info" = Some (Z.of_nat (length info))
           ∧ shape_of s' "info_records" = Some [Z.of_nat (length info); L]
           ∧ char_rows_of s' "info_records"
             = Some (padded (Z.to_nat L) <$> info)).
Proof.
  intros HL. split; [done|]. split.
  - intros pre r post -> Hpre Hr. unfold put_info_records.
    rewrite bool_decide_eq_false_2 by (by destruct pre).
    apply bind_inl. by apply info_check_fails.
  - intros Hne Hinfo Hdim Hvar. unfold put_info_records.
    rewrite bool_decide_eq_false_2 by done.
    destruct (info_check_ok L info s HL Hinfo) as [us Hcheck].
    assert (HL0 : 0 ≤ L).
    { destruct info as [|x info']; [done|].
      apply Forall_cons in Hinfo as [Hx _]. unfold len in Hx. lia. }
    set (n := Z.of_nat (length info)).
    set (v0 := new_variable (_comp_opts s) ["num_info"; "len_line"] [n; L] S1
                 (fill S1 (Z.to_nat (foldr Z.mul 1 [n; L])))).
    set (s1 := set_var "info_records" v0 (set_dim "num_info" n s)).
    destruct (rows_loop "info_records"
                (λ '(idx, value),
                   var_setitem "info_records" idx (CharArr [NUL]);;
                   if bool_decide (value = EmptyString) then mret () else
                   var_setitem_prefix "info_records" idx (len value)
                     (CharArr (encoded_cells value)))
                v0 (Z.to_nat n) (Z.to_nat L) (dimensions (_f s1)) info
                ltac:(intros k x l s2 _; by apply info_rows_body) 0%nat
                (replicate (Z.to_nat n * Z.to_nat L) NUL) s1)
      as (us' & s' & l' & Hrun & Hv' & Hd' & Hlen' & Hrows').
    { reflexivity. }
    { subst s1 v0. norm. rewrite lookup_insert_eq. cbn [fill foldr].
      replace (Z.to_nat (n * (L * 1))) with (Z.to_nat n * Z.to_nat L)%nat
        by lia.
      reflexivity. }
    { apply length_replicate. }
    { subst n. lia. }
    { eapply Forall_impl; [exact Hinfo|]. intros x Hx. simpl in Hx.
      unfold len in Hx. lia. }
    exists s'. split; [|split; [|split]].
    + mstep ltac:(exact Hcheck).
      mstep ltac:(apply dims_setitem_None; exact Hdim).
      mstep ltac:(eapply (create_variable_fresh _ _ [n; L]);
                  [ norm; exact Hvar
                  | repeat constructor; norm;
                    [ apply lookup_insert_eq
                    | rewrite lookup_insert_ne by str_neq; exact HL ]
                  | repeat constructor; lia
                  | reflexivity ]).
      change (root_name "info_records") with "info_records".
      unfold enumerate.
      erewrite (imap_ext _ (λ i y, (Z.of_nat (0 + i), y))) by done.
      mstep ltac:(exact Hrun). reflexivity.
    + rewrite Hd'. subst s1. norm. apply lookup_insert_eq.
    + unfold shape_of. rewrite Hv'. reflexivity.
    + unfold char_rows_of. rewrite Hv'. cbn [mbind option_bind set_data v_data].
      unfold axis0, row_width. cbn [set_data v_shape v0 new_variable hd tail
                                    foldr].
      rewrite Z.mul_1_r. rewrite Hrows'. f_equal.
      unfold splice. cbn [take app Nat.add].
      rewrite drop_ge by (rewrite length_rows_of; lia).
      by rewrite app_nil_r.
Qed.


(** ** Declaring and naming variables *)

Lemma node_arrays_loop NN fdt m : ∀ (k : nat) s,
  dimensions (_f s) !! "time_step" = Some 1 →
  dimensions (_f s) !! "num_nodes" = Some NN → 0 ≤ NN →
  (∀ j, Z.of_nat k < j →
        variables (_f s) !! ("vals_nod_var" +:+ pretty j) = None) →
  ∃ us s',
    mapM (λ _i, create_variable ("vals_nod_var" +:+ pretty (Z.of_nat _i + 1))
                  ["time_step"; "num_nodes"] fdt None) (seq k m) s
    = (inr us, s')
    ∧ dimensions (_f s') = dimensions (_f s)
    ∧ (∀ name, (∀ j, Z.of_nat k < j ≤ Z.of_nat (k + m) →
                     name ≠ "vals_nod_var" +:+ pretty j) →
         variables (_f s') !! name = variables (_f s) !! name)
    ∧ (∀ j, Z.of_nat k < j ≤ Z.of_nat (k + m) →
         variables (_f s') !! ("vals_nod_var" +:+ pretty j)
         = Some (new_variable (_comp_opts s) ["time_step"; "num_nodes"]
                   [1; NN] fdt (fill fdt (Z.to_nat (1 * (NN * 1)))))).
Proof.
  induction m as [|m IH]; intros k s Ht Hn HNN Hfresh.
  - exists [], s. split; [done|]. split; [done|]. split; [done|].
    intros j Hj. lia.
  - cbn [seq mapM].
    set (name := "vals_nod_var" +:+ pretty (Z.of_nat k + 1)).
    set (v := new_variable (_comp_opts s) ["time_step"; "num_nodes"]
                [1; NN] fdt (fill fdt (Z.to_nat (1 * (NN * 1))))).
    assert (Hcreate : create_variable name ["time_step"; "num_nodes"] fdt
                        None s = (inr (), set_var name v s)).
    { apply (create_variable_fresh name _ [1; NN]).
      - apply Hfresh. lia.
      - repeat constructor; done.
      - repeat constructor; lia.
      - reflexivity. }
    destruct (IH (S k) (set_var name v s)) as (us & s' & Hrun & Hd & Ho & Hj);
      [done | done | done | |].
    { intros j Hj. norm. rewrite lookup_insert_ne.
      - apply Hfresh. lia.
      - subst name. intros H. apply name_inj in H. lia. }
    exists (() :: us), s'. split; [|split; [|split]].
    + erewrite bind_inr; [|exact Hcreate].
      erewrite bind_inr; [|exact Hrun]. reflexivity.
    + by rewrite Hd.
    + intros other Hother. rewrite Ho.
      * norm. apply lookup_insert_ne. subst name. apply not_eq_sym.
        apply Hother. lia.
      * intros j Hjr. apply Hother. lia.
    + intros j Hjr. destruct (decide (j = Z.of_nat k + 1)) as [->|Hne].
      * rewrite Ho.
        -- norm. apply lookup_insert_eq.
        -- intros j Hj' H. apply name_inj in H. lia.
      * rewrite Hj by lia. done.
Qed.

(** A state in which no variable of any catalog has been declared. *)
Lemma init_undeclared a :
  (∀ c, dimensions (_f (init_state a)) !! number_dim c = None)
  ∧ (∀ c, variables (_f (init_state a)) !! name_var c = None)
  ∧ variables (_f (init_state a)) !! "vals_glo_var" = None
  ∧ (∀ j : Z, variables (_f (init_state a)) !! ("vals_nod_var" +:+ pretty j)
              = None)
  ∧ dimensions (_f (init_state a)) !! "len_name" = Some 33
  ∧ dimensions (_f (init_state a)) !! "num_nodes" = Some (numNodes a).
Proof.
  unfold init_state, init_dims, init_vars. cbn [_f dimensions variables].
  destruct (numSideSets a =? 0);
    (split; [by intros []|]); (split; [by intros []|]);
    (split; [done|]); (split; [intros j; map_lookup|]); split; map_lookup.
Qed.

Lemma init_fill_float a n :
  fill (precision_of a).1 n = FloatArr (replicate n fzero).
Proof.
  unfold precision_of.
  destruct (io_size a =? 0), (arch_64bit a), (io_size a =? 4); reflexivity.
Qed.

Lemma set_variable_number_fresh c a n :
  valid_args a → 0 < n →
  ∃ s1,
    set_variable_number c n (init_state a) = (inr (), s1)
    ∧ variables (_f s1) !! name_var c
      = Some (new_variable (init_opts a) [number_dim c; "len_name"] [n; 33]
                S1 (CharArr (replicate (Z.to_nat n * 33) NUL)))
    ∧ dimensions (_f s1) = <[number_dim c := n]> (init_dims a)
    ∧ (c = Global →
       variables (_f s1) !! "vals_glo_var"
       = Some (new_variable (init_opts a) ["time_step"; "num_glo_var"]
                 [1; n] (precision_of a).1
                 (FloatArr (replicate (Z.to_nat n) fzero))))
    ∧ (c = Element →
       variables (_f s1) = <["name_elem_var" :=
         new_variable (init_opts a) ["num_elem_var"; "len_name"] [n; 33]
           S1 (CharArr (replicate (Z.to_nat n * 33) NUL))]> (init_vars a))
    ∧ (c = Node →
       ∀ j, 1 ≤ j ≤ n →
         variables (_f s1) !! ("vals_nod_var" +:+ pretty j)
         = Some (new_variable (init_opts a) ["time_step"; "num_nodes"]
                   [1; numNodes a] (precision_of a).1
                   (FloatArr (replicate (Z.to_nat (numNodes a)) fzero)))).
Proof.
  intros Ha Hn.
  destruct (init_undeclared a) as (Hdim & Hvar & Hglo & Hnod & Hlen & Hnn).
  pose proof (init_time_step a) as Ht.
  assert (Hcells : Z.to_nat (n * (33 * 1)) = (Z.to_nat n * 33)%nat) by lia.
  destruct (Z.eqb_spec n 0) as [|_]; [lia|].
  destruct c; cbn [set_variable_number name_var number_dim].
  - eexists. split; [|split; [|split; [|split; [|split]]]]; [| | | |done|done].
    + unfold set_global_variable_number.
      destruct (Z.eqb_spec n 0) as [|_]; [lia|].
      mstep ltac:(apply dims_setitem_None; exact (Hdim Global)).
      mstep ltac:(eapply (create_variable_fresh _ _ [n; 33]);
                  [ exact (Hvar Global)
                  | repeat constructor; norm;
                    [ apply lookup_insert_eq
                    | rewrite lookup_insert_ne by str_neq; exact Hlen ]
                  | repeat constructor; lia
                  | reflexivity ]).
      mstep ltac:(apply gets_eq).
      eapply (create_variable_fresh _ _ [1; n]);
        [ norm; rewrite lookup_insert_ne by str_neq; exact Hglo
        | repeat constructor; norm;
          [ rewrite lookup_insert_ne by str_neq; exact Ht
          | apply lookup_insert_eq ]
        | repeat constructor; lia
        | reflexivity ].
    + norm. rewrite lookup_insert_ne by str_neq. rewrite lookup_insert_eq.
      cbn [fill foldr]. by rewrite Hcells.
    + reflexivity.
    + intros _. norm. rewrite lookup_insert_eq.
      change (__f_dtype (init_state a)) with (precision_of a).1.
      change (_comp_opts (init_state a)) with (init_opts a).
      rewrite init_fill_float. cbn [foldr].
      by replace (Z.to_nat (1 * (n * 1))) with (Z.to_nat n) by lia.
  - eexists. split; [|split; [|split; [|split; [|split]]]]; [| | |done| |done].
    + unfold set_element_variable_number.
      destruct (Z.eqb_spec n 0) as [|_]; [lia|].
      mstep ltac:(apply dims_setitem_None; exact (Hdim Element)).
      eapply (create_variable_fresh _ _ [n; 33]);
        [ exact (Hvar Element)
        | repeat constructor; norm;
          [ apply lookup_insert_eq
          | rewrite lookup_insert_ne by str_neq; exact Hlen ]
        | repeat constructor; lia
        | reflexivity ].
    + norm. rewrite lookup_insert_eq. cbn [fill foldr]. by rewrite Hcells.
    + reflexivity.
    + intros _. norm. cbn [fill foldr]. by rewrite Hcells.
  - set (s0 := set_var "name_nod_var"
                 (new_variable (init_opts a) ["num_nod_var"; "len_name"]
                    [n; 33] S1 (fill S1 (Z.to_nat (foldr Z.mul 1 [n; 33]))))
                 (set_dim "num_nod_var" n (init_state a))).
    destruct (node_arrays_loop (numNodes a) (precision_of a).1 (Z.to_nat n)
                0 s0) as (us & s1 & Hrun & Hd & Ho & Hj).
    { subst s0. norm. by rewrite lookup_insert_ne by str_neq. }
    { subst s0. norm. by rewrite lookup_insert_ne by str_neq. }
    { apply (va_nodes a Ha). }
    { intros j _. subst s0. norm. rewrite lookup_insert_ne by str_neq.
      apply Hnod. }
    exists s1. split; [|split; [|split; [|split; [|split]]]];
      [| | |done|done|].
    + unfold set_node_variable_number.
      destruct (Z.eqb_spec n 0) as [|_]; [lia|].
      mstep ltac:(apply dims_setitem_None; exact (Hdim Node)).
      mstep ltac:(eapply (create_variable_fresh _ _ [n; 33]);
                  [ exact (Hvar Node)
                  | repeat constructor; norm;
                    [ apply lookup_insert_eq
                    | rewrite lookup_insert_ne by str_neq; exact Hlen ]
                  | repeat constructor; lia
                  | reflexivity ]).
      mstep ltac:(apply gets_eq).
      mstep ltac:(exact Hrun). reflexivity.
    + rewrite Ho by (intros j _; str_neq). subst s0. norm.
      rewrite lookup_insert_eq. cbn [fill foldr]. by rewrite Hcells.
    + rewrite Hd. reflexivity.
    + intros _ j Hjn. rewrite Hj by lia. subst s0. norm.
      change (_comp_opts (init_state a)) with (init_opts a).
      rewrite init_fill_float.
      by replace (Z.to_nat (1 * (numNodes a * 1)))
        with (Z.to_nat (numNodes a)) by lia.
Qed.


Lemma put_variable_name_row_at c v n l name index (r : nat) s :
  variables (_f s) !! name_var c = Some v → v_shape v = [n; 33] →
  v_data v = CharArr l → length l = (Z.to_nat n * 33)%nat →
  (c = Node → dimensions (_f s) !! "num_nod_var" = Some n) →
  py_index n (index - 1) = Some r → (r < Z.to_nat n)%nat → index ≤ n →
  len name ≤ 33 →
  put_variable_name c name index s
  = (inr (), set_var (name_var c)
       (set_data v (CharArr (splice l (r * 33) 33 (padded 33 name)))) s).
Proof.
  intros Hv Hs Hl Hlen Hnode Hi Hr Hin Hname.
  pose proof (put_row_cells_at (name_var c) v n 33 l name (index - 1) r s
                Hv Hs Hl Hlen Hi Hr Hname) as Hput.
  destruct c; cbn [put_variable_name name_var] in *;
    [ unfold put_global_variable_name | unfold put_element_variable_name
    | unfold put_node_variable_name ]; [exact Hput | exact Hput |].
  mstep ltac:(apply dims_getitem_Some, Hnode; reflexivity).
  mstep ltac:(apply py_assert_true; lia).
  exact Hput.
Qed.

Lemma put_variable_name_row c v n l name index s :
  variables (_f s) !! name_var c = Some v → v_shape v = [n; 33] →
  v_data v = CharArr l → length l = (Z.to_nat n * 33)%nat →
  (c = Node → dimensions (_f s) !! "num_nod_var" = Some n) →
  0 ≤ index - 1 < n → len name ≤ 33 →
  put_variable_name c name index s
  = (inr (), set_var (name_var c)
       (set_data v (CharArr (splice l (Z.to_nat (index - 1) * 33) 33
                               (padded 33 name)))) s).
Proof.
  intros Hv Hs Hl Hlen Hnode Hi Hname.
  apply (put_variable_name_row_at c v n l name index); try done; [|lia..].
  by apply py_index_in_range.
Qed.

Lemma get_variable_names_rows c v n l names s :
  variables (_f s) !! name_var c = Some v → v_shape v = [n; 33] →
  v_data v = CharArr l →
  Forall2 (λ row name, decode_row row = Some name)
    (rows_of (Z.to_nat n) 33 l) names →
  get_variable_names c s = (inr names, s).
Proof.
  intros Hv Hs Hl Hrows.
  assert (get_names (name_var c) s = (inr names, s)); [|by destruct c].
  rewrite (get_names_eq _ _ _ _ Hv Hl).
  unfold axis0, row_width. rewrite Hs. cbn [hd tail foldr].
  change (Z.to_nat (33 * 1)) with 33%nat.
  by rewrite (mapM_Some_2 decode_row _ _ Hrows).
Qed.

Lemma decode_row_blank : decode_row (replicate 33 NUL) = Some EmptyString.
Proof. by vm_compute. Qed.

Lemma decode_row_padded name :
  clean_name name → decode_row (padded 33 name) = Some name.
Proof. intros H. unfold padded. by apply decode_row_clean. Qed.

(** X14.
    Declaring no variables leaves the file as it is.  Declaring n > 0
    variables in a fresh file records n in the catalog's dimension and
    creates the catalog's array of names, n blank rows that read as n empty
    names; with it the global catalog gets its one array of values, of n
    columns, and the node catalog one array per variable, numbered from 1,
    of one cell per node.  The element catalog gets no array of values:
    they are created when values are first written. *)
Theorem set_variable_number_declares c a n :
  valid_args a →
  ∃ s0,
    __init__ a = inr s0
    ∧ set_variable_number c 0 s0 = (inr (), s0)
    ∧ (0 < n →
       ∃ s1,
         set_variable_number c n s0 = (inr (), s1)
         ∧ dimensions (_f s1) !! number_dim c = Some n
         ∧ get_variable_names c s1
           = (inr (replicate (Z.to_nat n) EmptyString), s1)
         ∧ (c = Global →
            shape_of s1 "vals_glo_var" = Some [1; n]
            ∧ floats_of s1 "vals_glo_var"
              = Some (replicate (Z.to_nat n) fzero))
         ∧ (c = Element →
            ∀ name, name ≠ "name_elem_var" →
              variables (_f s1) !! name = variables (_f s0) !! name)
         ∧ (c = Node →
            ∀ j, 1 ≤ j ≤ n →
              shape_of s1 ("vals_nod_var" +:+ pretty j)
              = Some [1; numNodes a]
              ∧ floats_of s1 ("vals_nod_var" +:+ pretty j)
                = Some (replicate (Z.to_nat (numNodes a)) fzero))).
Proof.
  intros Ha. exists (init_state a). split; [by apply init_ok|].
  split; [by destruct c|]. intros Hn.
  destruct (set_variable_number_fresh c a n Ha Hn)
    as (s1 & Hrun & Hv & Hd & Hglo & Helem & Hnod).
  exists s1. split; [done|]. split; [|split; [|split; [|split]]].
  - rewrite Hd. apply lookup_insert_eq.
  - eapply get_variable_names_rows; [exact Hv | reflexivity | reflexivity |].
    rewrite rows_of_replicate. apply Forall2_replicate, decode_row_blank.
  - intros Hc. unfold shape_of, floats_of. by rewrite (Hglo Hc).
  - intros Hc name Hname. rewrite (Helem Hc).
    by apply lookup_insert_ne.
  - intros Hc j Hj. unfold shape_of, floats_of. by rewrite (Hnod Hc j Hj).
Qed.

(** X15.
    Names written are names read: after n variables have been declared in
    a fresh file and named in order with clean names of at most 33
    characters, [get_*_variable_names] returns exactly these names, in
    order. *)
Theorem names_round_trip c a names :
  valid_args a → names ≠ [] →
  Forall (λ x, clean_name x ∧ len x ≤ 33) names →
  ∃ s0 s1 s2,
    __init__ a = inr s0
    ∧ set_variable_number c (Z.of_nat (length names)) s0 = (inr (), s1)
    ∧ put_variable_names c names s1 = (inr (), s2)
    ∧ get_variable_names c s2 = (inr names, s2).
Proof.
  intros Ha Hne Hnames.
  set (n := Z.of_nat (length names)).
  assert (Hn : 0 < n) by (subst n; destruct names; [done | simpl; lia]).
  destruct (set_variable_number_fresh c a n Ha Hn)
    as (s1 & Hrun & Hv & Hd & _).
  set (v0 := new_variable (init_opts a) [number_dim c; "len_name"] [n; 33] S1
               (CharArr (replicate (Z.to_nat n * 33) NUL))) in *.
  destruct (rows_loop (name_var c)
              (λ '(i, name), put_variable_name c name (i + 1))
              v0 (Z.to_nat n) 33 (dimensions (_f s1)) names) with
    (k := 0%nat) (l := replicate (Z.to_nat n * 33) NUL) (s := s1)
    as (us & s2 & l' & Hloop & Hv' & _ & Hlen' & Hrows').
  { intros k x l s HD Hvs Hlen Hk Hx.
    rewrite (put_variable_name_row c (set_data v0 (CharArr l)) n l x
               (Z.of_nat k + 1) s Hvs);
      [ | reflexivity | reflexivity | done
        | intros ->; rewrite HD, Hd; apply lookup_insert_eq
        | lia | unfold len; lia ].
    by replace (Z.to_nat (Z.of_nat k + 1 - 1)) with k by lia. }
  { reflexivity. }
  { exact Hv. }
  { apply length_replicate. }
  { subst n. lia. }
  { eapply Forall_impl; [exact Hnames|]. intros x [_ Hx]. unfold len in Hx.
    lia. }
  exists (init_state a), s1, s2. split; [by apply init_ok|]. split; [done|].
  split.
  - unfold put_variable_names, enumerate.
    erewrite (imap_ext _ (λ i y, (Z.of_nat (0 + i), y))) by done.
    erewrite bind_inr; [|exact Hloop]. reflexivity.
  - eapply (get_variable_names_rows c _ n l'); [exact Hv' | reflexivity
                                               | reflexivity |].
    rewrite Hrows'. unfold splice. cbn [take app Nat.add].
    rewrite drop_ge by (rewrite length_rows_of; lia). rewrite app_nil_r.
    apply Forall2_fmap_l, Forall_Forall2_diag.
    eapply Forall_impl; [exact Hnames|]. intros x [Hx _].
    by apply decode_row_padded.
Qed.

(** X16.
    Two inputs [put_*_variable_name] does not check.  A name of more than
    33 characters is not shortened: the slot's row is cleared, then the
    assignment of the name fails in the container, so the call raises and
    the slot has lost the name it had.  Index 0 is the index -1 of the
    array: the name lands in the last slot. *)
Theorem put_variable_name_unchecked c s v n l name :
  variables (_f s) !! name_var c = Some v → v_shape v = [n; 33] →
  v_data v = CharArr l → length l = (Z.to_nat n * 33)%nat →
  (c = Node → dimensions (_f s) !! "num_nod_var" = Some n) →
  (∀ index, 1 ≤ index ≤ n → 33 < len name →
     ∃ s', put_variable_name c name index s
           = (inl (TypeError "Can't broadcast"), s')
           ∧ char_rows_of s' (name_var c)
             = Some (<[Z.to_nat (index - 1) := replicate 33 NUL]>
                       (rows_of (Z.to_nat n) 33 l)))
  ∧ (1 ≤ n → len name ≤ 33 →
     ∃ s', put_variable_name c name 0 s = (inr (), s')
           ∧ char_rows_of s' (name_var c)
             = Some (<[Z.to_nat (n - 1) := padded 33 name]>
                       (rows_of (Z.to_nat n) 33 l))).
Proof.
  intros Hv Hs Hl Hlen Hnode. split.
  - intros index Hi Hname.
    exists (set_var (name_var c)
              (set_data v (CharArr (splice l (Z.to_nat (index - 1) * 33) 33
                                      (replicate 33 NUL)))) s).
    split.
    + assert (Hput :
        (var_setitem (name_var c) (index - 1) (CharArr [NUL]);;
         var_setitem_prefix (name_var c) (index - 1) (len name)
           (CharArr (encoded_cells name))) s
        = (inl (TypeError "Can't broadcast"),
           set_var (name_var c)
             (set_data v (CharArr (splice l (Z.to_nat (index - 1) * 33) 33
                                     (replicate 33 NUL)))) s)).
      { rewrite (bind_inr _ _ _ _ _
                   (clear_row (name_var c) v n 33 l (index - 1) s
                      Hv Hs Hl ltac:(lia))).
        unfold var_setitem_prefix.
        erewrite bind_inr;
          [|apply vars_getitem_Some; norm; apply lookup_insert_eq].
        unfold axis0, row_width. cbn [set_data v_shape v_data]. rewrite Hs.
        cbn [hd tail foldr].
        rewrite (py_index_in_range n (index - 1)) by lia.
        unfold assign, array_assign, bcast.
        rewrite bool_decide_eq_false_2.
        2:{ rewrite length_encoded_cells. unfold py_clamp, len in *.
            destruct (Z.ltb_spec (Z.of_nat (String.length name)) 0); lia. }
        destruct (encoded_cells name) as [|c1 [|c2 cells]] eqn:Hcells;
          [| |reflexivity];
          apply (f_equal length) in Hcells;
          rewrite length_encoded_cells in Hcells; unfold len in Hname;
          simpl in Hcells; lia. }
      destruct c; cbn [put_variable_name name_var] in *;
        [ unfold put_global_variable_name | unfold put_element_variable_name
        | unfold put_node_variable_name ]; [exact Hput | exact Hput |].
      mstep ltac:(apply dims_getitem_Some, Hnode; reflexivity).
      mstep ltac:(apply py_assert_true; lia).
      exact Hput.
    + rewrite (char_rows_of_set_var _ _ _ n 33) by done.
      change (Z.to_nat 33) with 33%nat.
      by rewrite rows_of_splice;
        [ | apply length_replicate | lia | ].
  - intros Hn Hname.
    exists (set_var (name_var c)
              (set_data v (CharArr (splice l (Z.to_nat (n - 1) * 33) 33
                                      (padded 33 name)))) s).
    split.
    + apply (put_variable_name_row_at c v n l name 0); try done; [|lia..].
      unfold py_index. change (0 - 1 <? 0) with true. cbv iota.
      destruct (Z.leb_spec 0 (0 - 1 + n)); [|lia].
      destruct (Z.ltb_spec (0 - 1 + n) n); [|lia].
      simpl. f_equal. lia.
    + rewrite (char_rows_of_set_var _ _ _ n 33) by done.
      change (Z.to_nat 33) with 33%nat.
      by rewrite rows_of_splice;
        [ | apply length_padded; unfold len in Hname; lia | lia | ].
Qed.


(** ** Where values are stored *)















End Exodus.

(** * The statements at concrete files

    Floating-point numbers are taken in [Z] here; no statement depends on
    them. *)

Lemma flat_args_valid : valid_args flat_args.
Proof. constructor; simpl; (reflexivity || lia || tauto). Defined.

(** C1 at a file of two dimensions. *)
Lemma init_creates_three_coord_arrays_witness :
  valid_args flat_args
  ∧ ∃ s, __init__ 0%Z flat_args = inr s
         ∧ dom (coord_arrays s)
           = ({["coordx"; "coordy"; "coordz"]} : gset string)
         ∧ size (coord_arrays s) = 3%nat
         ∧ ∀ name, name ∈ ["coordx"; "coordy"; "coordz"] →
                   shape_of s name = Some [numNodes flat_args].
Proof.
  split; [exact flat_args_valid|].
  apply (init_creates_three_coord_arrays 0%Z flat_args flat_args_valid).
Defined.

(** C1 as the spec has it fails for d = 2: the file of two dimensions has
    three coordinate arrays, not two. *)
Lemma two_dimensions_three_coord_arrays :
  numDims flat_args = 2
  ∧ ∃ s, __init__ 0%Z flat_args = inr s
         ∧ size (coord_arrays s) = 3%nat
         ∧ size (coord_arrays s) ≠ Z.to_nat (numDims flat_args).
Proof.
  split; [reflexivity|]. exists (init_state 0%Z flat_args).
  split; [apply init_ok, flat_args_valid|].
  split; [vm_compute; reflexivity|]. vm_compute. discriminate.
Qed.

(** C4 at the second global name of [flat_file]. *)
Lemma put_name_then_get_names_witness :
  ∃ s', put_variable_name Global "energy" 2 (flat_file 0%Z) = (inr (), s')
        ∧ get_variable_names Global s' = (inr ["stress"; "energy"], s').
Proof.
  destruct (variables (_f (flat_file 0%Z)) !! "name_glo_var") as [v|] eqn:Hv;
    [|vm_compute in Hv; discriminate Hv].
  destruct (v_data v) as [|?|l] eqn:Hl.
  1,2: vm_compute in Hv; injection Hv as <-; discriminate Hl.
  destruct (put_name_then_get_names Global (flat_file 0%Z) v 2 l
              ["stress"; "strain"] "energy" 2) as (s' & Hput & Hget & _).
  - exact Hv.
  - vm_compute in Hv. injection Hv as <-. reflexivity.
  - exact Hl.
  - vm_compute in Hv. injection Hv as <-. injection Hl as <-. reflexivity.
  - intros H. discriminate H.
  - vm_compute. reflexivity.
  - lia.
  - vm_compute. discriminate.
  - unfold clean_name. simpl. split; [|split].
    + repeat constructor; (reflexivity || discriminate).
    + intros c [= <-]. reflexivity.
    + intros c [= <-]. reflexivity.
  - exists s'. split; [exact Hput | exact Hget].
Defined.

(** C4 as the spec has it fails for a name that ends in a space: two
    characters, less than the maximum length, and what is read back is "a". *)
Lemma trailing_space_is_not_read_back :
  len "a " < 33
  ∧ ((put_global_variable_name "a " 1;; get_global_variable_names)
       (flat_file 0%Z)).1 = inr ["a"; "strain"]
  ∧ "a" ≠ "a ".
Proof.
  split; [reflexivity|]. split; [vm_compute; reflexivity|]. discriminate.
Qed.

(** C5 at the two slots of [flat_args]. *)
Lemma blocks_fill_slots_in_call_order_witness :
  ∃ s0 s,
    __init__ 0%Z flat_args = inr s0
    ∧ put_blocks 0%Z [Block 10 "QUAD" 1 4; Block 20 "TRI" 1 3] s0 = (inr (), s)
    ∧ next_slot s0 = Some 1
    ∧ ints_of s "eb_status" = Some [1; 1]
    ∧ ints_of s "eb_prop1" = Some [10; 20]
    ∧ put_elem_blk_info 0%Z 30 "QUAD" 1 4 0 s
      = (inl (AssertionError "All element blocks already set."), s).
Proof.
  destruct (blocks_fill_slots_in_call_order 0%Z flat_args
              [Block 10 "QUAD" 1 4; Block 20 "TRI" 1 3] flat_args_valid)
    as (s0 & s & Hinit & Hrun & Hslots & Hstatus & Hprop & Hfull).
  - reflexivity.
  - repeat constructor; unfold valid_block, int32_range; simpl; lia.
  - exists s0, s. split; [exact Hinit|]. split; [exact Hrun|].
    split; [|split; [exact Hstatus|split; [exact Hprop|]]].
    + destruct (Hslots 0%nat _ eq_refl) as (si & Hsi & Hnext & _).
      injection Hsi as <-. exact Hnext.
    + apply Hfull. simpl. lia.
Defined.

(** C6 at [flat_file], whose side set 7 is allocated and whose second slot
    is free. *)
Lemma side_set_duplicate_id_rejected_witness :
  ints_of (flat_file 0%Z) "ss_prop1" = Some [7; -1]
  ∧ ints_of (flat_file 0%Z) "ss_status" = Some [1; 0]
  ∧ put_side_set_params 0%Z 7 5 0 (flat_file 0%Z)
    = (inl (AssertionError "Side set id 7 already exists."), flat_file 0%Z).
Proof.
  assert (Hp : ints_of (flat_file 0%Z) "ss_prop1" = Some [7; -1])
    by (vm_compute; reflexivity).
  split; [exact Hp|]. split; [vm_compute; reflexivity|].
  destruct (side_set_duplicate_id_rejected 0%Z (flat_file 0%Z) 7 5 0 [7; -1] Hp)
    as (msg & Hrun & Hmsg).
  - apply list_elem_of_here.
  - rewrite (Hmsg eq_refl) in Hrun. exact Hrun.
Defined.

(** C7 at the global variable "strain" of [flat_file]. *)
Lemma step_bounds_witness :
  run_step_op 0%Z (PutGlobal "strain" 5%Z) 0 (flat_file 0%Z)
  = (inl (AssertionError "Step must be larger than 0."), flat_file 0%Z)
  ∧ run_step_op 0%Z (PutGlobal "strain" 5%Z) 2 (flat_file 0%Z)
    = (inl (AssertionError ""), flat_file 0%Z)
  ∧ ∃ s', run_step_op 0%Z (PutGlobal "strain" 5%Z) 1 (flat_file 0%Z)
          = (inr (), s').
Proof.
  destruct (step_bounds 0%Z (PutGlobal "strain" 5%Z) (flat_file 0%Z))
    as (Hlow & Hhigh & Hone).
  - vm_compute. reflexivity.
  - split; [apply Hlow; lia|]. split; [apply Hhigh; lia|]. apply Hone.
    destruct (variables (_f (flat_file 0%Z)) !! "vals_glo_var") as [v|] eqn:Hv;
      [|vm_compute in Hv; discriminate Hv].
    destruct (v_data v) as [|l|] eqn:Hl.
    1,3: vm_compute in Hv; injection Hv as <-; discriminate Hl.
    exists ["stress"; "strain"], 1, v, 2, l.
    split; [vm_compute; reflexivity|]. split; [reflexivity|].
    split; [exact Hv|].
    split; [vm_compute in Hv; injection Hv as <-; reflexivity|].
    split; [exact Hl|lia].
Defined.

(** C8 at two blocks of id 10 in the two slots of [flat_args]. *)
Lemma duplicate_block_id_claims_new_slot_witness :
  ∃ s0 s,
    __init__ 0%Z flat_args = inr s0
    ∧ put_blocks 0%Z [Block 10 "QUAD" 1 4; Block 10 "TRI" 1 3] s0 = (inr (), s)
    ∧ ints_of s "eb_prop1" = Some [10; 10]
    ∧ shape_of s "connect1" = Some [1; 4]
    ∧ shape_of s "connect2" = Some [1; 3].
Proof.
  destruct (duplicate_block_id_claims_new_slot 0%Z flat_args
              (Block 10 "QUAD" 1 4) (Block 10 "TRI" 1 3) flat_args_valid)
    as [(s0 & s & H) _].
  - simpl. lia.
  - unfold valid_block, int32_range. simpl. lia.
  - unfold valid_block, int32_range. simpl. lia.
  - reflexivity.
  - exists s0, s. exact H.
Defined.

(** C10 at the two free side-set slots of [flat_args]. *)
Lemma fresh_file_rejects_side_set_minus_one_witness :
  ∃ s0,
    __init__ 0%Z flat_args = inr s0
    ∧ ints_of s0 "ss_prop1" = Some [-1; -1]
    ∧ ints_of s0 "ss_status" = Some [0; 0]
    ∧ put_side_set_params 0%Z (-1) 3 0 s0
      = (inl (AssertionError "Side set id -1 already exists."), s0).
Proof.
  destruct (fresh_file_rejects_side_set_minus_one 0%Z flat_args flat_args_valid)
    as (s0 & Hinit & Hp & Hs & Hrej).
  - simpl. lia.
  - exists s0. split; [exact Hinit|]. split; [exact Hp|]. split; [exact Hs|].
    destruct (Hrej 3 0) as (msg & Hrun & Hmsg).
    rewrite (Hmsg eq_refl) in Hrun. exact Hrun.
Defined.

(** * The further properties at concrete files *)

(** The constructor's checks, each at arguments that fail it and pass the
    ones before. *)
Lemma init_rejects_witness :
  __init__ 0%Z (InitArgs "flat.e" "r" "numpy" "flat" 2 4 2 2 0 2 8 None
                  false true)
  = inl (AssertionError "Currently only writing is supported.")
  ∧ __init__ 0%Z (InitArgs "flat.e" "w" "numpy" "flat" 1 4 2 2 0 2 8 None
                    false true)
    = inl (AssertionError "Only 2 or 3 dimensions are supported.")
  ∧ __init__ 0%Z (InitArgs "flat.e" "w" "numpy" "flat" 2 4 2 2 0 2 16 None
                    false true)
    = inl NotImplementedError
  ∧ __init__ 0%Z (InitArgs "flat.e" "w" "numpy" "flat" 2 4 2 2 0 2 8 None
                    true true)
    = inl (AssertionError "File 'flat.e' already exists.").
Proof.
  split; [|split; [|split]].
  - destruct (init_rejects 0%Z (InitArgs "flat.e" "r" "numpy" "flat" 2 4 2 2
                                  0 2 8 None false true)) as (H & _).
    apply H. simpl. discriminate.
  - destruct (init_rejects 0%Z (InitArgs "flat.e" "w" "numpy" "flat" 1 4 2 2
                                  0 2 8 None false true))
      as (_ & _ & _ & H & _).
    apply H; simpl; first [reflexivity | lia].
  - destruct (init_rejects 0%Z (InitArgs "flat.e" "w" "numpy" "flat" 2 4 2 2
                                  0 2 16 None false true))
      as (_ & _ & _ & _ & H & _).
    apply H; simpl; first [reflexivity | lia | tauto].
  - destruct (init_rejects 0%Z (InitArgs "flat.e" "w" "numpy" "flat" 2 4 2 2
                                  0 2 8 None true true))
      as (_ & _ & _ & _ & _ & H).
    apply H; simpl; first [reflexivity | lia | tauto].
Defined.

(** The precision of [flat_args], whose [io_size] is 8. *)
Lemma init_precision_witness :
  ∃ s, __init__ 0%Z flat_args = inr s
       ∧ __f_dtype s = float64 ∧ __f_word_size s = 8
       ∧ attrs (_f s) !! "floating_point_word_size"
         = Some (AttrInt32 [__f_word_size s])
       ∧ v_dtype <$> variables (_f s) !! "coordz" = Some (__f_dtype s).
Proof.
  destruct (init_precision 0%Z flat_args flat_args_valid)
    as (s & Hinit & _ & H8 & _ & Hattr & Hvars).
  exists s. split; [exact Hinit|]. destruct (H8 eq_refl) as [Hd Hw].
  split; [exact Hd|]. split; [exact Hw|]. split; [exact Hattr|].
  apply Hvars. rewrite !elem_of_cons. tauto.
Defined.

(** The side-set methods in the file of [tet_args], which has no side
    sets. *)
Lemma init_without_side_sets_witness :
  ∃ s, __init__ 0%Z tet_args = inr s
       ∧ dimensions (_f s) !! "num_side_sets" = None
       ∧ put_side_set_params 0%Z 7 3 0 s = (inl (KeyError "ss_prop1"), s)
       ∧ put_side_set 7 [1] [1] s = (inl (KeyError "ss_prop1"), s)
       ∧ put_side_set_name 7 "top" s = (inl (KeyError "ss_prop1"), s).
Proof.
  destruct (init_without_side_sets 0%Z tet_args tet_args_valid eq_refl)
    as (s & Hinit & Hdim & _ & Hparams & Hset & Hname).
  exists s. split; [exact Hinit|]. split; [exact Hdim|].
  split; [apply Hparams|]. split; [apply Hset | apply Hname].
Defined.

(** The argument checks of [put_elem_blk_info] in the file of [flat_args],
    which has two elements. *)
Lemma put_elem_blk_info_rejects_witness :
  put_elem_blk_info 0%Z 10 "QUAD" 3 4 0 (init_state 0%Z flat_args)
  = (inl (AssertionError
            "Canont have more elements in the block then globally set."),
     init_state 0%Z flat_args)
  ∧ put_elem_blk_info 0%Z 10 "QUAD" 1 4 1 (init_state 0%Z flat_args)
    = (inl (AssertionError "Must be 0 for now."), init_state 0%Z flat_args).
Proof.
  assert (He : dimensions (_f (init_state 0%Z flat_args)) !! "num_elem"
               = Some 2) by (vm_compute; reflexivity).
  split.
  - destruct (put_elem_blk_info_rejects 0%Z (init_state 0%Z flat_args) 2 10
                "QUAD" 3 4 0 He) as [H _].
    apply H. lia.
  - destruct (put_elem_blk_info_rejects 0%Z (init_state 0%Z flat_args) 2 10
                "QUAD" 1 4 1 He) as [_ H].
    apply H; lia.
Defined.

(** Facts about [mesh_file], by evaluation. *)
Lemma mesh_file_connect1 :
  ∃ v, variables (_f (mesh_file 0%Z)) !! "connect1" = Some v
       ∧ v_shape v = [1; 4] ∧ v_data v = IntArr [0; 0; 0; 0].
Proof.
  destruct (variables (_f (mesh_file 0%Z)) !! "connect1") as [v|] eqn:Hv;
    [|vm_compute in Hv; discriminate Hv].
  exists v. split; [reflexivity|].
  vm_compute in Hv. injection Hv as <-. split; reflexivity.
Defined.

Lemma mesh_file_connect2 :
  ∃ v, variables (_f (mesh_file 0%Z)) !! "connect2" = Some v
       ∧ v_data v = IntArr [].
Proof.
  destruct (variables (_f (mesh_file 0%Z)) !! "connect2") as [v|] eqn:Hv;
    [|vm_compute in Hv; discriminate Hv].
  exists v. split; [reflexivity|].
  vm_compute in Hv. injection Hv as <-. reflexivity.
Defined.

(** Connectivity without a shift, for the quadrilateral of [mesh_file]. *)
Lemma put_elem_connectivity_unshifted_witness :
  (∃ s', put_elem_connectivity 0 1 (NdArray 8 [1; 2; 3; 4]) 0 1
           (mesh_file 0%Z) = Some (inr (), s')
         ∧ ints_of s' "connect1" = Some [1; 2; 3; 4])
  ∧ put_elem_connectivity 0 1 (NdArray 8 [1; 2; 3]) 1 1 (mesh_file 0%Z)
    = Some (inl (AssertionError ""), mesh_file 0%Z).
Proof.
  destruct mesh_file_connect1 as (v & Hv & Hs & Hd).
  destruct (put_elem_connectivity_unshifted 1 (NdArray 8 [1; 2; 3; 4])
              (mesh_file 0%Z) v [0; 0; 0; 0] 1 4) as [Hok _];
    [vm_compute; reflexivity | vm_compute; reflexivity | exact Hv | exact Hd
    | reflexivity |].
  destruct (put_elem_connectivity_unshifted 1 (NdArray 8 [1; 2; 3])
              (mesh_file 0%Z) v [0; 0; 0; 0] 1 4) as [_ Hbad];
    [vm_compute; reflexivity | vm_compute; reflexivity | exact Hv | exact Hd
    | reflexivity |].
  split.
  - destruct (Hok eq_refl) with (fuel := 0%nat) (mb := 1)
      as (s' & Hrun & Hints & _).
    { unfold int32_items, dtype_range, int32_range. simpl.
      repeat constructor; lia. }
    exists s'. split; [exact Hrun | exact Hints].
  - apply Hbad. simpl. lia.
Defined.

(** The block of [mesh_file] whose elements have no nodes. *)
Lemma put_elem_connectivity_no_nodes_witness :
  (∃ s', put_elem_connectivity 0 2 (NdArray 8 []) 0 1 (mesh_file 0%Z)
         = Some (inr (), s'))
  ∧ put_elem_connectivity 0 2 (NdArray 8 []) 1 1 (mesh_file 0%Z)
    = Some (inl ZeroDivisionError, mesh_file 0%Z).
Proof.
  destruct mesh_file_connect2 as (v & Hv & Hd).
  destruct (put_elem_connectivity_no_nodes 2 (NdArray 8 []) (mesh_file 0%Z)
              v 2) as [Hok Hdiv];
    [vm_compute; reflexivity | vm_compute; reflexivity | exact Hv | exact Hd
    | reflexivity |].
  split.
  - destruct (Hok 0%nat 1) as (s' & Hrun & _). exists s'. exact Hrun.
  - apply Hdiv. lia.
Defined.

(** The triangle allocated second in the file of [flat_args], under the
    id 20: its connectivity is taken under the number 2. *)
Lemma connectivity_by_slot_after_blocks_witness :
  ∃ s0 s s',
    __init__ 0%Z flat_args = inr s0
    ∧ put_blocks 0%Z [Block 10 "QUAD" 1 4; Block 20 "TRI" 1 3] s0 = (inr (), s)
    ∧ put_elem_connectivity 1 2 (NdArray 8 [0; 1; 2]) 1 1 s
      = Some (inr (), s')
    ∧ ints_of s' "connect2" = Some [1; 2; 3].
Proof.
  destruct (connectivity_by_slot_after_blocks 0%Z flat_args
              [Block 10 "QUAD" 1 4; Block 20 "TRI" 1 3] 1
              (Block 20 "TRI" 1 3) (NdArray 8 [0; 1; 2]) 1 1
              flat_args_valid)
    as (s0 & s & Hinit & Hrun & Hconn).
  - simpl. lia.
  - repeat constructor; unfold valid_block, int32_range; simpl; lia.
  - reflexivity.
  - reflexivity.
  - simpl. lia.
  - simpl. lia.
  - vm_compute. discriminate.
  - unfold shift_fits, dtype_range, int32_range. simpl.
    repeat constructor; lia.
  - destruct (Hconn 1%nat) as (s' & Hput & Hints & _); [simpl; lia|].
    exists s0, s, s'. split; [exact Hinit|]. split; [exact Hrun|].
    split; [exact Hput | exact Hints].
Defined.

(** Two budgets for the two elements of 65537 nodes of [rows_connectivity]:
    one megabyte is a chunk of one row, so the two rows are written in two
    pieces; four megabytes are a chunk of seven rows, one piece. *)
Lemma put_elem_connectivity_budget_independent_witness :
  chunk_rows 1 8 65537 = 1 ∧ chunk_rows 4 8 65537 = 7
  ∧ ∃ s s1 s2,
      put_blocks 0%Z [Block 10 "WIDE" 2 65537] (init_state 0%Z rows_args)
      = (inr (), s)
      ∧ put_elem_connectivity 2 1 rows_connectivity 1 1 s = Some (inr (), s1)
      ∧ put_elem_connectivity 2 1 rows_connectivity 1 4 s = Some (inr (), s2)
      ∧ ints_of s1 "connect1" = ints_of s2 "connect1"
      ∧ ints_of s1 "connect1"
        = Some (replicate (Z.to_nat 65537) 1 ++ replicate (Z.to_nat 65537) 6).
Proof.
  split; [vm_compute; reflexivity|]. split; [vm_compute; reflexivity|].
  assert (Hinv0 : blocks_inv 1 2 [] (init_state 0%Z rows_args))
    by (apply (init_blocks_inv 0%Z rows_args); simpl; lia).
  destruct (put_blocks_spec 0%Z 1 2 [Block 10 "WIDE" 2 65537] []
              (init_state 0%Z rows_args) Hinv0) as (s & Hrun & Hinv).
  { simpl. lia. }
  { repeat constructor; unfold valid_block, int32_range;
      cbn [b_elems b_nodes b_id]; lia. }
  destruct (bi_connect _ _ _ _ Hinv 0%nat (Block 10 "WIDE" 2 65537) eq_refl)
    as (He & Hn & v & Hv & Hs & Hd).
  cbn [b_elems b_nodes] in He, Hn, Hs, Hd.
  destruct (put_elem_connectivity_budget_independent 1 rows_connectivity
              1 1 4 s v _ 2 65537 He Hn Hv Hs Hd)
    with (fuel := 2%nat) as (s1 & s2 & H1 & H2 & Heq & Hval).
  - rewrite length_replicate. unfold rows_connectivity. cbn [items].
    rewrite length_app, !length_replicate. lia.
  - lia.
  - lia.
  - reflexivity.
  - unfold rows_connectivity. cbn [items].
    rewrite length_app, !length_replicate. lia.
  - discriminate.
  - unfold shift_fits, rows_connectivity, dtype_range, int32_range.
    cbn [itemsize items]. change (2 ^ (8 * 8 - 1)) with 9223372036854775808.
    split; [lia|]. apply Forall_app. split; apply Forall_replicate; lia.
  - vm_compute. discriminate.
  - vm_compute. discriminate.
  - lia.
  - exists s, s1, s2. split; [exact Hrun|]. split; [exact H1|].
    split; [exact H2|]. split; [exact Heq|].
    transitivity (Some ((λ x, x + 1) <$> items rows_connectivity));
      [exact Hval|].
    unfold rows_connectivity. cbn [items].
    rewrite fmap_app, !fmap_replicate. reflexivity.
Defined.

Lemma two_sets_valid :
  NoDup (ss_id <$> [SideSet 7 3; SideSet 9 2])
  ∧ Forall valid_side_set [SideSet 7 3; SideSet 9 2].
Proof.
  split.
  - apply (bool_decide_unpack _). vm_compute. exact I.
  - repeat constructor; unfold valid_side_set, int32_range; simpl; lia.
Defined.

(** Two side sets in the two slots of [flat_args]. *)
Lemma side_sets_fill_slots_in_call_order_witness :
  ∃ s0 s,
    __init__ 0%Z flat_args = inr s0
    ∧ put_side_sets 0%Z [SideSet 7 3; SideSet 9 2] s0 = (inr (), s)
    ∧ ints_of s "ss_prop1" = Some [7; 9]
    ∧ ints_of s "ss_status" = Some [1; 1]
    ∧ shape_of s "elem_ss2" = Some [2]
    ∧ put_side_set_params 0%Z 11 1 0 s
      = (inl (AssertionError "Maximum number of side sets reached."), s).
Proof.
  destruct two_sets_valid as [Hnd Hvalid].
  destruct (side_sets_fill_slots_in_call_order 0%Z flat_args
              [SideSet 7 3; SideSet 9 2] flat_args_valid)
    as (s0 & s & Hinit & Hrun & Hprop & Hstatus & Hshape & Hfull);
    [simpl; lia | simpl; lia | exact Hnd | exact Hvalid |].
  exists s0, s. split; [exact Hinit|]. split; [exact Hrun|].
  split; [exact Hprop|]. split; [exact Hstatus|]. split.
  - destruct (Hshape 1%nat (SideSet 9 2) eq_refl) as [He _]. exact He.
  - apply Hfull; [reflexivity|].
    apply (bool_decide_unpack _). vm_compute. exact I.
Defined.

(** The side set 9, allocated second, takes its elements and sides. *)
Lemma put_side_set_by_id_witness :
  ∃ s0 s s',
    __init__ 0%Z flat_args = inr s0
    ∧ put_side_sets 0%Z [SideSet 7 3; SideSet 9 2] s0 = (inr (), s)
    ∧ put_side_set 9 [1; 2] [3; 4] s = (inr (), s')
    ∧ ints_of s' "elem_ss2" = Some [1; 2]
    ∧ ints_of s' "side_ss2" = Some [3; 4].
Proof.
  destruct two_sets_valid as [Hnd Hvalid].
  destruct (put_side_set_by_id 0%Z flat_args [SideSet 7 3; SideSet 9 2] 1
              (SideSet 9 2) [1; 2] [3; 4] flat_args_valid)
    as (s0 & s & s' & Hinit & Hrun & Hput & He & Hs & _);
    [simpl; lia | simpl; lia | exact Hnd | exact Hvalid | reflexivity
    | reflexivity | reflexivity
    | repeat constructor; unfold int32_range; lia
    | repeat constructor; unfold int32_range; lia |].
  exists s0, s, s'. split; [exact Hinit|]. split; [exact Hrun|].
  split; [exact Hput|]. split; [exact He | exact Hs].
Defined.

Lemma one_set_valid :
  NoDup (ss_id <$> [SideSet 7 3]) ∧ Forall valid_side_set [SideSet 7 3].
Proof.
  split.
  - apply (bool_decide_unpack _). vm_compute. exact I.
  - repeat constructor; unfold valid_side_set, int32_range; simpl; lia.
Defined.

(** With the side set 7 allocated and one slot free: the id 5 is not
    found, the id -1 is found at the free slot. *)
Lemma put_side_set_unknown_id_witness :
  ∃ s0 s,
    __init__ 0%Z flat_args = inr s0
    ∧ put_side_sets 0%Z [SideSet 7 3] s0 = (inr (), s)
    ∧ put_side_set 5 [1] [1] s
      = (inl (AssertionError "Could not find side set with id 5."), s)
    ∧ put_side_set (-1) [1] [1] s = (inl (KeyError "elem_ss2"), s).
Proof.
  destruct one_set_valid as [Hnd Hvalid].
  destruct (put_side_set_unknown_id 0%Z flat_args [SideSet 7 3] 5
              flat_args_valid)
    as (s0 & s & Hinit & Hrun & Hunknown & Hfree);
    [simpl; lia | simpl; lia | exact Hnd | exact Hvalid | |].
  { apply (bool_decide_unpack _). vm_compute. exact I. }
  exists s0, s. split; [exact Hinit|]. split; [exact Hrun|]. split.
  - destruct Hunknown as [Hset _]; [left; lia|]. apply Hset.
  - apply Hfree. simpl. lia.
Defined.

(** The side set 7 is named in row 0 of [ss_names]. *)
Lemma put_side_set_name_row_witness :
  ∃ s0 s s',
    __init__ 0%Z flat_args = inr s0
    ∧ put_side_sets 0%Z [SideSet 7 3] s0 = (inr (), s)
    ∧ put_side_set_name 7 "top" s = (inr (), s')
    ∧ char_rows_of s' "ss_names"
      = Some [padded 33 "top"; replicate 33 NUL].
Proof.
  destruct one_set_valid as [Hnd Hvalid].
  destruct (put_side_set_name_row 0%Z flat_args [SideSet 7 3] "top"
              flat_args_valid)
    as (s0 & s & Hinit & Hrun & _ & Hrow & _);
    [simpl; lia | simpl; lia | exact Hnd | exact Hvalid | vm_compute;
     discriminate |].
  destruct (Hrow 0%nat (SideSet 7 3) eq_refl) as (s' & Hput & Hrows).
  exists s0, s, s'. split; [exact Hinit|]. split; [exact Hrun|].
  split; [exact Hput | exact Hrows].
Defined.

(** Two info records, the second empty, in the file of [flat_args]; and a
    record of 81 characters. *)
Lemma put_info_records_rows_witness :
  (∃ s', put_info_records 0%Z ["made by pyexodus"; ""]
           (init_state 0%Z flat_args) = (inr (), s')
         ∧ dimensions (_f s') !! "num_info" = Some 2
         ∧ char_rows_of s' "info_records"
           = Some [padded 81 "made by pyexodus"; replicate 81 NUL])
  ∧ ∃ r, len r = 81
         ∧ put_info_records 0%Z ["ok"; r] (init_state 0%Z flat_args)
           = (inl (AssertionError ("Records '" +:+ r
                                   +:+ "' is longer then 81 letters.")),
              init_state 0%Z flat_args).
Proof.
  assert (HL : dimensions (_f (init_state 0%Z flat_args)) !! "len_line"
               = Some 81) by (vm_compute; reflexivity).
  split.
  - destruct (put_info_records_rows 0%Z (init_state 0%Z flat_args) 81
                ["made by pyexodus"; ""] HL) as (_ & _ & Hok).
    destruct Hok as (s' & Hrun & Hdim & _ & Hrows).
    + discriminate.
    + repeat constructor.
    + vm_compute. reflexivity.
    + vm_compute. reflexivity.
    + exists s'. split; [exact Hrun|]. split; [exact Hdim | exact Hrows].
  - exists (string_of_list_ascii (replicate 81 "x"%char)).
    split; [vm_compute; reflexivity|].
    destruct (put_info_records_rows 0%Z (init_state 0%Z flat_args) 81
                ["ok"; string_of_list_ascii (replicate 81 "x"%char)] HL)
      as (_ & Hbad & _).
    apply (Hbad ["ok"] _ []); [reflexivity | repeat constructor |].
    vm_compute. discriminate.
Defined.

(** Two node variables declared in the file of [flat_args], which has four
    nodes. *)
Lemma set_variable_number_declares_witness :
  ∃ s0 s1,
    __init__ 0%Z flat_args = inr s0
    ∧ set_node_variable_number 0%Z 0 s0 = (inr (), s0)
    ∧ set_node_variable_number 0%Z 2 s0 = (inr (), s1)
    ∧ get_node_variable_names s1 = (inr [EmptyString; EmptyString], s1)
    ∧ shape_of s1 "vals_nod_var2" = Some [1; 4].
Proof.
  destruct (set_variable_number_declares 0%Z Node flat_args 2 flat_args_valid)
    as (s0 & Hinit & Hzero & Hpos).
  destruct Hpos as (s1 & Hrun & _ & Hnames & _ & _ & Hnod); [lia|].
  exists s0, s1. split; [exact Hinit|]. split; [exact Hzero|].
  split; [exact Hrun|]. split; [exact Hnames|].
  destruct (Hnod eq_refl 2) as [Hshape _]; [lia|]. exact Hshape.
Defined.

Lemma pressure_density_clean :
  Forall (λ x, clean_name x ∧ len x ≤ 33) ["pressure"; "density"].
Proof.
  repeat constructor; try (vm_compute; discriminate);
    try (intros c [= <-]; reflexivity).
Defined.

(** Two element variables named and read back. *)
Lemma names_round_trip_witness :
  ∃ s0 s1 s2,
    __init__ 0%Z flat_args = inr s0
    ∧ set_element_variable_number 0%Z 2 s0 = (inr (), s1)
    ∧ put_variable_names Element ["pressure"; "density"] s1 = (inr (), s2)
    ∧ get_element_variable_names s2 = (inr ["pressure"; "density"], s2).
Proof.
  destruct (names_round_trip 0%Z Element flat_args ["pressure"; "density"]
              flat_args_valid)
    as (s0 & s1 & s2 & Hinit & Hset & Hput & Hget);
    [discriminate | exact pressure_density_clean |].
  exists s0, s1, s2. split; [exact Hinit|]. split; [exact Hset|].
  split; [exact Hput | exact Hget].
Defined.

(** In [flat_file], whose global variables are "stress" and "strain": a
    name of 34 characters for the first, and a name at index 0. *)
Lemma put_variable_name_unchecked_witness :
  (∃ s', put_global_variable_name "a_name_of_thirty_four_characters__" 1
           (flat_file 0%Z) = (inl (TypeError "Can't broadcast"), s')
         ∧ char_rows_of s' "name_glo_var"
           = Some [replicate 33 NUL; padded 33 "strain"])
  ∧ ∃ s', put_global_variable_name "energy" 0 (flat_file 0%Z) = (inr (), s')
          ∧ char_rows_of s' "name_glo_var"
            = Some [padded 33 "stress"; padded 33 "energy"].
Proof.
  destruct (variables (_f (flat_file 0%Z)) !! "name_glo_var") as [v|] eqn:Hv;
    [|vm_compute in Hv; discriminate Hv].
  destruct (v_data v) as [|?|l] eqn:Hl.
  1,2: vm_compute in Hv; injection Hv as <-; discriminate Hl.
  assert (Hs : v_shape v = [2; 33])
    by (vm_compute in Hv; injection Hv as <-; reflexivity).
  assert (Hrows : rows_of 2 33 l = [padded 33 "stress"; padded 33 "strain"])
    by (vm_compute in Hv; injection Hv as <-; injection Hl as <-;
        vm_compute; reflexivity).
  assert (Hlen : length l = (Z.to_nat 2 * 33)%nat)
    by (vm_compute in Hv; injection Hv as <-; injection Hl as <-;
        reflexivity).
  split.
  - destruct (put_variable_name_unchecked Global (flat_file 0%Z) v 2 l
                "a_name_of_thirty_four_characters__" Hv Hs Hl Hlen)
      as [Hlong _]; [discriminate|].
    destruct (Hlong 1) as (s' & Hput & Hrows'); [lia | reflexivity|].
    exists s'. split; [exact Hput|].
    change (Z.to_nat 2) with 2%nat in Hrows'. rewrite Hrows in Hrows'.
    exact Hrows'.
  - destruct (put_variable_name_unchecked Global (flat_file 0%Z) v 2 l
                "energy" Hv Hs Hl Hlen) as [_ Hzero]; [discriminate|].
    destruct Hzero as (s' & Hput & Hrows'); [lia | vm_compute; discriminate|].
    exists s'. split; [exact Hput|].
    change (Z.to_nat 2) with 2%nat in Hrows'. rewrite Hrows in Hrows'.
    exact Hrows'.
Defined.





